(** * db_doc: a data dictionary built from INFORMATION_SCHEMA

    A shallow embedding of [db_doc.py].  Each Python class is a module
    holding a record and the methods of the class as functions; the
    workbook, which the script mutates through the worksheets it is handed,
    is threaded explicitly.  What lies outside the script is kept apart
    from it: the catalog views and the SQL that reads them, the workbook
    library with its rules for sheet titles, and the calls that reach the
    database, the file system and the console, each of which may raise. *)

From Stdlib Require Import Ascii OrdersEx.
From stdpp Require Import base strings list gmap pretty sorting.

Open Scope string_scope.
Open Scope list_scope.
Open Scope nat_scope.

(** ** Python values *)

(** The values that travel from a catalog row into a worksheet cell.  The
    script never inspects them beyond truthiness and [str].  A string is a
    sequence of characters of one byte each. *)
Inductive pyval :=
  | PyNone
  | PyBool (b : bool)
  | PyInt (n : Z)
  | PyStr (s : string).

#[global] Instance pyval_eq_dec : EqDecision pyval.
Proof. solve_decision. Defined.

(** [bool(v)] *)
Definition truthy (v : pyval) : bool :=
  match v with
  | PyNone => false
  | PyBool b => b
  | PyInt n => negb (n =? 0)%Z
  | PyStr s => negb (String.eqb s "")
  end.

(** [str(v)], which is also what [format] substitutes for a plain field. *)
Definition str (v : pyval) : string :=
  match v with
  | PyNone => "None"
  | PyBool true => "True"
  | PyBool false => "False"
  | PyInt n => pretty n
  | PyStr s => s
  end.

(** [sep.join(l)] *)
Fixpoint join (sep : string) (l : list string) : string :=
  match l with
  | [] => ""
  | x :: xs =>
      match xs with
      | [] => x
      | _ :: _ => x +:+ sep +:+ join sep xs
      end
  end.

(** [any(l)] over objects whose truth value is given by [t]. *)
Definition py_any {A} (t : A → bool) (l : list A) : bool := existsb t l.

Definition of_option (o : option string) : pyval :=
  match o with
  | Some s => PyStr s
  | None => PyNone
  end.

(** ** Exceptions and results *)

(** Each exception carries the message it is raised with. *)
Inductive exn :=
  | DatabaseError (what : string)
  | ValueError (what : string)
  | KeyError (what : string)
  | IndexError
  | OSError (path : string)
  | IllegalCharacterError (what : string).

Inductive result (A : Type) :=
  | Ok (a : A)
  | Raise (e : exn).
Arguments Ok {A} a.
Arguments Raise {A} e.

#[global] Instance result_ret : MRet result := λ A a, Ok a.
#[global] Instance result_bind : MBind result := λ A B f m,
  match m with
  | Ok a => f a
  | Raise e => Raise e
  end.

(** A [for] loop whose body may raise. *)
Fixpoint for_each {A S} (body : S → A → result S) (s : S) (l : list A) : result S :=
  match l with
  | [] => Ok s
  | x :: xs => s' ← body s x; for_each body s' xs
  end.

(** ** The workbook library

    [openpyxl] is not part of the script.  A workbook is modelled by what
    the script can observe of it: an ordered list of worksheets, each a
    title and a dictionary of cells keyed by (row, column), both counted
    from 1.  A worksheet object handed out by the workbook is an alias of
    the sheet stored in it, so it is represented by its position. *)

Module Worksheet.
Record t := mk {
  title : string;
  cells : gmap (nat * nat) pyval
}.

(** [ws.cell(row, column)]: the cell is created empty on first access.
    The script asks only for rows and columns from 1 on. *)
Definition cell (row column : nat) (ws : t) : t :=
  match cells ws !! (row, column) with
  | Some _ => ws
  | None => mk (title ws) (<[(row, column) := PyNone]> (cells ws))
  end.

(** The sheet with [v] as the value of the cell at (row, column). *)
Definition put (row column : nat) (v : pyval) (ws : t) : t :=
  mk (title ws) (<[(row, column) := v]> (cells ws)).

(** [ILLEGAL_CHARACTERS_RE], which is [[\000-\010]|[\013-\014]|[\016-\037]]:
    the control characters but tab, line feed and carriage return. *)
Definition illegal_character (a : Ascii.ascii) : bool :=
  let n := Ascii.nat_of_ascii a in
  (n <=? 8) || ((11 <=? n) && (n <=? 12)) || ((14 <=? n) && (n <=? 31)).

(** A cell holds at most 32767 characters of a string. *)
Definition MAX_STRING : nat := N.to_nat 32767.

(** What a cell keeps of a value assigned to it: a string is cut to its
    first 32767 characters, any other value is kept as it is. *)
Definition stored (v : pyval) : pyval :=
  match v with
  | PyStr s => PyStr (String.substring 0 MAX_STRING s)
  | _ => v
  end.

Arguments stored : simpl never.

(** [cell.check_string(value)]: the string is cut first, then searched
    for an illegal character. *)
Definition check_string (value : string) : result string :=
  let value := String.substring 0 MAX_STRING value in
  if existsb illegal_character (String.list_ascii_of_string value)
  then Raise (IllegalCharacterError (value +:+ " cannot be used in worksheets."))
  else Ok value.

(** What [cell.value = v] binds: a string goes through [check_string],
    [None], a boolean and a number are taken as they are. *)
Definition bind_value (v : pyval) : result pyval :=
  match v with
  | PyStr s => s ← check_string s; mret (PyStr s)
  | _ => Ok v
  end.

(** [c.value = v] for the cell [c] of the sheet at (row, column). *)
Definition set_value (row column : nat) (v : pyval) (ws : t) : result t :=
  v ← bind_value v;
  mret (put row column v ws).

(** [ws.max_row]: 1 for an empty sheet, else the largest row in use. *)
Definition max_row (ws : t) : nat :=
  match map_to_list (cells ws) with
  | [] => 1
  | kvs => max_list ((λ kv, kv.1.1) <$> kvs)
  end.

(** [ws.max_column], likewise. *)
Definition max_column (ws : t) : nat :=
  match map_to_list (cells ws) with
  | [] => 1
  | kvs => max_list ((λ kv, kv.1.2) <$> kvs)
  end.

(** [ws.values]: no row for a sheet without a cell; else the rows
    [1 .. max_row], each over the columns [1 .. max_column], where a cell
    never touched reads as [None]. *)
Definition values (ws : t) : list (list pyval) :=
  if decide (cells ws = ∅) then []
  else (λ r, (λ c, default PyNone (cells ws !! (r, c))) <$> seq 1 (max_column ws))
         <$> seq 1 (max_row ws).
End Worksheet.

(** [avoid_duplicate_name(names, value)]: the title the library gives a
    new sheet asked to be titled [value] in a workbook whose sheets are
    titled [names].  It compares titles without regard to case and numbers
    a title that is taken; nothing is assumed of it here. *)
Class SheetNaming := {
  avoid_duplicate_name : list string → string → string
}.

Module Workbook.
Import Worksheet.

Abbreviation t := (list Worksheet.t).

(** [Workbook()] starts with one sheet titled "Sheet". *)
Definition new : t := [ Worksheet.mk "Sheet" ∅ ].

Definition sheetnames (wb : t) : list string := title <$> wb.

(** The characters of [INVALID_TITLE_REGEX], which is [[\\*?:/\[\]]]. *)
Definition invalid_title_chars : list Ascii.ascii :=
  [ "\"%char; "*"%char; "?"%char; ":"%char; "/"%char; "["%char; "]"%char ].

(** [INVALID_TITLE_REGEX.search(value)]: the first such character. *)
Definition invalid_title_character (value : string) : option Ascii.ascii :=
  head (filter (λ a, a ∈ invalid_title_chars) (String.list_ascii_of_string value)).

(** [title or "Sheet"]: the title asked of the library for a new sheet. *)
Definition title_or_default (title : string) : string :=
  if decide (title = "") then "Sheet" else title.

(** The title a new sheet gets. *)
Definition new_title `{SheetNaming} (title : string) (wb : t) : string :=
  avoid_duplicate_name (sheetnames wb) (title_or_default title).

(** [wb.create_sheet(title=title)]: a title with an invalid character is
    refused; the sheet is put last. *)
Definition create_sheet `{SheetNaming} (title : string) (wb : t) : result t :=
  match invalid_title_character (title_or_default title) with
  | Some c =>
      Raise (ValueError ("Invalid character " +:+ String c "" +:+ " found in sheet title"))
  | None => Ok (wb ++ [ Worksheet.mk (new_title title wb) ∅ ])
  end.

(** [wb.get_sheet_by_name(name)]: the first sheet so titled. *)
Definition get_sheet_by_name (name : string) (wb : t) : result nat :=
  match list_find (λ ws, Worksheet.title ws = name) wb with
  | Some (i, _) => Ok i
  | None => Raise (KeyError ("Worksheet " +:+ name +:+ " does not exist."))
  end.

(** [wb.remove_sheet(ws)] *)
Definition remove_sheet (ws : nat) (wb : t) : t := delete ws wb.
End Workbook.

(** ** The outside world

    Connecting, querying, closing, saving and printing reach outside the
    program.  Each such call is recorded, with the exception it raised if
    any; whether it raises is the world's choice. *)

Inductive query := Q_tables | Q_columns | Q_constraints.

Inductive call :=
  | Connect (connstr : string)
  | GetInfo
  | Execute (q : query)
  | CloseConnection
  | SaveFile (path : string) (wb : Workbook.t)
  | PrintLine (line : string).

Record event := Event {
  ev_call : call;
  ev_raised : option exn
}.

(** The catalog views the three queries read. *)
Module TABLES.
Record row := mk {
  TABLE_CATALOG : string;
  TABLE_NAME : string;
  TABLE_TYPE : string
}.
End TABLES.

Module COLUMNS.
Record row := mk {
  TABLE_NAME : string;
  COLUMN_NAME : string;
  ORDINAL_POSITION : nat;
  IS_NULLABLE : pyval;
  DATA_TYPE : pyval;
  CHARACTER_MAXIMUM_LENGTH : pyval;
  COLUMN_DEFAULT : pyval
}.
End COLUMNS.

Module TABLE_CONSTRAINTS.
Record row := mk {
  CONSTRAINT_NAME : string;
  CONSTRAINT_TYPE : string;
  TABLE_NAME : string
}.
End TABLE_CONSTRAINTS.

Module KEY_COLUMN_USAGE.
Record row := mk {
  CONSTRAINT_NAME : string;
  TABLE_NAME : string;
  COLUMN_NAME : string
}.
End KEY_COLUMN_USAGE.

Module REFERENTIAL_CONSTRAINTS.
Record row := mk {
  CONSTRAINT_NAME : string;
  UNIQUE_CONSTRAINT_NAME : string
}.
End REFERENTIAL_CONSTRAINTS.

Record Database := {
  database_name : string;
  tables_view : list TABLES.row;
  columns_view : list COLUMNS.row;
  table_constraints_view : list TABLE_CONSTRAINTS.row;
  key_column_usage_view : list KEY_COLUMN_USAGE.row;
  referential_constraints_view : list REFERENTIAL_CONSTRAINTS.row;
  (** [CAST(COLUMNPROPERTY(object_id(table), column, 'IsIdentity') as bit)] *)
  is_identity : string → string → pyval
}.

(** The world: the database behind each connection string, and the calls
    that raise. *)
Record world := {
  database : string → Database;
  raises : call → option exn
}.

(** Computations that talk to the world: they read it, and extend the
    record of calls made so far. *)
Definition M (A : Type) : Type := world → list event → result A * list event.

#[global] Instance M_ret : MRet M := λ A a _ tr, (Ok a, tr).
#[global] Instance M_bind : MBind M := λ A B f m w tr,
  match m w tr with
  | (Ok a, tr') => f a w tr'
  | (Raise e, tr') => (Raise e, tr')
  end.

Definition perform (c : call) : M unit := λ w tr,
  match raises w c with
  | Some e => (Raise e, tr ++ [Event c (Some e)])
  | None => (Ok (), tr ++ [Event c None])
  end.

Definition ask : M world := λ w tr, (Ok w, tr).

Definition lift {A} (r : result A) : M A := λ _ tr, (r, tr).

(** ** The named tuples *)

Module Constraint.
Record t := mk {
  CONSTRAINT_NAME : string;
  CONSTRAINT_TYPE : string;
  CONSTRAINED_TABLE : string;
  CONSTRAINED_COLUMN : string;
  SOURCE_TABLE : pyval;
  SOURCE_COLUMN : pyval
}.

(** A named tuple of six fields is a non-empty tuple. *)
Definition truth (_ : t) : bool := true.
End Constraint.

Module Column.
Record t := mk {
  TABLE_NAME : string;
  COLUMN_NAME : string;
  IS_NULLABLE : pyval;
  DATA_TYPE : pyval;
  MAX_LENGTH : pyval;
  COLUMN_DEFAULT : pyval;
  IS_IDENTITY : pyval
}.
End Column.

(** ** Field *)

Module Field.
Record t := mk {
  key : pyval;
  name : pyval;
  cap : pyval;
  typ : pyval;
  size : pyval;
  default : pyval;
  null : pyval;
  uniq : pyval;
  ref : pyval;
  notes : pyval
}.

(** [Field.__init__]; an argument left out is [PyNone]. *)
Definition init (key name cap typ size default null uniq ref notes : pyval) : t :=
  {| key := key;
     name := name;
     cap := cap;
     typ := typ;
     size := if truthy size then PyStr (str size) else size;
     default := default;
     null := null;
     uniq := uniq;
     ref := ref;
     notes := notes |}.

Definition to_row (self : t) : list pyval :=
  [ key self; name self; cap self; typ self; size self;
    default self; null self; uniq self; ref self; notes self ].

(** Attribute assignments [field.uniq = v], [field.key = v], ... *)
Definition set_uniq (v : pyval) (f : t) : t :=
  mk (key f) (name f) (cap f) (typ f) (size f) (default f) (null f) v (ref f) (notes f).
Definition set_key (v : pyval) (f : t) : t :=
  mk v (name f) (cap f) (typ f) (size f) (default f) (null f) (uniq f) (ref f) (notes f).
Definition set_ref (v : pyval) (f : t) : t :=
  mk (key f) (name f) (cap f) (typ f) (size f) (default f) (null f) (uniq f) v (notes f).
Definition set_cap (v : pyval) (f : t) : t :=
  mk (key f) (name f) v (typ f) (size f) (default f) (null f) (uniq f) (ref f) (notes f).
End Field.

(** ** TableDescription *)

Module TableDescription.
Record t := mk {
  headers : list string;
  table_name : string;
  fields : list Field.t
}.

Definition init (table_name : string) : t :=
  {| headers := [ "Primary/Foreign Key"; "Field Name";
                  "Caption"; "Data Type"; "Field Size"; "Default";
                  "Nullable"; "Unique"; "Reference"; "Notes" ];
     table_name := table_name;
     fields := [] |}.

(** [desc.fields.append(field)] *)
Definition append (field : Field.t) (desc : t) : t :=
  mk (headers desc) (table_name desc) (fields desc ++ [field]).
End TableDescription.

(** ** DBService *)

(** The SQL of the three queries, read as list comprehensions over the
    catalog views.  Strings compare exactly, rows come in view order unless
    the query sorts them, and names sort character by character. *)
Module SQL.
(** [LEFT JOIN]: the matching rows, or one row of NULLs. *)
Definition left_join {B} (P : B → Prop) `{∀ b, Decision (P b)} (bs : list B) : list (option B) :=
  match filter P bs with
  | [] => [None]
  | l => Some <$> l
  end.

(** [ORDER BY c.TABLE_NAME, c.ORDINAL_POSITION] *)
Definition order_key (c1 c2 : COLUMNS.row) : Prop :=
  match String_as_OT.compare (COLUMNS.TABLE_NAME c1) (COLUMNS.TABLE_NAME c2) with
  | Lt => True
  | Eq => (COLUMNS.ORDINAL_POSITION c1 ≤ COLUMNS.ORDINAL_POSITION c2)%nat
  | Gt => False
  end.

#[global] Instance order_key_dec c1 c2 : Decision (order_key c1 c2).
Proof. unfold order_key. destruct (String_as_OT.compare _ _); apply _. Defined.

Definition select_tables (db : Database) : list TABLES.row :=
  filter (λ r, TABLES.TABLE_NAME r ≠ "sysdiagrams" ∧ TABLES.TABLE_TYPE r = "BASE TABLE")
         (tables_view db).

Definition select_columns (db : Database) : list (COLUMNS.row * pyval) :=
  (λ c, (c, is_identity db (COLUMNS.TABLE_NAME c) (COLUMNS.COLUMN_NAME c))) <$>
  merge_sort order_key
    (c ← columns_view db;
     t ← filter (λ t, COLUMNS.TABLE_NAME c = TABLES.TABLE_NAME t) (tables_view db);
     if decide (TABLES.TABLE_NAME t ≠ "sysdiagrams" ∧ TABLES.TABLE_TYPE t = "BASE TABLE")
     then [c] else []).

Record constraint_row := mk_constraint_row {
  t_row : TABLE_CONSTRAINTS.row;
  k_row : KEY_COLUMN_USAGE.row;
  f_row : option KEY_COLUMN_USAGE.row
}.

Definition select_constraints (db : Database) : list constraint_row :=
  t ← table_constraints_view db;
  k ← filter (λ k, TABLE_CONSTRAINTS.CONSTRAINT_NAME t = KEY_COLUMN_USAGE.CONSTRAINT_NAME k)
             (key_column_usage_view db);
  r ← left_join (λ r, TABLE_CONSTRAINTS.CONSTRAINT_NAME t = REFERENTIAL_CONSTRAINTS.CONSTRAINT_NAME r)
                (referential_constraints_view db);
  f ← match r with
      | Some r =>
          left_join (λ f, REFERENTIAL_CONSTRAINTS.UNIQUE_CONSTRAINT_NAME r =
                          KEY_COLUMN_USAGE.CONSTRAINT_NAME f)
                    (key_column_usage_view db)
      | None => [None]
      end;
  if decide (TABLE_CONSTRAINTS.CONSTRAINT_TYPE t ∈ ["PRIMARY KEY"; "FOREIGN KEY"; "UNIQUE"] ∧
             TABLE_CONSTRAINTS.TABLE_NAME t ≠ "sysdiagrams")
  then [mk_constraint_row t k f] else [].
End SQL.

Module DBService.
Record t := mk {
  conn : Database;
  dbname : string
}.

Definition init (connstr : string) : M t :=
  _ ← perform (Connect connstr);
  w ← ask;
  _ ← perform GetInfo;
  mret (mk (database w connstr) (database_name (database w connstr))).

Definition close (self : t) : M unit := perform CloseConnection.

Definition get_tables (self : t) : M (list string) :=
  _ ← perform (Execute Q_tables);
  mret (TABLES.TABLE_NAME <$> SQL.select_tables (conn self)).

(** [Column(r.TABLE_NAME, ..., r.IS_IDENTITY)] *)
Definition to_column (r : COLUMNS.row * pyval) : Column.t :=
  Column.mk (COLUMNS.TABLE_NAME r.1)
            (COLUMNS.COLUMN_NAME r.1)
            (COLUMNS.IS_NULLABLE r.1)
            (COLUMNS.DATA_TYPE r.1)
            (COLUMNS.CHARACTER_MAXIMUM_LENGTH r.1)
            (COLUMNS.COLUMN_DEFAULT r.1)
            r.2.

Definition get_columns (self : t) : M (list Column.t) :=
  _ ← perform (Execute Q_columns);
  mret (to_column <$> SQL.select_columns (conn self)).

(** [Constraint(r.CONSTRAINT_NAME, ..., r.SOURCE_COLUMN)]; the columns of
    a left join that found no row are NULL. *)
Definition to_constraint (r : SQL.constraint_row) : Constraint.t :=
  Constraint.mk (TABLE_CONSTRAINTS.CONSTRAINT_NAME (SQL.t_row r))
                (TABLE_CONSTRAINTS.CONSTRAINT_TYPE (SQL.t_row r))
                (TABLE_CONSTRAINTS.TABLE_NAME (SQL.t_row r))
                (KEY_COLUMN_USAGE.COLUMN_NAME (SQL.k_row r))
                (from_option (λ f, PyStr (KEY_COLUMN_USAGE.TABLE_NAME f)) PyNone (SQL.f_row r))
                (from_option (λ f, PyStr (KEY_COLUMN_USAGE.COLUMN_NAME f)) PyNone (SQL.f_row r)).

Definition get_constraints (self : t) : M (list Constraint.t) :=
  _ ← perform (Execute Q_constraints);
  mret (to_constraint <$> SQL.select_constraints (conn self)).
End DBService.

(** ** SchemaCache *)

Module SchemaCache.
Import Constraint Column.

Record t := mk {
  tables : list string;
  columns : list Column.t;
  constraints : list Constraint.t
}.

Definition bootstrap (dbservice : DBService.t) : M t :=
  tables ← DBService.get_tables dbservice;
  columns ← DBService.get_columns dbservice;
  constraints ← DBService.get_constraints dbservice;
  _ ← DBService.close dbservice;
  mret (mk tables columns constraints).

Definition get_column_reference (self : t) (table column : string) : option string :=
  let refs :=
    foldl (λ refs fk,
             if decide (CONSTRAINED_TABLE fk = table ∧ CONSTRAINED_COLUMN fk = column)
             then refs ++ [str (SOURCE_TABLE fk) +:+ "." +:+ str (SOURCE_COLUMN fk)]
             else refs)
          []
          (filter (λ c, CONSTRAINT_TYPE c = "FOREIGN KEY") (constraints self)) in
  if decide (0 < length refs) then Some (join "; " refs) else None.

Definition is_column_a_key (self : t) (table column : string) : option string :=
  let vals : list string := [] in
  let column_constraints :=
    filter (λ c, CONSTRAINED_TABLE c = table ∧ CONSTRAINED_COLUMN c = column)
           (constraints self) in
  let vals :=
    if py_any Constraint.truth
         (filter (λ c, CONSTRAINT_TYPE c = "PRIMARY KEY") column_constraints)
    then vals ++ ["P"] else vals in
  let vals :=
    if py_any Constraint.truth
         (filter (λ c, CONSTRAINT_TYPE c = "FOREIGN KEY") column_constraints)
    then vals ++ ["F"] else vals in
  if decide (0 < length vals) then Some (join "/" vals) else None.

Definition is_column_unique (self : t) (table column : string) : bool :=
  py_any Constraint.truth
    (filter (λ c, CONSTRAINT_TYPE c = "UNIQUE" ∧
                  CONSTRAINED_TABLE c = table ∧
                  CONSTRAINED_COLUMN c = column)
            (constraints self)).

Definition get_columns_for_table (self : t) (table : string) : list Column.t :=
  filter (λ c, TABLE_NAME c = table) (columns self).
End SchemaCache.

(** ** XLService *)

Module XLService.
Import TableDescription.

Record t := mk {
  fullpath : string;
  wkbk : Workbook.t
}.

Definition init (directory dbname : string) : result t :=
  let fullpath := directory +:+ "\" +:+ dbname +:+ "_DataDictionary.xlsx" in
  let wkbk := Workbook.new in
  sheet ← Workbook.get_sheet_by_name "Sheet" wkbk;
  mret (mk fullpath (Workbook.remove_sheet sheet wkbk)).

Definition _add_sheet `{SheetNaming} (self : t) (table_name : string) : result (t * nat) :=
  wkbk ← Workbook.create_sheet table_name (wkbk self);
  ws ← Workbook.get_sheet_by_name table_name wkbk;
  mret (mk (fullpath self) wkbk, ws).

Definition _write_headers (ws : Worksheet.t) (headers : list string) : result Worksheet.t :=
  let width := length headers in
  for_each (λ ws j,
              match headers !! (j - 1) with
              | Some h => Worksheet.set_value 1 j (PyStr h) (Worksheet.cell 1 j ws)
              | None => Raise IndexError
              end)
           ws (seq 1 (width + 1 - 1)).

(** [ws.iter_rows(min_row, max_col, max_row)]: the rows it will yield and
    the last column of each.  A bound given as 0 counts as not given, and
    the sheet's own bound, read when the call is made, takes its place. *)
Definition iter_rows (min_row max_col max_row : nat) (ws : Worksheet.t) : list nat * nat :=
  let min_row := if decide (min_row = 0) then 1 else min_row in
  let max_col := if decide (max_col = 0) then Worksheet.max_column ws else max_col in
  let max_row := if decide (max_row = 0) then Worksheet.max_row ws else max_row in
  (seq min_row (max_row + 1 - min_row), max_col).

(** The tuple of cells of one row, created as the row is yielded. *)
Definition row_cells (r max_col : nat) (ws : Worksheet.t) : Worksheet.t * list (nat * nat) :=
  (foldl (λ ws c, Worksheet.cell r c ws) ws (seq 1 max_col),
   (λ c, (r, c)) <$> seq 1 max_col).

Definition _write_fields (ws : Worksheet.t) (table_desc : TableDescription.t) :
    result Worksheet.t :=
  let '(row_iterable, max_col) :=
    iter_rows 2 (length (headers table_desc)) (length (fields table_desc) + 1) ws in
  let fields := Field.to_row <$> fields table_desc in
  for_each (λ ws rf,
              let '(ws, row) := row_cells rf.1 max_col ws in
              for_each (λ ws cv, Worksheet.set_value cv.1.1 cv.1.2 cv.2 ws) ws (zip row rf.2))
           ws (zip row_iterable fields).

Definition describe_table `{SheetNaming} (self : t) (table_desc : TableDescription.t) : result t :=
  '(self, wksht) ← _add_sheet self (table_name table_desc);
  match wkbk self !! wksht with
  | Some ws =>
      ws ← _write_headers ws (headers table_desc);
      ws ← _write_fields ws table_desc;
      mret (mk (fullpath self) (<[wksht := ws]> (wkbk self)))
  | None => Raise IndexError
  end.

Definition save (self : t) : M unit :=
  perform (SaveFile (fullpath self) (wkbk self)).
End XLService.

(** ** DDSpider *)

Module DDSpider.
Import Column.

Record t := mk {
  dbservice : DBService.t;
  cache : SchemaCache.t;
  xlservice : XLService.t
}.

Definition make_field (self : t) (table : string) (col : Column.t) : Field.t :=
  let field :=
    Field.init PyNone (PyStr (COLUMN_NAME col)) PyNone (DATA_TYPE col)
               (MAX_LENGTH col) (COLUMN_DEFAULT col) (IS_NULLABLE col)
               PyNone PyNone PyNone in
  let field :=
    Field.set_uniq
      (PyBool (SchemaCache.is_column_unique (cache self) table (COLUMN_NAME col))) field in
  let field :=
    Field.set_key
      (of_option (SchemaCache.is_column_a_key (cache self) table (COLUMN_NAME col))) field in
  let field :=
    Field.set_ref
      (of_option (SchemaCache.get_column_reference (cache self) table (COLUMN_NAME col))) field in
  if truthy (IS_IDENTITY col) then Field.set_cap (PyStr "Identity") field else field.

(** The description built by the inner loop of [run]. *)
Definition describe (self : t) (table : string) : TableDescription.t :=
  foldl (λ desc col, TableDescription.append (make_field self table col) desc)
        (TableDescription.init table)
        (SchemaCache.get_columns_for_table (cache self) table).

(** The loop of [run] over the tables; the workbook service it ends with. *)
Definition run_tables `{SheetNaming} (self : t) : result XLService.t :=
  for_each (λ xl table, XLService.describe_table xl (describe self table))
           (xlservice self) (SchemaCache.tables (cache self)).

Definition run `{SheetNaming} (self : t) : M t :=
  xl ← lift (run_tables self);
  _ ← XLService.save xl;
  mret (mk (dbservice self) (cache self) xl).
End DDSpider.

(** ** The script *)

Definition connection_string (server catalog : string) : string :=
  "Driver={SQL Server Native Client 11.0};" +:+
  ("Server=" +:+ server +:+ ";Database=" +:+ catalog +:+ ";") +:+
  "Trusted_Connection=yes;APP=DDSpider;".

Definition discoverdb `{SheetNaming} (server catalog directory : string) : M unit :=
  let cstr := connection_string server catalog in
  dbsvc ← DBService.init cstr;
  cache ← SchemaCache.bootstrap dbsvc;
  xlservice ← lift (XLService.init directory (DBService.dbname dbsvc));
  let spider := DDSpider.mk dbsvc cache xlservice in
  spider ← DDSpider.run spider;
  perform (PrintLine ("Data Dictionary Created: " +:+
                  XLService.fullpath (DDSpider.xlservice spider))).

(** ** A small world to run the script in *)

(** The library of the small world numbers titles after openpyxl's own
    [avoid_duplicate_name], as that works on titles of ASCII characters:
    a title that some sheet bears, case apart, gets the number after the
    highest one that follows an occurrence of it in the titles joined by
    commas. *)

(** [c.lower()] *)
Definition lower_char (a : Ascii.ascii) : Ascii.ascii :=
  let n := Ascii.nat_of_ascii a in
  if (65 <=? n) && (n <=? 90) then Ascii.ascii_of_nat (n + 32) else a.

(** [s.lower()] *)
Definition lower (s : string) : string :=
  String.string_of_list_ascii (lower_char <$> String.list_ascii_of_string s).

Definition is_digit (a : Ascii.ascii) : bool :=
  let n := Ascii.nat_of_ascii a in (48 <=? n) && (n <=? 57).

(** The digits a string starts with, and what follows them. *)
Fixpoint span_digits (s : list Ascii.ascii) : list Ascii.ascii * list Ascii.ascii :=
  match s with
  | a :: s' =>
      if is_digit a
      then let '(ds, rest) := span_digits s' in (a :: ds, rest)
      else ([], s)
  | [] => ([], [])
  end.

(** What follows [value] at the start of [s], case apart. *)
Fixpoint after_prefix (value s : list Ascii.ascii) : option (list Ascii.ascii) :=
  match value, s with
  | [], _ => Some s
  | v :: value', a :: s' =>
      if decide (lower_char v = lower_char a) then after_prefix value' s' else None
  | _ :: _, [] => None
  end.

(** [re.findall] of the title, the digits after it and a comma if there
    is one, case apart: the digits of every match, from left to right. *)
Fixpoint findall_counts (fuel : nat) (value s : list Ascii.ascii) : list (list Ascii.ascii) :=
  match fuel with
  | 0 => []
  | S fuel =>
      match after_prefix value s with
      | Some rest =>
          let '(ds, rest) := span_digits rest in
          let rest := match rest with
                      | a :: r => if decide (a = ","%char) then r else rest
                      | [] => rest
                      end in
          ds :: findall_counts fuel value rest
      | None =>
          match s with
          | [] => []
          | _ :: s' => findall_counts fuel value s'
          end
      end
  end.

(** [int(idx)] *)
Definition int_of_digits (ds : list Ascii.ascii) : N :=
  foldl (λ n d, 10 * n + N.of_nat (Ascii.nat_of_ascii d - 48))%N 0%N ds.

#[local] Instance plain_naming : SheetNaming := {|
  avoid_duplicate_name := λ names value,
    if existsb (λ n, bool_decide (lower n = lower value)) names
    then
      let joined := String.list_ascii_of_string (join "," names) in
      let matches := findall_counts (S (length joined))
                       (String.list_ascii_of_string value) joined in
      let counts := int_of_digits <$> filter (λ ds, ds ≠ []) matches in
      value +:+ pretty (N.succ (foldr N.max 0%N counts))
    else value
|}.

(** A catalog with two tables, a view and the diagram table. *)
Definition ex_db : Database := {|
  database_name := "Shop";
  tables_view :=
    [ TABLES.mk "Shop" "Users" "BASE TABLE";
      TABLES.mk "Shop" "sysdiagrams" "BASE TABLE";
      TABLES.mk "Shop" "Orgs" "BASE TABLE";
      TABLES.mk "Shop" "UserView" "VIEW" ];
  columns_view :=
    [ COLUMNS.mk "Users" "org_id" 3 (PyStr "YES") (PyStr "int") PyNone PyNone;
      COLUMNS.mk "Users" "id" 1 (PyStr "NO") (PyStr "int") PyNone PyNone;
      COLUMNS.mk "Users" "email" 2 (PyStr "NO") (PyStr "varchar") (PyInt 255) PyNone;
      COLUMNS.mk "sysdiagrams" "name" 1 (PyStr "NO") (PyStr "sysname") (PyInt 128) PyNone;
      COLUMNS.mk "Orgs" "id" 1 (PyStr "NO") (PyStr "int") PyNone PyNone;
      COLUMNS.mk "UserView" "id" 1 (PyStr "NO") (PyStr "int") PyNone PyNone ];
  table_constraints_view :=
    [ TABLE_CONSTRAINTS.mk "PK_Users" "PRIMARY KEY" "Users";
      TABLE_CONSTRAINTS.mk "UQ_email" "UNIQUE" "Users";
      TABLE_CONSTRAINTS.mk "FK_org" "FOREIGN KEY" "Users";
      TABLE_CONSTRAINTS.mk "PK_Orgs" "PRIMARY KEY" "Orgs";
      TABLE_CONSTRAINTS.mk "PK_diag" "PRIMARY KEY" "sysdiagrams";
      TABLE_CONSTRAINTS.mk "CK_x" "CHECK" "Users" ];
  key_column_usage_view :=
    [ KEY_COLUMN_USAGE.mk "PK_Users" "Users" "id";
      KEY_COLUMN_USAGE.mk "UQ_email" "Users" "email";
      KEY_COLUMN_USAGE.mk "FK_org" "Users" "org_id";
      KEY_COLUMN_USAGE.mk "PK_Orgs" "Orgs" "id";
      KEY_COLUMN_USAGE.mk "PK_diag" "sysdiagrams" "name" ];
  referential_constraints_view :=
    [ REFERENTIAL_CONSTRAINTS.mk "FK_org" "PK_Orgs" ];
  is_identity := λ t c, PyBool (bool_decide (c = "id"))
|}.

Definition ex_world : world := {|
  database := λ _, ex_db;
  raises := λ _, None
|}.

(** The same catalog, read by an account that may not query the columns. *)
Definition ex_world_denied : world := {|
  database := λ _, ex_db;
  raises := λ c, match c with
                 | Execute Q_columns => Some (DatabaseError "permission denied")
                 | _ => None
                 end
|}.

(** A catalog with a table whose name is no sheet title. *)
Definition ex_world_slash : world := {|
  database := λ _, {|
    database_name := "Shop";
    tables_view := [ TABLES.mk "Shop" "In/Out" "BASE TABLE" ];
    columns_view := [];
    table_constraints_view := [];
    key_column_usage_view := [];
    referential_constraints_view := [];
    is_identity := λ _ _, PyNone
  |};
  raises := λ _, None
|}.

(** A cache with one table, one of whose columns has two foreign keys. *)
Definition ex_cache : SchemaCache.t :=
  SchemaCache.mk ["Users"]
    [ Column.mk "Users" "id" (PyStr "NO") (PyStr "int") PyNone PyNone (PyBool true);
      Column.mk "Users" "email" (PyStr "NO") (PyStr "varchar") (PyInt 255) PyNone (PyBool false);
      Column.mk "Users" "org_id" (PyStr "YES") (PyStr "int") PyNone PyNone (PyBool false) ]
    [ Constraint.mk "PK_Users" "PRIMARY KEY" "Users" "id" PyNone PyNone;
      Constraint.mk "UQ_Users" "UNIQUE" "Users" "email" PyNone PyNone;
      Constraint.mk "FK_a" "FOREIGN KEY" "Users" "org_id" (PyStr "A") (PyStr "id");
      Constraint.mk "FK_b" "FOREIGN KEY" "Users" "org_id" (PyStr "B") (PyStr "ref") ].

Definition ex_spider : DDSpider.t :=
  DDSpider.mk (DBService.mk ex_db "Shop") ex_cache (XLService.mk "out.xlsx" []).

Definition ex_email : Column.t :=
  Column.mk "Users" "email" (PyStr "NO") (PyStr "varchar") (PyInt 255) PyNone (PyBool false).

(** A cache whose one table has no column, and a name that is no sheet
    title. *)
Definition ex_slash_cache : SchemaCache.t := SchemaCache.mk ["In/Out"] [] [].

(** The sample schema with one more table, which has no column. *)
Definition ex_bare_cache : SchemaCache.t :=
  SchemaCache.mk ["Users"; "Bare"] (SchemaCache.columns ex_cache)
                 (SchemaCache.constraints ex_cache).

(** ** What the specification speaks of *)

(** Some constraint of kind [kind] has (table, column) as its constrained
    pair. *)
Definition constrained_by (self : SchemaCache.t) (kind table column : string) : Prop :=
  ∃ c, c ∈ SchemaCache.constraints self ∧
       Constraint.CONSTRAINT_TYPE c = kind ∧
       Constraint.CONSTRAINED_TABLE c = table ∧
       Constraint.CONSTRAINED_COLUMN c = column.

(** The foreign keys that originate at (table, column). *)
Definition is_foreign_key_of (table column : string) (c : Constraint.t) : Prop :=
  Constraint.CONSTRAINT_TYPE c = "FOREIGN KEY" ∧
  Constraint.CONSTRAINED_TABLE c = table ∧
  Constraint.CONSTRAINED_COLUMN c = column.

#[global] Instance is_foreign_key_of_dec table column c :
  Decision (is_foreign_key_of table column c).
Proof. unfold is_foreign_key_of. apply _. Defined.

(** "referencedTable.referencedColumn" *)
Definition reference_target (c : Constraint.t) : string :=
  str (Constraint.SOURCE_TABLE c) +:+ "." +:+ str (Constraint.SOURCE_COLUMN c).

(** The rows a table description puts on its worksheet: the header row,
    then one row per field. *)
Definition sheet_rows (desc : TableDescription.t) : list (list pyval) :=
  (PyStr <$> TableDescription.headers desc) ::
  (Field.to_row <$> TableDescription.fields desc).

(** These rows as the cells keep them. *)
Definition stored_rows (desc : TableDescription.t) : list (list pyval) :=
  fmap (M:=list) Worksheet.stored <$> sheet_rows desc.

(** The cell at 1-based position [k] of a list of rows. *)
Definition grid (rows : list (list pyval)) (k : nat * nat) : option pyval :=
  if decide (1 ≤ k.1 ∧ 1 ≤ k.2)
  then rows !! (k.1 - 1) ≫= λ row, row !! (k.2 - 1)
  else None.

(** The worksheet holds exactly the cells of [rows]. *)
Definition holds (ws : Worksheet.t) (rows : list (list pyval)) : Prop :=
  ∀ k, Worksheet.cells ws !! k = grid rows k.

(** The worksheet the workbook hands out for [name]. *)
Definition sheet_named (wb : Workbook.t) (name : string) (ws : Worksheet.t) : Prop :=
  ∃ i, Workbook.get_sheet_by_name name wb = Ok i ∧ wb !! i = Some ws.

(** Every sheet of the workbook is still empty or holds the rows of the
    table it is titled after, as the cells keep them. *)
Definition sheets_tidy (self : DDSpider.t) (wb : Workbook.t) : Prop :=
  ∀ ws, ws ∈ wb →
    Worksheet.cells ws = ∅ ∨
    holds ws (stored_rows (DDSpider.describe self (Worksheet.title ws))).

(** The sheet named after [table] holds the rows of [table], as the cells
    keep them. *)
Definition described (self : DDSpider.t) (wb : Workbook.t) (table : string) : Prop :=
  ∃ ws, sheet_named wb table ws ∧
        Worksheet.title ws = table ∧
        holds ws (stored_rows (DDSpider.describe self table)).

(** What the script works with once the catalog has been read. *)
Definition catalog_cache (db : Database) : SchemaCache.t :=
  SchemaCache.mk
    (TABLES.TABLE_NAME <$> SQL.select_tables db)
    (DBService.to_column <$> SQL.select_columns db)
    (DBService.to_constraint <$> SQL.select_constraints db).

Definition script_database (w : world) (server catalog : string) : Database :=
  database w (connection_string server catalog).

Definition script_spider (w : world) (server catalog directory : string) : DDSpider.t :=
  let db := script_database w server catalog in
  DDSpider.mk (DBService.mk db (database_name db)) (catalog_cache db)
    (XLService.mk (directory +:+ "\" +:+ database_name db +:+ "_DataDictionary.xlsx") []).

(** The calls made before the workbook is touched, in order. *)
Definition prelude (server catalog : string) : list call :=
  [ Connect (connection_string server catalog); GetInfo;
    Execute Q_tables; Execute Q_columns; Execute Q_constraints; CloseConnection ].

(** A call that went through. *)
Definition completed (c : call) : event := Event c None.

(** The ways a run of the script can go: the result it ends with and the
    calls it has made by then. *)
Inductive script_run `{SheetNaming} (w : world) (server catalog directory : string) :
    result unit → list event → Prop :=
  | fails_in_prelude n c e :
      prelude server catalog !! n = Some c →
      raises w c = Some e →
      script_run w server catalog directory (Raise e)
        ((completed <$> take n (prelude server catalog)) ++ [Event c (Some e)])
  | fails_in_memory e :
      DDSpider.run_tables (script_spider w server catalog directory) = Raise e →
      script_run w server catalog directory (Raise e)
        (completed <$> prelude server catalog)
  | fails_saving xl e :
      DDSpider.run_tables (script_spider w server catalog directory) = Ok xl →
      raises w (SaveFile (XLService.fullpath xl) (XLService.wkbk xl)) = Some e →
      script_run w server catalog directory (Raise e)
        ((completed <$> prelude server catalog) ++
         [ Event (SaveFile (XLService.fullpath xl) (XLService.wkbk xl)) (Some e) ])
  | fails_reporting xl e :
      DDSpider.run_tables (script_spider w server catalog directory) = Ok xl →
      raises w (PrintLine ("Data Dictionary Created: " +:+ XLService.fullpath xl)) = Some e →
      script_run w server catalog directory (Raise e)
        ((completed <$> prelude server catalog) ++
         [ completed (SaveFile (XLService.fullpath xl) (XLService.wkbk xl));
           Event (PrintLine ("Data Dictionary Created: " +:+ XLService.fullpath xl)) (Some e) ])
  | succeeds xl :
      DDSpider.run_tables (script_spider w server catalog directory) = Ok xl →
      script_run w server catalog directory (Ok ())
        ((completed <$> prelude server catalog) ++
         [ completed (SaveFile (XLService.fullpath xl) (XLService.wkbk xl));
           completed (PrintLine ("Data Dictionary Created: " +:+ XLService.fullpath xl)) ]).

(** The event is an attempt to save the workbook. *)
Definition is_save (ev : event) : Prop :=
  match ev_call ev with
  | SaveFile _ _ => True
  | _ => False
  end.

#[global] Instance is_save_dec ev : Decision (is_save ev).
Proof. unfold is_save. destruct (ev_call ev); apply _. Defined.

(** Case analysis on the tests of a cell lookup, closing the cases whose
    ranges contradict each other. *)
Ltac pair_neq :=
  repeat match goal with
         | H : (?a, ?b) ≠ (?c, ?d) |- _ =>
             assert (a ≠ c ∨ b ≠ d)
               by (destruct (decide (a = c)), (decide (b = d));
                   [subst; congruence | auto..]);
             clear H
         end.
Ltac ranges :=
  repeat case_decide; destruct_and?; simplify_eq; simpl in *; pair_neq;
  try done; try lia; try (exfalso; lia).

(** ** What the further properties speak of *)

#[global] Instance COLUMNS_row_eq_dec : EqDecision COLUMNS.row.
Proof. solve_decision. Defined.

(** The rows of TABLES under which a table name is listed: base tables of
    that name, the diagram table apart. *)
Definition listed_as (db : Database) (name : string) : list TABLES.row :=
  filter (λ t, TABLES.TABLE_NAME t = name ∧
               TABLES.TABLE_NAME t ≠ "sysdiagrams" ∧
               TABLES.TABLE_TYPE t = "BASE TABLE")
         (tables_view db).

(** The constraint is one of the kinds the constraint query keeps, on a
    table it keeps. *)
Definition kept_constraint (t : TABLE_CONSTRAINTS.row) : Prop :=
  TABLE_CONSTRAINTS.CONSTRAINT_TYPE t ∈ ["PRIMARY KEY"; "FOREIGN KEY"; "UNIQUE"] ∧
  TABLE_CONSTRAINTS.TABLE_NAME t ≠ "sysdiagrams".

(** The sample catalog with a foreign key whose referenced key has no
    column on record. *)
Definition ex_db_unlinked : Database := {|
  database_name := "Shop";
  tables_view := tables_view ex_db;
  columns_view := columns_view ex_db;
  table_constraints_view := table_constraints_view ex_db;
  key_column_usage_view := key_column_usage_view ex_db;
  referential_constraints_view := [ REFERENTIAL_CONSTRAINTS.mk "FK_org" "IX_Orgs" ];
  is_identity := is_identity ex_db
|}.

(** The calls [bootstrap] makes, in order. *)
Definition bootstrap_calls : list call :=
  [ Execute Q_tables; Execute Q_columns; Execute Q_constraints; CloseConnection ].

(** A catalog that lists the table "Users" under two schemas. *)
Definition ex_db_twice : Database := {|
  database_name := "Shop";
  tables_view :=
    [ TABLES.mk "Shop" "Users" "BASE TABLE";
      TABLES.mk "Shop" "Users" "BASE TABLE" ];
  columns_view :=
    [ COLUMNS.mk "Users" "id" 1 (PyStr "NO") (PyStr "int") PyNone PyNone ];
  table_constraints_view := [];
  key_column_usage_view := [];
  referential_constraints_view := [];
  is_identity := λ _ _, PyBool false
|}.

Definition ex_world_twice : world := {|
  database := λ _, ex_db_twice;
  raises := λ _, None
|}.

(** A catalog that lists a view and the diagram table, and no other table. *)
Definition ex_db_views : Database := {|
  database_name := "Shop";
  tables_view :=
    [ TABLES.mk "Shop" "UserView" "VIEW";
      TABLES.mk "Shop" "sysdiagrams" "BASE TABLE" ];
  columns_view :=
    [ COLUMNS.mk "UserView" "id" 1 (PyStr "NO") (PyStr "int") PyNone PyNone ];
  table_constraints_view := [];
  key_column_usage_view := [];
  referential_constraints_view := [];
  is_identity := λ _ _, PyBool false
|}.

Definition ex_world_views : world := {|
  database := λ _, ex_db_views;
  raises := λ _, None
|}.

(** The last column [_write_fields] goes to on a sheet, for a header of
    [width] entries: a width of 0 counts as not given. *)
Definition written_width (ws : Worksheet.t) (width : nat) : nat :=
  if decide (width = 0) then Worksheet.max_column ws else width.

(** * Theorems *)

(** ** Schema index lookups *)

Lemma py_any_truth (l : list Constraint.t)
    (Q : Constraint.t → Prop) `{∀ x, Decision (Q x)} :
  py_any Constraint.truth (filter Q l) = true ↔ ∃ c, c ∈ l ∧ Q c.
Proof.
  unfold py_any. rewrite existsb_exists. split.
  - intros (c & Hin & _). apply list_elem_of_In, list_elem_of_filter in Hin.
    exists c. tauto.
  - intros (c & Hin & HQ). exists c. split; [|done].
    apply list_elem_of_In, list_elem_of_filter. done.
Qed.

Lemma any_kind_of_column self kind table column :
  py_any Constraint.truth
    (filter (λ c, Constraint.CONSTRAINT_TYPE c = kind)
       (filter (λ c, Constraint.CONSTRAINED_TABLE c = table ∧
                     Constraint.CONSTRAINED_COLUMN c = column)
               (SchemaCache.constraints self))) = true
  ↔ constrained_by self kind table column.
Proof.
  rewrite py_any_truth. unfold constrained_by. split.
  - intros (c & Hin & Hk). apply list_elem_of_filter in Hin. exists c. tauto.
  - intros (c & Hin & Hk & Ht & Hc). exists c. split; [|done].
    apply list_elem_of_filter. done.
Qed.

(** C2: [is_column_a_key] answers "P/F" exactly when the pair is
    constrained by a PRIMARY KEY and by a FOREIGN KEY constraint, "P" or
    "F" exactly when only that one applies, and [None] exactly when neither
    does; it never answers any other string. *)
Theorem is_column_a_key_cases (self : SchemaCache.t) (table column : string) :
  let pk := constrained_by self "PRIMARY KEY" table column in
  let fk := constrained_by self "FOREIGN KEY" table column in
  let r := SchemaCache.is_column_a_key self table column in
  (r = Some "P/F" ↔ pk ∧ fk) ∧
  (r = Some "P" ↔ pk ∧ ¬ fk) ∧
  (r = Some "F" ↔ ¬ pk ∧ fk) ∧
  (r = None ↔ ¬ pk ∧ ¬ fk) ∧
  (∀ s, r = Some s → s = "P" ∨ s = "F" ∨ s = "P/F").
Proof.
  intros pk fk r. subst pk fk r. unfold SchemaCache.is_column_a_key.
  pose proof (any_kind_of_column self "PRIMARY KEY" table column) as Hp.
  pose proof (any_kind_of_column self "FOREIGN KEY" table column) as Hf.
  destruct (py_any _ (filter (λ c, _ = "PRIMARY KEY") _));
    destruct (py_any _ (filter (λ c, _ = "FOREIGN KEY") _)); simpl.
  all: repeat split.
  all: try (intros s [= <-]; tauto).
  all: intuition (discriminate || auto).
Qed.

Lemma append_assoc (s1 s2 s3 : string) : (s1 +:+ s2) +:+ s3 = s1 +:+ (s2 +:+ s3).
Proof.
  induction s1 as [|a s1 IH]; [reflexivity|].
  change (String a ((s1 +:+ s2) +:+ s3) = String a (s1 +:+ (s2 +:+ s3))).
  by rewrite IH.
Qed.

Lemma foldl_append_if {A B} (P : A → Prop) `{∀ x, Decision (P x)} (g : A → B)
    (l : list A) (acc : list B) :
  foldl (λ refs x, if decide (P x) then refs ++ [g x] else refs) acc l
  = acc ++ (g <$> filter P l).
Proof.
  revert acc. induction l as [|x l IH]; intros acc; simpl.
  - by rewrite app_nil_r.
  - rewrite IH, filter_cons. destruct (decide (P x)); simpl; [|done].
    by rewrite <- app_assoc.
Qed.

Lemma get_column_reference_unfold (self : SchemaCache.t) (table column : string) :
  SchemaCache.get_column_reference self table column =
  match filter (is_foreign_key_of table column) (SchemaCache.constraints self) with
  | [] => None
  | fks => Some (join "; " (reference_target <$> fks))
  end.
Proof.
  unfold SchemaCache.get_column_reference.
  rewrite (foldl_append_if
             (λ fk, Constraint.CONSTRAINED_TABLE fk = table ∧
                    Constraint.CONSTRAINED_COLUMN fk = column)
             reference_target).
  rewrite list_filter_filter. simpl.
  rewrite (list_filter_iff _ (is_foreign_key_of table column))
    by (unfold is_foreign_key_of; tauto).
  destruct (filter _ _) as [|fk fks]; simpl; [done|].
  reflexivity.
Qed.

(** C3: [get_column_reference] answers [None] exactly when no FOREIGN KEY
    constraint has (table, column) as its constrained pair; otherwise it
    answers the "; "-joined "referencedTable.referencedColumn" strings, one
    per matching foreign key, in the order of the constraint collection, so
    that two foreign keys to A.id and B.ref give "A.id; B.ref". *)
Theorem get_column_reference_spec (self : SchemaCache.t) (table column : string) :
  let fks := filter (is_foreign_key_of table column) (SchemaCache.constraints self) in
  let r := SchemaCache.get_column_reference self table column in
  (r = None ↔ ¬ constrained_by self "FOREIGN KEY" table column) ∧
  (constrained_by self "FOREIGN KEY" table column →
   r = Some (join "; " (reference_target <$> fks))) ∧
  (∀ k1 k2 a x b y,
     fks = [k1; k2] →
     Constraint.SOURCE_TABLE k1 = PyStr a → Constraint.SOURCE_COLUMN k1 = PyStr x →
     Constraint.SOURCE_TABLE k2 = PyStr b → Constraint.SOURCE_COLUMN k2 = PyStr y →
     r = Some (a +:+ "." +:+ x +:+ "; " +:+ b +:+ "." +:+ y)).
Proof.
  intros fks r. subst r. rewrite get_column_reference_unfold. fold fks.
  assert (Hfk : constrained_by self "FOREIGN KEY" table column ↔ fks ≠ []).
  { unfold constrained_by. split.
    - intros (c & Hin & Hc) Hnil.
      assert (c ∈ fks) as Hc' by (apply list_elem_of_filter; done).
      rewrite Hnil in Hc'. by apply not_elem_of_nil in Hc'.
    - intros Hne. destruct fks as [|c fks'] eqn:E; [done|].
      assert (c ∈ filter (is_foreign_key_of table column) (SchemaCache.constraints self))
        as Hc by (fold fks; rewrite E; left).
      apply list_elem_of_filter in Hc. exists c.
      unfold is_foreign_key_of in Hc. tauto. }
  repeat split.
  - intros Hr Hc. apply Hfk in Hc. by destruct fks.
  - intros Hn. destruct fks; [done|]. exfalso. apply Hn, Hfk. done.
  - intros Hc. apply Hfk in Hc. by destruct fks.
  - intros k1 k2 a x b y -> H1 H2 H3 H4. simpl. unfold reference_target.
    rewrite H1, H2, H3, H4. simpl. f_equal.
    by rewrite !append_assoc.
Qed.

(** The two-target case of C3 on the sample schema. *)
Example get_column_reference_two_targets :
  SchemaCache.get_column_reference ex_cache "Users" "org_id" = Some "A.id; B.ref" ∧
  SchemaCache.get_column_reference ex_cache "Users" "email" = None.
Proof. split; reflexivity. Qed.

(** ** Fields *)

(** C4: for every column, the Field that [make_field] builds has the
    caption "Identity" when the column's identity flag is true and no
    caption when it is false. *)
Theorem make_field_caption (self : DDSpider.t) (table : string)
    (tn cn : string) (nullable typ len dflt : pyval) (identity : bool) :
  Field.cap (DDSpider.make_field self table
               (Column.mk tn cn nullable typ len dflt (PyBool identity)))
  = if identity then PyStr "Identity" else PyNone.
Proof. unfold DDSpider.make_field. simpl. by destruct identity. Qed.

(** The caption in general follows the truth value of the flag. *)
Lemma make_field_cap (self : DDSpider.t) (table : string) (col : Column.t) :
  Field.cap (DDSpider.make_field self table col)
  = if truthy (Column.IS_IDENTITY col) then PyStr "Identity" else PyNone.
Proof. unfold DDSpider.make_field. by destruct (truthy _). Qed.

(** C5 as stated fails: the size of a column of length 255 is stored as
    the string "255", not as the catalog's number. *)
Lemma make_field_size_not_copied :
  Field.size (DDSpider.make_field ex_spider "Users" ex_email) = PyStr "255" ∧
  Field.size (DDSpider.make_field ex_spider "Users" ex_email) ≠ Column.MAX_LENGTH ex_email.
Proof. split; [reflexivity | discriminate]. Qed.

(** C5, amended: the Field carries the column's name, data type, nullable
    flag and default unchanged; its size is the column's maximum length
    when that is falsy (None or 0), and the string form of it otherwise. *)
Theorem make_field_copies (self : DDSpider.t) (table : string) (col : Column.t) :
  let f := DDSpider.make_field self table col in
  Field.name f = PyStr (Column.COLUMN_NAME col) ∧
  Field.typ f = Column.DATA_TYPE col ∧
  Field.null f = Column.IS_NULLABLE col ∧
  Field.default f = Column.COLUMN_DEFAULT col ∧
  Field.size f = (if truthy (Column.MAX_LENGTH col)
                  then PyStr (str (Column.MAX_LENGTH col))
                  else Column.MAX_LENGTH col) ∧
  (Column.MAX_LENGTH col = PyNone ∨ Column.MAX_LENGTH col = PyInt 0 →
   Field.size f = Column.MAX_LENGTH col).
Proof.
  unfold DDSpider.make_field.
  destruct (truthy (Column.IS_IDENTITY col)); simpl; repeat split;
    intros [-> | ->]; reflexivity.
Qed.

(** ** Loops that may raise *)

(** A loop whose turns are those of a plain fold unless they raise: it
    ends as the fold does, or raises what one of its turns raises. *)
Lemma for_each_cases {A S} (body : S → A → result S) (f : S → A → S)
    (bad : A → exn → Prop) (l : list A) :
  (∀ s a, a ∈ l →
          match body s a with
          | Ok s' => s' = f s a
          | Raise e => bad a e
          end) →
  ∀ s, match for_each body s l with
       | Ok s' => s' = foldl f s l
       | Raise e => ∃ a, a ∈ l ∧ bad a e
       end.
Proof.
  induction l as [|x l IH]; intros Hbody s; simpl; [done|].
  pose proof (Hbody s x (list_elem_of_here _ _)) as Hx.
  destruct (body s x) as [s1|e]; simpl.
  - subst s1.
    specialize (IH (λ s a Ha, Hbody s a (list_elem_of_further _ _ _ Ha)) (f s x)).
    destruct (for_each body (f s x) l) as [s'|e]; [done|].
    destruct IH as (a & Ha & Hbad). exists a. split; [by right|done].
  - exists x. split; [left|done].
Qed.

(** The loop raises as soon as one turn may only raise. *)
Lemma for_each_raises {A S} (body : S → A → result S) (x : A) (l : list A) :
  x ∈ l → (∀ s, ∃ e, body s x = Raise e) → ∀ s, ∃ e, for_each body s l = Raise e.
Proof.
  intros Hin Hbody. induction l as [|y l IH]; [by apply not_elem_of_nil in Hin|].
  intros s. simpl. apply elem_of_cons in Hin as [<-|Hin].
  - destruct (Hbody s) as [e ->]. eauto.
  - destruct (body s y) as [s'|e]; simpl; [by apply IH|eauto].
Qed.

(** The loop stops at the first turn that raises, with what it raises. *)
Lemma for_each_first_raise {A S} (body : S → A → result S) (pre post : list A) (x : A)
    (s s' : S) (e : exn) :
  for_each body s pre = Ok s' → body s' x = Raise e →
  for_each body s (pre ++ x :: post) = Raise e.
Proof.
  revert s. induction pre as [|y pre IH]; intros s; simpl.
  - intros [= ->] Hx. by rewrite Hx.
  - destruct (body s y) as [s1|e1]; simpl; [apply IH|done].
Qed.

(** ** Writing a worksheet *)

Section worksheet.
Import Worksheet.

Lemma title_cell r c ws : title (cell r c ws) = title ws.
Proof. unfold cell. by destruct (cells ws !! (r, c)). Qed.

Lemma lookup_cell r c ws k :
  cells (cell r c ws) !! k =
  if decide (k = (r, c)) then Some (default PyNone (cells ws !! k)) else cells ws !! k.
Proof.
  unfold cell. destruct (cells ws !! (r, c)) eqn:E; simpl.
  - case_decide; [subst; by rewrite E|done].
  - rewrite lookup_insert. repeat case_decide; simplify_eq; try done.
    by rewrite E.
Qed.

Lemma title_put r c v ws : title (put r c v ws) = title ws.
Proof. reflexivity. Qed.

Lemma lookup_put r c v ws k :
  cells (put r c v ws) !! k =
  if decide (k = (r, c)) then Some v else cells ws !! k.
Proof.
  unfold put. simpl. rewrite lookup_insert.
  repeat case_decide; simplify_eq; done.
Qed.

(** What is bound is what the cell keeps; what is refused is a string
    with an illegal character among the characters the cell would keep. *)
Lemma bind_value_cases v :
  match bind_value v with
  | Ok v' => v' = stored v
  | Raise e =>
      ∃ s, v = PyStr s ∧
           existsb illegal_character
             (String.list_ascii_of_string (String.substring 0 MAX_STRING s)) = true ∧
           e = IllegalCharacterError
                 (String.substring 0 MAX_STRING s +:+ " cannot be used in worksheets.")
  end.
Proof.
  destruct v as [| | |s]; simpl; try done.
  unfold check_string. destruct (existsb _ _) eqn:E; simpl; [|done].
  exists s. done.
Qed.

Lemma bind_value_Ok v v' : bind_value v = Ok v' → v' = stored v.
Proof. intros Hb. pose proof (bind_value_cases v) as Hc. by rewrite Hb in Hc. Qed.

Lemma set_value_cases r c v ws :
  match set_value r c v ws with
  | Ok ws' => ws' = put r c (stored v) ws
  | Raise e => bind_value v = Raise e
  end.
Proof.
  unfold set_value. destruct (bind_value v) as [v'|e] eqn:Hb; simpl; [|done].
  by apply bind_value_Ok in Hb as ->.
Qed.

(** The header loop, started at column [a]. *)
Lemma write_headers_from headers n : ∀ a ws,
  1 ≤ a → a + n = length headers + 1 →
  match for_each (λ ws j,
                    match headers !! (j - 1) with
                    | Some h => set_value 1 j (PyStr h) (cell 1 j ws)
                    | None => Raise IndexError
                    end) ws (seq a n) with
  | Ok ws' =>
      title ws' = title ws ∧
      ∀ r c, cells ws' !! (r, c) =
             if decide (r = 1 ∧ a ≤ c ∧ c ≤ length headers)
             then (λ h, stored (PyStr h)) <$> headers !! (c - 1)
             else cells ws !! (r, c)
  | Raise e => ∃ h, h ∈ headers ∧ bind_value (PyStr h) = Raise e
  end.
Proof.
  induction n as [|n IH]; intros a ws Ha Hn; simpl.
  - split; [done|]. intros r c. case_decide; [lia|done].
  - destruct (lookup_lt_is_Some_2 headers (a - 1)) as [h Hh]; [lia|].
    rewrite Hh.
    pose proof (set_value_cases 1 a (PyStr h) (cell 1 a ws)) as Hset.
    destruct (set_value 1 a (PyStr h) (cell 1 a ws)) as [ws1|e]; simpl.
    + subst ws1.
      specialize (IH (S a) (put 1 a (stored (PyStr h)) (cell 1 a ws))).
      destruct (for_each _ _ _) as [ws'|e].
      * destruct IH as [Ht Hc]; [lia..|].
        split; [by rewrite Ht, title_put, title_cell|].
        intros r c. rewrite Hc, lookup_put, lookup_cell.
        ranges. by rewrite Hh.
      * apply IH; lia.
    + exists h. split; [by eapply list_elem_of_lookup_2|done].
Qed.

(** [_write_headers] raises only what a header raises when it is bound,
    never an index error; when it returns, row 1 keeps the headers and
    nothing else has changed. *)
Lemma write_headers_cases ws headers :
  match XLService._write_headers ws headers with
  | Ok ws' =>
      title ws' = title ws ∧
      ∀ r c, cells ws' !! (r, c) =
             if decide (r = 1 ∧ 1 ≤ c ∧ c ≤ length headers)
             then (λ h, stored (PyStr h)) <$> headers !! (c - 1)
             else cells ws !! (r, c)
  | Raise e => ∃ h, h ∈ headers ∧ bind_value (PyStr h) = Raise e
  end.
Proof. unfold XLService._write_headers. apply write_headers_from; lia. Qed.

(** Headers that can all be bound are written. *)
Lemma write_headers_legal ws headers :
  (∀ h, h ∈ headers → bind_value (PyStr h) = Ok (stored (PyStr h))) →
  ∃ ws', XLService._write_headers ws headers = Ok ws'.
Proof.
  intros Hlegal. pose proof (write_headers_cases ws headers) as Hc.
  destruct (XLService._write_headers ws headers) as [ws'|e]; [eauto|].
  destruct Hc as (h & Hin & Hb). rewrite (Hlegal h Hin) in Hb. done.
Qed.

(** Yielding a row creates its cells. *)
Lemma row_cells_touch r n : ∀ a ws,
  title (foldl (λ ws c, cell r c ws) ws (seq a n)) = title ws ∧
  ∀ k, cells (foldl (λ ws c, cell r c ws) ws (seq a n)) !! k =
       if decide (k.1 = r ∧ a ≤ k.2 ∧ k.2 < a + n)
       then Some (default PyNone (cells ws !! k))
       else cells ws !! k.
Proof.
  induction n as [|n IH]; intros a ws; simpl.
  - split; [done|]. intros k. case_decide; [lia|done].
  - destruct (IH (S a) (cell r a ws)) as [Ht Hc]. split; [by rewrite Ht, title_cell|].
    intros [r' c']. rewrite Hc, lookup_cell. simpl.
    ranges.
Qed.

(** The values of one field put into the cells of one row. *)
Lemma write_row r n : ∀ a (vals : list pyval) ws,
  title (foldl (λ ws cv, put cv.1.1 cv.1.2 (stored cv.2) ws) ws
               (zip ((λ c, (r, c)) <$> seq a n) vals)) = title ws ∧
  ∀ k, cells (foldl (λ ws cv, put cv.1.1 cv.1.2 (stored cv.2) ws) ws
                    (zip ((λ c, (r, c)) <$> seq a n) vals)) !! k =
       if decide (k.1 = r ∧ a ≤ k.2 ∧ k.2 < a + n ∧ k.2 < a + length vals)
       then stored <$> vals !! (k.2 - a)
       else cells ws !! k.
Proof.
  induction n as [|n IH]; intros a vals ws.
  - simpl. split; [done|]. intros k. case_decide; [lia|done].
  - destruct vals as [|v vals].
    + simpl. split; [done|]. intros k. case_decide; [lia|done].
    + destruct (IH (S a) vals (put r a (stored v) ws)) as [Ht Hc].
      simpl. unfold fmap in Ht, Hc.
      split; [by rewrite Ht, title_put|].
      intros [r' c']. rewrite Hc, lookup_put.
      ranges.
      * replace (c' - a) with (S (c' - S a)) by lia. done.
      * by rewrite Nat.sub_diag.
Qed.

(** One turn of the loop of [_write_fields], whatever the two widths. *)
Lemma write_field_row W r (vals : list pyval) ws :
  let ws' := (let '(ws, row) := XLService.row_cells r W ws in
              foldl (λ ws cv, put cv.1.1 cv.1.2 (stored cv.2) ws) ws (zip row vals)) in
  title ws' = title ws ∧
  ∀ k, cells ws' !! k =
       if decide (k.1 = r ∧ 1 ≤ k.2 ∧ k.2 ≤ W)
       then if decide (k.2 ≤ length vals)
            then stored <$> vals !! (k.2 - 1)
            else Some (default PyNone (cells ws !! k))
       else cells ws !! k.
Proof.
  unfold XLService.row_cells. simpl.
  destruct (write_row r W 1 vals (foldl (λ ws c, cell r c ws) ws (seq 1 W))) as [Ht Hc].
  destruct (row_cells_touch r W 1 ws) as [Ht' Hc'].
  split; [by rewrite Ht, Ht'|].
  intros k. rewrite Hc, Hc'. ranges.
Qed.

Lemma write_field_rows W L n : ∀ b (rows : list (list pyval)) ws,
  Forall (λ vals, length vals = L) rows →
  title (foldl (λ ws rf,
                  let '(ws, row) := XLService.row_cells rf.1 W ws in
                  foldl (λ ws cv, put cv.1.1 cv.1.2 (stored cv.2) ws) ws (zip row rf.2))
               ws (zip (seq b n) rows)) = title ws ∧
  ∀ k, cells (foldl (λ ws rf,
                       let '(ws, row) := XLService.row_cells rf.1 W ws in
                       foldl (λ ws cv, put cv.1.1 cv.1.2 (stored cv.2) ws) ws (zip row rf.2))
                    ws (zip (seq b n) rows)) !! k =
       if decide (b ≤ k.1 ∧ k.1 < b + n ∧ k.1 < b + length rows ∧ 1 ≤ k.2 ∧ k.2 ≤ W)
       then if decide (k.2 ≤ L)
            then rows !! (k.1 - b) ≫= λ row, stored <$> row !! (k.2 - 1)
            else Some (default PyNone (cells ws !! k))
       else cells ws !! k.
Proof.
  induction n as [|n IH]; intros b rows ws Hrows.
  - simpl. split; [done|]. intros k. case_decide; [lia|done].
  - destruct rows as [|vals rows].
    + simpl. split; [done|]. intros k. case_decide; [lia|done].
    + apply Forall_cons in Hrows as [Hv Hrows].
      destruct (write_field_row W b vals ws) as [Ht0 Hc0].
      simpl in Ht0, Hc0.
      destruct (IH (S b) rows
                  (let '(ws, row) := XLService.row_cells b W ws in
                   foldl (λ ws cv, put cv.1.1 cv.1.2 (stored cv.2) ws) ws (zip row vals))
                  Hrows) as [Ht Hc].
      simpl in Ht, Hc |- *. split; [by rewrite Ht, Ht0|].
      intros [r c]. rewrite Hc, Hc0, Hv. ranges.
      * replace (r - b) with (S (r - S b)) by lia. done.
      * by rewrite Nat.sub_diag.
Qed.

Lemma to_row_length f : length (Field.to_row f) = 10.
Proof. reflexivity. Qed.

(** One turn of the loop of [_write_fields] raises only what a value
    raises when it is bound to a cell of the row. *)
Lemma write_field_row_cases W (rf : nat * list pyval) ws :
  match (let '(ws, row) := XLService.row_cells rf.1 W ws in
         for_each (λ ws cv, set_value cv.1.1 cv.1.2 cv.2 ws) ws (zip row rf.2)) with
  | Ok ws' =>
      ws' = (let '(ws, row) := XLService.row_cells rf.1 W ws in
             foldl (λ ws cv, put cv.1.1 cv.1.2 (stored cv.2) ws) ws (zip row rf.2))
  | Raise e => ∃ j v, j < W ∧ rf.2 !! j = Some v ∧ bind_value v = Raise e
  end.
Proof.
  unfold XLService.row_cells.
  pose proof (for_each_cases
    (λ ws (cv : nat * nat * pyval), set_value cv.1.1 cv.1.2 cv.2 ws)
    (λ ws (cv : nat * nat * pyval), put cv.1.1 cv.1.2 (stored cv.2) ws)
    (λ (cv : nat * nat * pyval) e, bind_value cv.2 = Raise e)
    (zip ((λ c, (rf.1, c)) <$> seq 1 W) rf.2)
    (λ s cv _, set_value_cases cv.1.1 cv.1.2 cv.2 s)
    (foldl (λ ws c, cell rf.1 c ws) ws (seq 1 W))) as Hin.
  destruct (for_each _ _ _) as [ws'|e]; [exact Hin|].
  destruct Hin as ([[r c] v] & Hcv & Hb). simpl in Hb.
  apply list_elem_of_lookup in Hcv as [j Hj].
  apply lookup_zip_with_Some in Hj as (k & v' & [= <- <-] & Hk & Hv).
  exists j, v. split; [|done].
  apply lookup_lt_Some in Hk. by rewrite length_fmap, length_seq in Hk.
Qed.

(** The rows [iter_rows] yields for the script, and their width. *)
Lemma iter_rows_fields ws (width n : nat) :
  XLService.iter_rows 2 width (n + 1) ws = (seq 2 n, written_width ws width).
Proof.
  unfold XLService.iter_rows, written_width.
  rewrite (decide_False (P := n + 1 = 0)) by lia.
  rewrite (decide_False (P := 2 = 0)) by lia.
  f_equal. f_equal. lia.
Qed.

(** [_write_fields] raises only what a value raises when it is bound to
    a cell of its row; when it returns, the rows from 2 on keep the
    fields as far as the width goes, and nothing else has changed. *)
Lemma write_fields_cases ws (desc : TableDescription.t) :
  match XLService._write_fields ws desc with
  | Ok ws' =>
      title ws' = title ws ∧
      ∀ r c, cells ws' !! (r, c) =
             if decide (2 ≤ r ∧ r ≤ length (TableDescription.fields desc) + 1 ∧
                        1 ≤ c ∧ c ≤ written_width ws (length (TableDescription.headers desc)))
             then if decide (c ≤ 10)
                  then TableDescription.fields desc !! (r - 2) ≫=
                         λ f, stored <$> Field.to_row f !! (c - 1)
                  else Some (default PyNone (cells ws !! (r, c)))
             else cells ws !! (r, c)
  | Raise e =>
      ∃ f j v, f ∈ TableDescription.fields desc ∧
               j < written_width ws (length (TableDescription.headers desc)) ∧
               Field.to_row f !! j = Some v ∧
               bind_value v = Raise e
  end.
Proof.
  unfold XLService._write_fields. rewrite iter_rows_fields.
  set (W := written_width ws (length (TableDescription.headers desc))).
  set (rows := Field.to_row <$> TableDescription.fields desc).
  pose proof (for_each_cases
    (λ ws (rf : nat * list pyval),
       let '(ws, row) := XLService.row_cells rf.1 W ws in
       for_each (λ ws cv, set_value cv.1.1 cv.1.2 cv.2 ws) ws (zip row rf.2))
    (λ ws (rf : nat * list pyval),
       let '(ws, row) := XLService.row_cells rf.1 W ws in
       foldl (λ ws cv, put cv.1.1 cv.1.2 (stored cv.2) ws) ws (zip row rf.2))
    (λ (rf : nat * list pyval) e,
       ∃ j v, j < W ∧ rf.2 !! j = Some v ∧ bind_value v = Raise e)
    (zip (seq 2 (length (TableDescription.fields desc))) rows)
    (λ s rf _, write_field_row_cases W rf s) ws) as Hloop.
  simpl in Hloop.
  destruct (for_each _ ws _) as [ws'|e].
  - subst ws'.
    destruct (write_field_rows W 10 (length (TableDescription.fields desc)) 2 rows ws)
      as [Ht Hc].
    { apply Forall_fmap, Forall_forall. by intros f _. }
    split; [exact Ht|]. intros r c. rewrite Hc. simpl.
    unfold rows. rewrite length_fmap, list_lookup_fmap.
    repeat case_decide; try done; try lia.
    by destruct (TableDescription.fields desc !! (r - 2)).
  - destruct Hloop as ([r vals] & Hin & j & v & Hj & Hv & Hb). simpl in *.
    apply list_elem_of_lookup in Hin as [i Hi].
    apply lookup_zip_with_Some in Hi as (r' & vals' & [= <- <-] & _ & Hvals).
    apply list_lookup_fmap_Some in Hvals as (f & -> & Hf).
    exists f, j, v. split; [by eapply list_elem_of_lookup_2|done].
Qed.

(** [_write_headers] then [_write_fields] on a sheet that is empty, or
    already holds these very rows, leaves exactly these rows. *)
Lemma written_sheet (desc : TableDescription.t) ws ws1 ws2 :
  length (TableDescription.headers desc) = 10 →
  cells ws = ∅ ∨ holds ws (stored_rows desc) →
  XLService._write_headers ws (TableDescription.headers desc) = Ok ws1 →
  XLService._write_fields ws1 desc = Ok ws2 →
  title ws2 = title ws ∧ holds ws2 (stored_rows desc).
Proof.
  intros Hlen Hws Hhead Hfields.
  pose proof (write_headers_cases ws (TableDescription.headers desc)) as H1.
  rewrite Hhead in H1. destruct H1 as [Ht1 Hc1].
  pose proof (write_fields_cases ws1 desc) as H2.
  rewrite Hfields in H2. destruct H2 as [Ht2 Hc2].
  split; [by rewrite Ht2|].
  intros [r c]. rewrite Hc2, Hc1. unfold written_width. rewrite Hlen.
  rewrite (decide_False (P := 10 = 0)) by lia.
  unfold grid, stored_rows, sheet_rows. simpl.
  assert (Hold : cells ws !! (r, c) = grid (stored_rows desc) (r, c) ∨
                 cells ws !! (r, c) = None).
  { destruct Hws as [-> | Hh]; [right; apply lookup_empty | left; apply Hh]. }
  unfold grid, stored_rows, sheet_rows in Hold. simpl in Hold.
  ranges.
  - replace (r - 1) with (S (r - 2)) by lia. simpl.
    change (list_fmap _ _ ?f ?l) with (f <$> l).
    rewrite !list_lookup_fmap.
    destruct (TableDescription.fields desc !! (r - 2)); simpl; [|done].
    by rewrite <- list_lookup_fmap.
  - rewrite !list_lookup_fmap. by destruct (TableDescription.headers desc !! (c - 1)).
  - match goal with |- _ = ?rhs => assert (rhs = None) as Hnone end.
    { assert (r = 1 ∨ 2 ≤ r) as [-> | Hr] by lia; simpl.
      - apply lookup_ge_None_2. rewrite !length_fmap. lia.
      - replace (r - 1) with (S (r - 2)) by lia. simpl.
        change (list_fmap _ _ ?f ?l) with (f <$> l).
        rewrite !list_lookup_fmap.
        destruct (TableDescription.fields desc !! (r - 2)) as [f|] eqn:E; [|done]. simpl.
        pose proof (lookup_lt_Some _ _ _ E). apply lookup_ge_None_2. simpl. lia. }
    rewrite Hnone in *. by destruct Hold.
  - by destruct Hold.
Qed.
End worksheet.

(** ** Reading a worksheet back *)

Section reading.
Import Worksheet.

Lemma max_list_bound (l : list nat) N : (∀ x, x ∈ l → x ≤ N) → max_list l ≤ N.
Proof.
  induction l as [|x l IH]; intros Hb; simpl; [lia|].
  apply Nat.max_lub; [apply Hb; left | apply IH; intros y Hy; apply Hb; by right].
Qed.

Variables (ws : Worksheet.t) (rows : list (list pyval)) (W : nat).
Hypothesis Hrows : rows ≠ [].
Hypothesis Hwidth : Forall (λ row, length row = W) rows.
Hypothesis HW : 1 ≤ W.
Hypothesis Hholds : holds ws rows.

Lemma holds_is_Some r c :
  is_Some (cells ws !! (r, c)) ↔ 1 ≤ r ∧ r ≤ length rows ∧ 1 ≤ c ∧ c ≤ W.
Proof.
  rewrite Hholds. unfold grid. simpl. case_decide as Hd.
  - destruct (rows !! (r - 1)) as [row|] eqn:E; simpl.
    + pose proof (lookup_lt_Some _ _ _ E) as Hlt.
      assert (length row = W) as Hl.
      { eapply (Forall_lookup_1 _ _ _ _ Hwidth). exact E. }
      rewrite lookup_lt_is_Some, Hl. lia.
    + apply lookup_ge_None_1 in E. split; [by intros [? ?]|lia].
  - split; [by intros [? ?]|lia].
Qed.

Lemma holds_keys k v :
  (k, v) ∈ map_to_list (cells ws) → 1 ≤ k.1 ∧ k.1 ≤ length rows ∧ 1 ≤ k.2 ∧ k.2 ≤ W.
Proof.
  intros Hin. apply elem_of_map_to_list in Hin. destruct k as [r c].
  apply holds_is_Some. by exists v.
Qed.

Lemma holds_key_present r c :
  1 ≤ r → r ≤ length rows → 1 ≤ c → c ≤ W →
  ∃ v, ((r, c), v) ∈ map_to_list (cells ws).
Proof.
  intros. destruct (proj2 (holds_is_Some r c)) as [v Hv]; [lia|].
  exists v. by apply elem_of_map_to_list.
Qed.

Lemma rows_length_pos : 1 ≤ length rows.
Proof. destruct rows; [done|simpl; lia]. Qed.

Lemma holds_max_row : max_row ws = length rows.
Proof.
  pose proof rows_length_pos as Hpos. unfold max_row.
  destruct (holds_key_present (length rows) 1) as [v Hv]; [lia..|].
  destruct (map_to_list (cells ws)) as [|kv kvs] eqn:E.
  { by apply not_elem_of_nil in Hv. }
  apply Nat.le_antisymm.
  - apply max_list_bound. intros x Hx.
    apply list_elem_of_fmap in Hx as ([k v'] & -> & Hin).
    rewrite <- E in Hin. apply holds_keys in Hin. simpl in *. lia.
  - apply max_list_elem_of_le. apply list_elem_of_fmap.
    exists ((length rows, 1), v). done.
Qed.

Lemma holds_max_column : max_column ws = W.
Proof.
  pose proof rows_length_pos as Hpos. unfold max_column.
  destruct (holds_key_present 1 W) as [v Hv]; [lia..|].
  destruct (map_to_list (cells ws)) as [|kv kvs] eqn:E.
  { by apply not_elem_of_nil in Hv. }
  apply Nat.le_antisymm.
  - apply max_list_bound. intros x Hx.
    apply list_elem_of_fmap in Hx as ([k v'] & -> & Hin).
    rewrite <- E in Hin. apply holds_keys in Hin. simpl in *. lia.
  - apply max_list_elem_of_le. apply list_elem_of_fmap.
    exists ((1, W), v). done.
Qed.

(** Reading the sheet row by row gives back the rows. *)
Lemma holds_values : values ws = rows.
Proof.
  pose proof rows_length_pos as Hpos.
  assert (cells ws ≠ ∅) as Hne.
  { intros Hempty. destruct (proj2 (holds_is_Some 1 1)) as [v Hv]; [lia|].
    rewrite Hempty in Hv. by rewrite lookup_empty in Hv. }
  unfold values. rewrite (decide_False (P := cells ws = ∅)) by done.
  rewrite holds_max_row, holds_max_column.
  apply list_eq. intros i. rewrite list_lookup_fmap.
  destruct (decide (i < length rows)) as [Hi|Hi].
  - rewrite lookup_seq_lt by done. simpl.
    destruct (lookup_lt_is_Some_2 rows i Hi) as [row Hrow]. rewrite Hrow. f_equal.
    assert (length row = W) as Hl.
    { eapply (Forall_lookup_1 _ _ _ _ Hwidth). exact Hrow. }
    apply list_eq. intros j. rewrite list_lookup_fmap.
    destruct (decide (j < W)) as [Hj|Hj].
    + rewrite lookup_seq_lt by done. simpl. rewrite Hholds. unfold grid. simpl.
      rewrite !Nat.sub_0_r, Hrow. simpl.
      destruct (lookup_lt_is_Some_2 row j) as [v Hv]; [lia|]. by rewrite Hv.
    + rewrite lookup_seq_ge by lia. simpl. symmetry. apply lookup_ge_None_2. lia.
  - rewrite lookup_seq_ge by lia. simpl. symmetry. apply lookup_ge_None_2. lia.
Qed.
End reading.

(** ** What the cells keep *)

(** A string of at most 32767 characters is kept whole. *)
Lemma substring_all (n : nat) (s : string) :
  String.length s ≤ n → String.substring 0 n s = s.
Proof.
  revert n. induction s as [|a s IH]; intros n Hn.
  - by destruct n.
  - destruct n as [|n]; simpl in *; [lia|]. rewrite IH; [done|lia].
Qed.

Lemma stored_short (v : pyval) :
  (∀ s, v = PyStr s → String.length s ≤ Worksheet.MAX_STRING) → Worksheet.stored v = v.
Proof.
  destruct v as [| | |s]; try done. intros Hs. unfold Worksheet.stored.
  by rewrite substring_all by (by apply Hs).
Qed.

(** The fixed headers are kept as they are, and none is refused. *)
Lemma stored_headers (T : string) :
  Worksheet.stored <$> (PyStr <$> TableDescription.headers (TableDescription.init T))
  = PyStr <$> TableDescription.headers (TableDescription.init T).
Proof. vm_compute. reflexivity. Qed.

Lemma headers_legal (T h : string) :
  h ∈ TableDescription.headers (TableDescription.init T) →
  Worksheet.bind_value (PyStr h) = Ok (Worksheet.stored (PyStr h)).
Proof.
  intros Hin. simpl in Hin.
  repeat (apply elem_of_cons in Hin as [->|Hin]; [vm_compute; reflexivity|]).
  by apply not_elem_of_nil in Hin.
Qed.

(** ** Describing the tables *)

Section describing.
Context `{SheetNaming}.
Variable self : DDSpider.t.

Lemma describe_unfold table :
  DDSpider.describe self table =
  TableDescription.mk
    (TableDescription.headers (TableDescription.init table)) table
    (DDSpider.make_field self table <$>
       SchemaCache.get_columns_for_table (DDSpider.cache self) table).
Proof.
  unfold DDSpider.describe.
  assert (∀ l d,
            foldl (λ desc col,
                     TableDescription.append (DDSpider.make_field self table col) desc) d l
            = TableDescription.mk (TableDescription.headers d)
                (TableDescription.table_name d)
                (TableDescription.fields d ++ (DDSpider.make_field self table <$> l)))
    as Hfold.
  { induction l as [|c l IH]; intros d; simpl.
    - rewrite app_nil_r. by destruct d.
    - rewrite IH. simpl. by rewrite <- app_assoc. }
  by rewrite Hfold.
Qed.

Lemma describe_headers table :
  length (TableDescription.headers (DDSpider.describe self table)) = 10.
Proof. by rewrite describe_unfold. Qed.

Lemma describe_table_name table :
  TableDescription.table_name (DDSpider.describe self table) = table.
Proof. by rewrite describe_unfold. Qed.

Lemma sheet_named_find wb name ws :
  sheet_named wb name ws ↔
  ∃ i, list_find (λ ws, Worksheet.title ws = name) wb = Some (i, ws).
Proof.
  unfold sheet_named, Workbook.get_sheet_by_name. split.
  - intros (i & Hget & Hi).
    destruct (list_find _ wb) as [[j ws']|] eqn:E; [|done]. simplify_eq.
    pose proof (proj1 (list_find_Some _ _ _ _) E) as (Hj & _). exists i.
    congruence.
  - intros (i & E). exists i. rewrite E. split; [done|].
    by apply list_find_Some in E as (? & _).
Qed.

(** [describe_table] step by step: the title is checked, the sheet is put
    last, and the first sheet that bears the name of the table is
    written. *)
Lemma describe_table_unfold (xl : XLService.t) (desc : TableDescription.t) :
  XLService.describe_table xl desc =
  match Workbook.invalid_title_character
          (Workbook.title_or_default (TableDescription.table_name desc)) with
  | Some c =>
      Raise (ValueError ("Invalid character " +:+ String c "" +:+ " found in sheet title"))
  | None =>
      match list_find (λ ws, Worksheet.title ws = TableDescription.table_name desc)
              (XLService.wkbk xl ++
               [ Worksheet.mk
                   (Workbook.new_title (TableDescription.table_name desc) (XLService.wkbk xl))
                   ∅ ]) with
      | Some (i, ws) =>
          ws1 ← XLService._write_headers ws (TableDescription.headers desc);
          ws2 ← XLService._write_fields ws1 desc;
          mret (XLService.mk (XLService.fullpath xl)
                  (<[i := ws2]>
                     (XLService.wkbk xl ++
                      [ Worksheet.mk
                          (Workbook.new_title (TableDescription.table_name desc)
                             (XLService.wkbk xl)) ∅ ])))
      | None =>
          Raise (KeyError ("Worksheet " +:+ TableDescription.table_name desc +:+
                           " does not exist."))
      end
  end.
Proof.
  unfold XLService.describe_table, XLService._add_sheet, Workbook.create_sheet,
    Workbook.get_sheet_by_name.
  destruct (Workbook.invalid_title_character _); simpl; [done|].
  destruct (list_find _ _) as [[i ws]|] eqn:Hfind; simpl; [|done].
  apply list_find_Some in Hfind as (Hi & _). by rewrite Hi.
Qed.

(** Whenever the turn goes through, the table is described. *)
Lemma describe_table_inv (xl xl' : XLService.t) (table : string) :
  XLService.describe_table xl (DDSpider.describe self table) = Ok xl' →
  sheets_tidy self (XLService.wkbk xl) →
  sheets_tidy self (XLService.wkbk xl') ∧
  described self (XLService.wkbk xl') table ∧
  ∀ t, described self (XLService.wkbk xl) t → described self (XLService.wkbk xl') t.
Proof.
  intros Hrun Htidy. rewrite describe_table_unfold, describe_table_name in Hrun.
  destruct (Workbook.invalid_title_character _); [done|].
  destruct xl as [path wb]. cbn [XLService.wkbk XLService.fullpath] in *.
  set (new := Worksheet.mk (Workbook.new_title table wb) ∅) in *.
  destruct (list_find _ (wb ++ [new])) as [[i ws0]|] eqn:Hfind; [|done].
  destruct (XLService._write_headers ws0 _) as [ws1|] eqn:Hhead; simpl in Hrun; [|done].
  destruct (XLService._write_fields ws1 _) as [ws2|] eqn:Hfields; simpl in Hrun; [|done].
  injection Hrun as <-. cbn [XLService.wkbk].
  apply list_find_Some in Hfind as Hfind'. destruct Hfind' as (Hi & Ht0 & Hfirst).
  pose proof (lookup_lt_Some _ _ _ Hi) as Hlt.
  assert (Worksheet.cells ws0 = ∅ ∨ holds ws0 (stored_rows (DDSpider.describe self table)))
    as Hws0.
  { apply list_elem_of_lookup_2, elem_of_app in Hi as [Hin|Hin].
    - rewrite <- Ht0. by apply Htidy.
    - apply list_elem_of_singleton in Hin as ->. by left. }
  destruct (written_sheet (DDSpider.describe self table) ws0 ws1 ws2
              (describe_headers table) Hws0 Hhead Hfields) as (Ht2 & Hholds).
  assert (Hdone : described self (<[i := ws2]> (wb ++ [new])) table).
  { exists ws2. split; [|split; [congruence|done]].
    apply sheet_named_find. exists i. apply list_find_Some. split; [|split].
    - by apply list_lookup_insert_eq.
    - congruence.
    - intros j y Hj Hji. rewrite list_lookup_insert_ne in Hj by lia. eauto. }
  split; [|split; [exact Hdone|]].
  - intros ws Hin.
    apply list_elem_of_lookup in Hin as (j & Hj).
    apply list_lookup_insert_Some in Hj as [(-> & <- & _) | (Hne & Hj)].
    + right. by rewrite Ht2, Ht0.
    + apply list_elem_of_lookup_2, elem_of_app in Hj as [Hin|Hin].
      * by apply Htidy.
      * apply list_elem_of_singleton in Hin as ->. by left.
  - intros t (ws & Hnamed & Ht & Hh).
    destruct (decide (t = table)) as [->|Hne]; [exact Hdone|].
    exists ws. split; [|done].
    apply sheet_named_find in Hnamed as (j & Hj). apply sheet_named_find. exists j.
    apply (list_find_app_l _ _ [new]) in Hj.
    apply list_find_Some in Hj as (Hj & _ & Hjfirst).
    assert (i ≠ j) by (intros ->; congruence).
    apply list_find_Some. split; [|split; [done|]].
    + by rewrite list_lookup_insert_ne.
    + intros k y Hk Hkj.
      apply list_lookup_insert_Some in Hk as [(-> & <- & _) | (_ & Hk)].
      * congruence.
      * eauto.
Qed.
End describing.

(** ** The loop over the tables *)

Section running.
Context `{SheetNaming}.
Variable self : DDSpider.t.

Lemma write_headers_title ws headers ws' :
  XLService._write_headers ws headers = Ok ws' → Worksheet.title ws' = Worksheet.title ws.
Proof.
  intros Hw. pose proof (write_headers_cases ws headers) as Hc.
  rewrite Hw in Hc. by destruct Hc.
Qed.

Lemma write_fields_title ws desc ws' :
  XLService._write_fields ws desc = Ok ws' → Worksheet.title ws' = Worksheet.title ws.
Proof.
  intros Hw. pose proof (write_fields_cases ws desc) as Hc.
  rewrite Hw in Hc. by destruct Hc.
Qed.

(** Whenever [describe_table] returns, it has added one sheet and kept
    the titles of the others. *)
Lemma describe_table_titles xl desc xl' :
  XLService.describe_table xl desc = Ok xl' →
  XLService.fullpath xl' = XLService.fullpath xl ∧
  Workbook.sheetnames (XLService.wkbk xl') =
    Workbook.sheetnames (XLService.wkbk xl) ++
    [Workbook.new_title (TableDescription.table_name desc) (XLService.wkbk xl)].
Proof.
  rewrite describe_table_unfold.
  destruct (Workbook.invalid_title_character _); [done|].
  destruct (list_find _ _) as [[i ws0]|] eqn:Hfind; [|done].
  destruct (XLService._write_headers ws0 _) as [ws1|] eqn:Hhead; simpl; [|done].
  destruct (XLService._write_fields ws1 _) as [ws2|] eqn:Hfields; simpl; [|done].
  intros [= <-]. simpl. split; [done|].
  apply list_find_Some in Hfind as (Hi & _).
  unfold Workbook.sheetnames in *.
  rewrite list_fmap_insert, (write_fields_title _ _ _ Hfields),
    (write_headers_title _ _ _ Hhead).
  rewrite list_insert_id; [by rewrite fmap_app|].
  by rewrite list_lookup_fmap, Hi.
Qed.

Lemma for_each_titles tables : ∀ xl xl',
  for_each (λ xl table, XLService.describe_table xl (DDSpider.describe self table))
           xl tables = Ok xl' →
  XLService.fullpath xl' = XLService.fullpath xl ∧
  ∀ n, n ∈ Workbook.sheetnames (XLService.wkbk xl') →
       n ∈ Workbook.sheetnames (XLService.wkbk xl) ∨
       ∃ names t, t ∈ tables ∧
                  n = avoid_duplicate_name names (Workbook.title_or_default t).
Proof.
  induction tables as [|t tables IH]; intros xl xl'; simpl.
  - intros [= <-]. eauto.
  - destruct (XLService.describe_table xl _) as [xl1|] eqn:E; simpl; [|done].
    intros Hrest. apply IH in Hrest as [Hp Hn].
    apply describe_table_titles in E as [Hp1 Hn1].
    rewrite describe_table_name in Hn1.
    split; [congruence|]. intros n Hin.
    apply Hn in Hin as [Hin | (names & t' & Ht' & ->)].
    + rewrite Hn1 in Hin. apply elem_of_app in Hin as [Hin|Hin]; [by left|].
      apply list_elem_of_singleton in Hin as ->. right.
      unfold Workbook.new_title. eexists _, t. split; [left|done].
    + right. exists names, t'. split; [by right|done].
Qed.

(** Whenever the loop runs to its end, every table it met is described. *)
Lemma for_each_described_inv tables : ∀ xl xl',
  for_each (λ xl table, XLService.describe_table xl (DDSpider.describe self table))
           xl tables = Ok xl' →
  sheets_tidy self (XLService.wkbk xl) →
  sheets_tidy self (XLService.wkbk xl') ∧
  ∀ t, described self (XLService.wkbk xl) t ∨ t ∈ tables →
       described self (XLService.wkbk xl') t.
Proof.
  induction tables as [|t tables IH]; intros xl xl'; simpl.
  - intros [= <-] Htidy. split; [done|]. intros t [Hd|Hin]; [done|].
    by apply not_elem_of_nil in Hin.
  - destruct (XLService.describe_table xl _) as [xl1|] eqn:E; simpl; [|done].
    intros Hrest Htidy.
    destruct (describe_table_inv self xl xl1 t E Htidy) as (Htidy1 & Hd1 & Hkeep).
    destruct (IH xl1 xl' Hrest Htidy1) as (Htidy' & Hd').
    split; [done|]. intros t' [Hd|Hin]; apply Hd'.
    + left. by apply Hkeep.
    + apply elem_of_cons in Hin as [->|Hin]; [by left|by right].
Qed.

Lemma init_unfold directory dbname :
  XLService.init directory dbname =
  Ok (XLService.mk (directory +:+ "\" +:+ dbname +:+ "_DataDictionary.xlsx") []).
Proof. reflexivity. Qed.

(** The rows of a description are ten cells wide. *)
Lemma stored_rows_width table :
  Forall (λ row, length row = 10) (stored_rows (DDSpider.describe self table)).
Proof.
  unfold stored_rows, sheet_rows. rewrite fmap_cons. apply Forall_cons. split.
  - by rewrite !length_fmap, describe_headers.
  - apply Forall_fmap, Forall_fmap, Forall_forall. by intros f _.
Qed.

(** What reading back the sheet of a described table gives. *)
Lemma described_values wb table :
  described self wb table →
  ∃ ws, sheet_named wb table ws ∧
        Worksheet.title ws = table ∧
        Worksheet.values ws = stored_rows (DDSpider.describe self table) ∧
        Worksheet.max_row ws =
          length (SchemaCache.get_columns_for_table (DDSpider.cache self) table) + 1 ∧
        Worksheet.max_column ws = 10.
Proof.
  intros (ws & Hnamed & Ht & Hh). exists ws. split; [done|]. split; [done|].
  pose proof (stored_rows_width table) as Hw.
  assert (stored_rows (DDSpider.describe self table) ≠ []) as Hne by done.
  split; [|split].
  - apply (holds_values ws (stored_rows (DDSpider.describe self table)) 10);
      (done || lia).
  - rewrite (holds_max_row ws (stored_rows (DDSpider.describe self table)) 10);
      [|done || lia..].
    unfold stored_rows, sheet_rows. rewrite describe_unfold. simpl.
    rewrite !length_fmap. lia.
  - apply (holds_max_column ws (stored_rows (DDSpider.describe self table)) 10);
      (done || lia).
Qed.

(** One turn of the loop goes through when the name of the table has no
    character refused in titles, the new sheet gets that very name, and no
    value of the table is refused as a cell value. *)
Lemma describe_table_completes (xl : XLService.t) (T : string) :
  Workbook.invalid_title_character (Workbook.title_or_default T) = None →
  avoid_duplicate_name (Workbook.sheetnames (XLService.wkbk xl))
                       (Workbook.title_or_default T) = T →
  (∀ col v, col ∈ SchemaCache.get_columns_for_table (DDSpider.cache self) T →
            v ∈ Field.to_row (DDSpider.make_field self T col) →
            Worksheet.bind_value v = Ok (Worksheet.stored v)) →
  ∃ xl', XLService.describe_table xl (DDSpider.describe self T) = Ok xl'.
Proof.
  intros Hok Hkept Hlegal.
  rewrite describe_table_unfold, describe_table_name, Hok.
  unfold Workbook.new_title. rewrite Hkept.
  destruct (list_find_elem_of (λ ws, Worksheet.title ws = T)
              (XLService.wkbk xl ++ [Worksheet.mk T ∅]) (Worksheet.mk T ∅))
    as [[i ws] ->]; [apply elem_of_app; right; constructor|done|].
  destruct (write_headers_legal ws (TableDescription.headers (DDSpider.describe self T)))
    as [ws1 ->].
  { rewrite describe_unfold. apply headers_legal. }
  simpl.
  pose proof (write_fields_cases ws1 (DDSpider.describe self T)) as Hc.
  destruct (XLService._write_fields ws1 _) as [ws2|e]; simpl; [eauto|].
  destruct Hc as (f & j & v & Hf & _ & Hv & Hb).
  rewrite describe_unfold in Hf. cbn [TableDescription.fields] in Hf.
  apply list_elem_of_fmap in Hf as (col & -> & Hcol).
  rewrite (Hlegal col v Hcol) in Hb; [done|]. by eapply list_elem_of_lookup_2.
Qed.

(** The loop runs to its end when every turn meets these conditions. *)
Lemma for_each_completes tables : ∀ xl,
  (∀ pre T post,
     tables = pre ++ T :: post →
     Workbook.invalid_title_character (Workbook.title_or_default T) = None ∧
     avoid_duplicate_name (Workbook.sheetnames (XLService.wkbk xl) ++ pre)
                          (Workbook.title_or_default T) = T ∧
     ∀ col v, col ∈ SchemaCache.get_columns_for_table (DDSpider.cache self) T →
              v ∈ Field.to_row (DDSpider.make_field self T col) →
              Worksheet.bind_value v = Ok (Worksheet.stored v)) →
  ∃ xl',
    for_each (λ xl table, XLService.describe_table xl (DDSpider.describe self table))
             xl tables = Ok xl'.
Proof.
  induction tables as [|t ts IH]; intros xl Hcond; simpl; [eauto|].
  destruct (Hcond [] t ts eq_refl) as (Hok & Hkept & Hlegal).
  rewrite app_nil_r in Hkept.
  destruct (describe_table_completes xl t Hok Hkept Hlegal) as [xl1 Hd].
  rewrite Hd. simpl. apply IH. intros pre T post ->.
  apply describe_table_titles in Hd as [_ Hd].
  rewrite describe_table_name in Hd. unfold Workbook.new_title in Hd.
  rewrite Hkept in Hd. rewrite Hd, <- (assoc_L (++)).
  by apply (Hcond (t :: pre) T post).
Qed.
End running.

(** ** What the queries leave out *)

Section queries.
Variable db : Database.

Lemma select_tables_excludes t :
  t ∈ TABLES.TABLE_NAME <$> SQL.select_tables db →
  t ≠ "sysdiagrams" ∧
  ∃ r, r ∈ tables_view db ∧ TABLES.TABLE_NAME r = t ∧ TABLES.TABLE_TYPE r = "BASE TABLE".
Proof.
  intros Hin. apply list_elem_of_fmap in Hin as (r & -> & Hin).
  apply list_elem_of_filter in Hin as [[Hne Hty] Hin]. eauto.
Qed.

Lemma select_tables_includes r :
  r ∈ tables_view db →
  TABLES.TABLE_NAME r ≠ "sysdiagrams" →
  TABLES.TABLE_TYPE r = "BASE TABLE" →
  TABLES.TABLE_NAME r ∈ TABLES.TABLE_NAME <$> SQL.select_tables db.
Proof.
  intros Hin Hne Hty. apply list_elem_of_fmap. exists r. split; [done|].
  apply list_elem_of_filter. done.
Qed.

Lemma select_columns_excludes r :
  r ∈ SQL.select_columns db →
  COLUMNS.TABLE_NAME r.1 ≠ "sysdiagrams" ∧ r.1 ∈ columns_view db.
Proof.
  unfold SQL.select_columns. intros Hin.
  apply list_elem_of_fmap in Hin as (c & -> & Hin). simpl.
  rewrite merge_sort_Permutation in Hin.
  apply list_elem_of_bind in Hin as (c0 & Hin & Hc0).
  apply list_elem_of_bind in Hin as (t & Hin & Ht).
  apply list_elem_of_filter in Ht as [Heq Ht].
  case_decide as Hd; [|by apply not_elem_of_nil in Hin].
  apply list_elem_of_singleton in Hin as ->. destruct Hd as [Hne _].
  split; [congruence|done].
Qed.

Lemma select_constraints_excludes r :
  r ∈ SQL.select_constraints db →
  TABLE_CONSTRAINTS.TABLE_NAME (SQL.t_row r) ≠ "sysdiagrams" ∧
  (TABLE_CONSTRAINTS.CONSTRAINT_TYPE (SQL.t_row r)
     ∈ ["PRIMARY KEY"; "FOREIGN KEY"; "UNIQUE"]).
Proof.
  unfold SQL.select_constraints. intros Hin.
  apply list_elem_of_bind in Hin as (t & Hin & _).
  apply list_elem_of_bind in Hin as (k & Hin & _).
  apply list_elem_of_bind in Hin as (r0 & Hin & _).
  apply list_elem_of_bind in Hin as (f & Hin & _).
  case_decide as Hd; [|by apply not_elem_of_nil in Hin].
  apply list_elem_of_singleton in Hin as ->. simpl. tauto.
Qed.

(** None of the three collections of the cache mentions the diagram
    table as a table of its own. *)
Lemma catalog_cache_excludes :
  ("sysdiagrams" ∉ SchemaCache.tables (catalog_cache db)) ∧
  (∀ c, c ∈ SchemaCache.columns (catalog_cache db) →
        Column.TABLE_NAME c ≠ "sysdiagrams") ∧
  (∀ k, k ∈ SchemaCache.constraints (catalog_cache db) →
        Constraint.CONSTRAINED_TABLE k ≠ "sysdiagrams").
Proof.
  split; [|split].
  - intros Hin. by apply select_tables_excludes in Hin as [Hne _].
  - intros c Hin. simpl in Hin. apply list_elem_of_fmap in Hin as (r & -> & Hin).
    simpl. by apply select_columns_excludes in Hin as [Hne _].
  - intros k Hin. simpl in Hin. apply list_elem_of_fmap in Hin as (r & -> & Hin).
    simpl. by apply select_constraints_excludes in Hin as [Hne _].
Qed.
End queries.

(** ** The order of the columns *)

Lemma compare_refl s : String_as_OT.compare s s = Eq.
Proof.
  destruct (String_as_OT.compare_spec s s) as [|Hlt|Hlt]; [done|..];
    by apply (StrictOrder_Irreflexive (R := String_as_OT.lt)) in Hlt.
Qed.

Lemma compare_eq s1 s2 : String_as_OT.compare s1 s2 = Eq → s1 = s2.
Proof. by destruct (String_as_OT.compare_spec s1 s2). Qed.

Lemma compare_gt s1 s2 :
  String_as_OT.compare s1 s2 = Gt → String_as_OT.compare s2 s1 = Lt.
Proof. intros Hgt. destruct (String_as_OT.compare_spec s1 s2); done. Qed.

#[local] Instance order_key_total : Total SQL.order_key.
Proof.
  intros c1 c2. unfold SQL.order_key.
  destruct (String_as_OT.compare (COLUMNS.TABLE_NAME c1) (COLUMNS.TABLE_NAME c2)) eqn:E.
  - apply compare_eq in E as ->. rewrite compare_refl. lia.
  - by left.
  - right. by rewrite (compare_gt _ _ E).
Qed.

#[local] Instance order_key_trans : Transitive SQL.order_key.
Proof.
  intros c1 c2 c3. unfold SQL.order_key.
  destruct (String_as_OT.compare (COLUMNS.TABLE_NAME c1) (COLUMNS.TABLE_NAME c2)) eqn:E12;
    [|..|done];
    destruct (String_as_OT.compare (COLUMNS.TABLE_NAME c2) (COLUMNS.TABLE_NAME c3)) eqn:E23;
    try done.
  - apply compare_eq in E12. apply compare_eq in E23.
    rewrite E12, E23, compare_refl. lia.
  - apply compare_eq in E12. by rewrite E12, E23.
  - apply compare_eq in E23. by rewrite <- E23, E12.
  - intros _ _.
    by rewrite (StrictOrder_Transitive (R := String_as_OT.lt) _ _ _ E12 E23).
Qed.

Lemma Forall_filter_same (l : list (COLUMNS.row * pyval)) (table : string) :
  Forall (λ r, COLUMNS.TABLE_NAME r.1 = table)
         (filter (λ r : COLUMNS.row * pyval, COLUMNS.TABLE_NAME r.1 = table) l).
Proof. apply Forall_forall. intros r Hin. by apply list_elem_of_filter in Hin as [? _]. Qed.

Lemma StronglySorted_filter {A} (R : relation A) (P : A → Prop) `{∀ x, Decision (P x)}
    (l : list A) :
  StronglySorted R l → StronglySorted R (filter P l).
Proof.
  induction 1 as [|x l Hs IH Hall]; [constructor|].
  rewrite filter_cons. case_decide; [|done].
  constructor; [done|].
  apply Forall_forall. intros y Hy. apply list_elem_of_filter in Hy as [_ Hy].
  rewrite Forall_forall in Hall. by apply Hall.
Qed.

Lemma filter_fmap_comm {A B} (f : A → B) (P : B → Prop) `{∀ y, Decision (P y)}
    (l : list A) :
  filter P (f <$> l) = f <$> filter (λ x, P (f x)) l.
Proof.
  induction l as [|x l IH]; [done|].
  rewrite fmap_cons, !filter_cons, IH. by case_decide.
Qed.

(** The columns the cache holds for a table are the selected catalog rows
    of that table, by ascending ordinal position. *)
Lemma columns_in_ordinal_order (db : Database) (table : string) :
  ∃ rows : list (COLUMNS.row * pyval),
    SchemaCache.get_columns_for_table (catalog_cache db) table
      = DBService.to_column <$> rows ∧
    Forall (λ r, r.1 ∈ columns_view db ∧ COLUMNS.TABLE_NAME r.1 = table) rows ∧
    StronglySorted
      (λ r1 r2, COLUMNS.ORDINAL_POSITION r1.1 ≤ COLUMNS.ORDINAL_POSITION r2.1) rows.
Proof.
  exists (filter (λ r, COLUMNS.TABLE_NAME r.1 = table) (SQL.select_columns db)).
  split; [|split].
  - unfold SchemaCache.get_columns_for_table. simpl.
    by rewrite (filter_fmap_comm DBService.to_column).
  - apply Forall_forall. intros r Hin. apply list_elem_of_filter in Hin as [Ht Hin].
    split; [|done]. by apply select_columns_excludes in Hin as [_ ?].
  - assert (StronglySorted (λ r1 r2 : COLUMNS.row * pyval, SQL.order_key r1.1 r2.1)
              (SQL.select_columns db)) as Hsorted.
    { unfold SQL.select_columns.
      apply (StronglySorted_fmap _ SQL.order_key); [done|].
      apply StronglySorted_merge_sort; apply _. }
    apply (StronglySorted_filter _ (λ r, COLUMNS.TABLE_NAME r.1 = table)) in Hsorted.
    revert Hsorted. generalize (Forall_filter_same (SQL.select_columns db) table).
    generalize (filter (λ r : COLUMNS.row * pyval, COLUMNS.TABLE_NAME r.1 = table)
                       (SQL.select_columns db)).
    intros l Hsame Hsorted. induction Hsorted as [|r l Hs IH Hall]; [constructor|].
    apply Forall_cons in Hsame as [Hr Hsame].
    constructor; [by apply IH|].
    apply Forall_forall. intros r' Hin.
    rewrite Forall_forall in Hall, Hsame.
    specialize (Hall r' Hin). specialize (Hsame r' Hin). unfold SQL.order_key in Hall.
    by rewrite Hr, Hsame, compare_refl in Hall.
Qed.

(** The cache that [bootstrap] returns is the one read off the catalog. *)
Lemma bootstrap_cache (dbsvc : DBService.t) w tr cache tr' :
  SchemaCache.bootstrap dbsvc w tr = (Ok cache, tr') →
  cache = catalog_cache (DBService.conn dbsvc).
Proof.
  unfold SchemaCache.bootstrap, DBService.get_tables, DBService.get_columns,
    DBService.get_constraints, DBService.close, perform, mbind, M_bind, mret, M_ret.
  simpl.
  repeat (match goal with
          | |- context [raises w ?c] => destruct (raises w c); simpl
          end); intros Heq; by simplify_eq.
Qed.

(** ** The worksheets of a run *)

Lemma run_saves `{SheetNaming} (self : DDSpider.t) (xl' : XLService.t) w tr :
  DDSpider.run_tables self = Ok xl' →
  (DDSpider.run self w tr).2 =
  tr ++ [Event (SaveFile (XLService.fullpath xl') (XLService.wkbk xl'))
               (raises w (SaveFile (XLService.fullpath xl') (XLService.wkbk xl')))].
Proof.
  intros Hrun. unfold DDSpider.run, mbind, M_bind, lift, XLService.save, perform.
  rewrite Hrun. by destruct (raises w _).
Qed.

(** A table whose name is no sheet title gets no worksheet: the loop
    over the tables raises at it, and the run ends there, with nothing
    saved. *)
Lemma refused_name_no_worksheet :
  "In/Out" ∈ SchemaCache.tables
               (DDSpider.cache (script_spider ex_world_slash "srv" "Shop" "C:\out")) ∧
  @DDSpider.run_tables plain_naming (script_spider ex_world_slash "srv" "Shop" "C:\out")
  = Raise (ValueError "Invalid character / found in sheet title") ∧
  @discoverdb plain_naming "srv" "Shop" "C:\out" ex_world_slash [] =
    (Raise (ValueError "Invalid character / found in sheet title"),
     completed <$> prelude "srv" "Shop").
Proof. vm_compute. split; [constructor|split; reflexivity]. Qed.

(** C1: for every table T of the cached table list, whenever the loop over
    the tables runs to its end, the workbook hands out for the name T a
    worksheet titled T with exactly len(columnsOf(T)) + 1 rows; row 1 is
    the header, and row i+1 holds the values of the Field built from the
    i-th column of T, as the cells keep them, which is as they are but for
    a string of more than 32767 characters.  The columns come in the order
    of the column collection, which for the cache read off a catalog is the
    order of ordinal positions.  The loop runs to its end when no table
    name has a character that is refused in sheet titles, every new sheet
    gets the very name of its table as its title, and no value of a field
    is refused as a cell value; it does not always do so. *)
Theorem run_writes_every_table `{SheetNaming}
    (dbsvc : DBService.t) (cache : SchemaCache.t)
    (directory dbname : string) (xl : XLService.t) :
  XLService.init directory dbname = Ok xl →
  let self := DDSpider.mk dbsvc cache xl in
  ((∀ pre T post,
      SchemaCache.tables cache = pre ++ T :: post →
      Workbook.invalid_title_character (Workbook.title_or_default T) = None ∧
      avoid_duplicate_name pre (Workbook.title_or_default T) = T ∧
      ∀ col v, col ∈ SchemaCache.get_columns_for_table cache T →
               v ∈ Field.to_row (DDSpider.make_field self T col) →
               Worksheet.bind_value v = Ok (Worksheet.stored v)) →
   ∃ xl', DDSpider.run_tables self = Ok xl') ∧
  (∀ v, (∀ s, v = PyStr s → String.length s ≤ Worksheet.MAX_STRING) →
        Worksheet.stored v = v) ∧
  ∀ xl',
    DDSpider.run_tables self = Ok xl' →
    (∀ w tr, (DDSpider.run self w tr).2 =
             tr ++ [Event (SaveFile (XLService.fullpath xl') (XLService.wkbk xl'))
                          (raises w (SaveFile (XLService.fullpath xl')
                                              (XLService.wkbk xl')))]) ∧
    ∀ T, T ∈ SchemaCache.tables cache →
      ∃ ws,
        sheet_named (XLService.wkbk xl') T ws ∧
        Worksheet.title ws = T ∧
        let cols := SchemaCache.get_columns_for_table cache T in
        length (Worksheet.values ws) = length cols + 1 ∧
        Worksheet.max_row ws = length cols + 1 ∧
        Worksheet.values ws !! 0 =
          Some (PyStr <$> TableDescription.headers (TableDescription.init T)) ∧
        (∀ i col, cols !! i = Some col →
                  Worksheet.values ws !! (i + 1) =
                  Some (Worksheet.stored <$>
                        Field.to_row (DDSpider.make_field self T col))) ∧
        ∀ db, cache = catalog_cache db →
          ∃ rows : list (COLUMNS.row * pyval),
            cols = DBService.to_column <$> rows ∧
            Forall (λ r, r.1 ∈ columns_view db ∧ COLUMNS.TABLE_NAME r.1 = T) rows ∧
            StronglySorted
              (λ r1 r2, COLUMNS.ORDINAL_POSITION r1.1 ≤ COLUMNS.ORDINAL_POSITION r2.1)
              rows.
Proof.
  intros Hinit self. rewrite init_unfold in Hinit. injection Hinit as <-.
  split; [|split; [exact stored_short|]].
  { intros Hcond. unfold DDSpider.run_tables. apply (for_each_completes self).
    intros pre T post Htables. exact (Hcond pre T post Htables). }
  intros xl' Hrun.
  split; [intros; by apply run_saves|].
  unfold DDSpider.run_tables in Hrun.
  apply (for_each_described_inv self) in Hrun as [_ Hdesc];
    [|intros ws Hin; by apply not_elem_of_nil in Hin].
  intros T HT.
  destruct (described_values self (XLService.wkbk xl') T) as (ws & Hn & Ht & Hv & Hr & _).
  { apply Hdesc. by right. }
  exists ws. split; [done|]. split; [done|]. cbv zeta.
  rewrite Hv. unfold stored_rows, sheet_rows. rewrite describe_unfold.
  cbn [TableDescription.headers TableDescription.fields].
  rewrite fmap_cons, stored_headers. cbn [length]. rewrite !length_fmap.
  change (DDSpider.cache self) with cache in *.
  split; [lia|]. split; [exact Hr|]. split; [done|]. split.
  - intros i col Hcol. rewrite Nat.add_1_r.
    change ((?x :: ?l) !! S i) with (l !! i).
    by rewrite !list_lookup_fmap, Hcol.
  - intros db ->. apply columns_in_ordinal_order.
Qed.

(** No value of the sample table is refused as a cell value. *)
Lemma ex_cache_legal :
  forallb (λ col,
             forallb (λ v, match Worksheet.bind_value v with
                           | Ok _ => true
                           | Raise _ => false
                           end)
                     (Field.to_row
                        (DDSpider.make_field
                           (DDSpider.mk (DBService.mk ex_db "Shop") ex_cache
                              (XLService.mk "C:\out\Shop_DataDictionary.xlsx" []))
                           "Users" col)))
          (SchemaCache.get_columns_for_table ex_cache "Users") = true.
Proof. vm_compute. reflexivity. Qed.

Lemma run_writes_every_table_witness :
  ∃ xl',
    @DDSpider.run_tables plain_naming
      (DDSpider.mk (DBService.mk ex_db "Shop") ex_cache
         (XLService.mk "C:\out\Shop_DataDictionary.xlsx" [])) = Ok xl' ∧
    ∀ T, T ∈ SchemaCache.tables ex_cache →
      ∃ ws, sheet_named (XLService.wkbk xl') T ws ∧
            Worksheet.max_row ws =
              length (SchemaCache.get_columns_for_table ex_cache T) + 1.
Proof.
  destruct (@run_writes_every_table plain_naming (DBService.mk ex_db "Shop") ex_cache
              "C:\out" "Shop" (XLService.mk "C:\out\Shop_DataDictionary.xlsx" []) eq_refl)
    as (Hcompletes & _ & Hall).
  destruct Hcompletes as [xl' Hrun].
  { intros pre T post Htables. change (SchemaCache.tables ex_cache) with ["Users"] in Htables.
    destruct pre as [|p pre]; simpl in Htables;
      [injection Htables as <- <-|injection Htables as _ Hnil; by destruct pre].
    split; [reflexivity|]. split; [reflexivity|].
    intros col v Hcol Hv.
    pose proof (proj1 (forallb_forall _ _) ex_cache_legal col
                  (proj1 (list_elem_of_In _ _) Hcol)) as Hvals.
    pose proof (proj1 (forallb_forall _ _) Hvals v (proj1 (list_elem_of_In _ _) Hv))
      as Hlegal.
    simpl in Hlegal.
    destruct (Worksheet.bind_value v) as [v'|e] eqn:Hb; [|discriminate Hlegal].
    by apply bind_value_Ok in Hb as ->. }
  exists xl'. split; [exact Hrun|].
  destruct (Hall xl' Hrun) as [_ Hsheets].
  intros T HT.
  destruct (Hsheets T HT) as (ws & Hn & _ & _ & Hr & _).
  exists ws. split; [exact Hn|exact Hr].
Defined.

(** The sheet of the sample table, read back. *)
Example users_sheet :
  (λ xl, Worksheet.values <$> XLService.wkbk xl) <$>
    (match @DDSpider.run_tables plain_naming ex_spider with
     | Ok xl => Some xl
     | Raise _ => None
     end) =
  Some [ [ [ PyStr "Primary/Foreign Key"; PyStr "Field Name"; PyStr "Caption";
             PyStr "Data Type"; PyStr "Field Size"; PyStr "Default";
             PyStr "Nullable"; PyStr "Unique"; PyStr "Reference"; PyStr "Notes" ];
           [ PyStr "P"; PyStr "id"; PyStr "Identity"; PyStr "int"; PyNone; PyNone;
             PyStr "NO"; PyBool false; PyNone; PyNone ];
           [ PyNone; PyStr "email"; PyNone; PyStr "varchar"; PyStr "255"; PyNone;
             PyStr "NO"; PyBool true; PyNone; PyNone ];
           [ PyStr "F"; PyStr "org_id"; PyNone; PyStr "int"; PyNone; PyNone;
             PyStr "YES"; PyBool false; PyStr "A.id; B.ref"; PyNone ] ] ].
Proof. vm_compute. reflexivity. Qed.

(** A table without a column whose name is no sheet title: the loop
    raises at it, and it gets no worksheet. *)
Lemma bare_table_refused :
  "In/Out" ∈ SchemaCache.tables ex_slash_cache ∧
  SchemaCache.get_columns_for_table ex_slash_cache "In/Out" = [] ∧
  @DDSpider.run_tables plain_naming
    (DDSpider.mk (DBService.mk ex_db "Shop") ex_slash_cache (XLService.mk "out.xlsx" []))
  = Raise (ValueError "Invalid character / found in sheet title").
Proof. vm_compute. split; [constructor|split; reflexivity]. Qed.

(** Describing a table without a column writes the header row and no
    more, which does not raise. *)
Lemma bare_table_written `{SheetNaming} (self : DDSpider.t) (T : string) (ws : Worksheet.t) :
  SchemaCache.get_columns_for_table (DDSpider.cache self) T = [] →
  ∃ ws1,
    XLService._write_headers ws (TableDescription.headers (DDSpider.describe self T)) = Ok ws1 ∧
    XLService._write_fields ws1 (DDSpider.describe self T) = Ok ws1.
Proof.
  intros Hcols.
  destruct (write_headers_legal ws (TableDescription.headers (DDSpider.describe self T)))
    as [ws1 Hhead].
  { rewrite describe_unfold. apply headers_legal. }
  exists ws1. split; [exact Hhead|].
  rewrite describe_unfold, Hcols. reflexivity.
Qed.

(** C9: a table of the table list with no column in the column collection
    is no error in itself.  Describing it raises only when the workbook
    refuses its name as a sheet title or hands out no sheet under its
    name, never on account of the missing columns; and whenever the loop
    over the tables runs to its end, its worksheet holds the header row
    and no data row. *)
Theorem table_without_columns `{SheetNaming}
    (dbsvc : DBService.t) (cache : SchemaCache.t)
    (directory dbname : string) (xl : XLService.t) (T : string) :
  XLService.init directory dbname = Ok xl →
  SchemaCache.get_columns_for_table cache T = [] →
  let self := DDSpider.mk dbsvc cache xl in
  (∀ xl0 e,
     XLService.describe_table xl0 (DDSpider.describe self T) = Raise e →
     (∃ c, Workbook.invalid_title_character (Workbook.title_or_default T) = Some c ∧
           e = ValueError ("Invalid character " +:+ String c "" +:+
                           " found in sheet title")) ∨
     (list_find (λ ws, Worksheet.title ws = T)
        (XLService.wkbk xl0 ++
         [ Worksheet.mk (Workbook.new_title T (XLService.wkbk xl0)) ∅ ]) = None ∧
      e = KeyError ("Worksheet " +:+ T +:+ " does not exist."))) ∧
  (∀ xl',
     T ∈ SchemaCache.tables cache →
     DDSpider.run_tables self = Ok xl' →
     ∃ ws,
       sheet_named (XLService.wkbk xl') T ws ∧
       Worksheet.title ws = T ∧
       Worksheet.max_row ws = 1 ∧
       Worksheet.values ws =
         [ PyStr <$> TableDescription.headers (TableDescription.init T) ] ∧
       ∀ r c, 2 ≤ r → Worksheet.cells ws !! (r, c) = None).
Proof.
  intros Hinit Hcols self. rewrite init_unfold in Hinit. injection Hinit as <-. split.
  - intros xl0 e. rewrite describe_table_unfold, describe_table_name.
    destruct (Workbook.invalid_title_character _) as [c|]; [intros [= <-]; eauto|].
    destruct (list_find _ _) as [[i ws]|]; [|intros [= <-]; eauto].
    destruct (bare_table_written self T ws Hcols) as (ws1 & -> & Hfields).
    simpl. by rewrite Hfields.
  - intros xl' HT Hrun. unfold DDSpider.run_tables in Hrun.
    apply (for_each_described_inv self) in Hrun as [_ Hdesc];
      [|intros ws Hin; by apply not_elem_of_nil in Hin].
    assert (described self (XLService.wkbk xl') T) as Hd by (apply Hdesc; by right).
    destruct (described_values self (XLService.wkbk xl') T Hd)
      as (ws & Hn & Ht & Hv & Hr & _).
    destruct Hd as (ws0 & Hn0 & _ & Hh).
    assert (ws0 = ws) as ->.
    { destruct Hn as (i & Hi & Hws), Hn0 as (j & Hj & Hws0). congruence. }
    exists ws. split; [done|]. split; [done|].
    assert (stored_rows (DDSpider.describe self T)
            = [ PyStr <$> TableDescription.headers (TableDescription.init T) ]) as Hrows.
    { unfold stored_rows, sheet_rows. rewrite describe_unfold.
      cbn [TableDescription.headers TableDescription.fields DDSpider.cache self].
      rewrite Hcols. rewrite fmap_cons, stored_headers. done. }
    rewrite Hrows in Hv, Hh.
    cbn [DDSpider.cache self] in Hr. rewrite Hcols in Hr.
    split; [exact Hr|]. split; [exact Hv|].
    intros r c Hr2. rewrite Hh. unfold grid. simpl. case_decide; [|done].
    destruct r as [|[|r]]; [lia..|]. done.
Qed.

Lemma ex_bare_cache_run :
  ∃ xl',
    @DDSpider.run_tables plain_naming
      (DDSpider.mk (DBService.mk ex_db "Shop") ex_bare_cache
         (XLService.mk "C:\out\Shop_DataDictionary.xlsx" [])) = Ok xl'.
Proof. vm_compute. eexists. reflexivity. Qed.

Lemma table_without_columns_witness :
  ∃ xl' ws,
    @DDSpider.run_tables plain_naming
      (DDSpider.mk (DBService.mk ex_db "Shop") ex_bare_cache
         (XLService.mk "C:\out\Shop_DataDictionary.xlsx" [])) = Ok xl' ∧
    sheet_named (XLService.wkbk xl') "Bare" ws ∧
    Worksheet.max_row ws = 1.
Proof.
  destruct ex_bare_cache_run as [xl' Hrun].
  destruct (@table_without_columns plain_naming (DBService.mk ex_db "Shop") ex_bare_cache
              "C:\out" "Shop" (XLService.mk "C:\out\Shop_DataDictionary.xlsx" []) "Bare"
              eq_refl eq_refl)
    as [_ Hall].
  destruct (Hall xl') as (ws & Hn & _ & Hr & _).
  - right. left.
  - exact Hrun.
  - exists xl', ws. split; [exact Hrun|]. split; [exact Hn|exact Hr].
Defined.

(** ** The size of a field *)

(** C10: the Field constructor stores a falsy size (None, or the integer
    0) unchanged and every other size as its string; the stored value is
    what [to_row] puts in the fifth cell and what the worksheet then holds,
    so that a maximum length of 0 appears as the number 0 and not as the
    string "0". *)
Theorem field_size_conversion
    (key name cap typ size default null uniq ref notes : pyval) :
  let f := Field.init key name cap typ size default null uniq ref notes in
  (truthy size = false → Field.size f = size) ∧
  (truthy size = true → Field.size f = PyStr (str size)) ∧
  (size = PyNone ∨ size = PyInt 0 → Field.size f = size) ∧
  (∀ n : Z, size = PyInt n → n ≠ 0%Z → Field.size f = PyStr (pretty n)) ∧
  Field.to_row f !! 4 = Some (Field.size f) ∧
  (∀ self table tn cn nullable dt dflt ident,
     Field.to_row (DDSpider.make_field self table
                     (Column.mk tn cn nullable dt (PyInt 0) dflt ident)) !! 4
     = Some (PyInt 0)) ∧
  (∀ ws desc i fld,
     holds ws (sheet_rows desc) →
     TableDescription.fields desc !! i = Some fld →
     Worksheet.cells ws !! (i + 2, 5) = Some (Field.size fld)).
Proof.
  intros f. subst f. unfold Field.init. simpl. repeat split.
  - by intros ->.
  - by intros ->.
  - by intros [-> | ->].
  - intros n -> Hn. simpl. destruct (Z.eqb_spec n 0); [done|]. done.
  - intros. unfold DDSpider.make_field. simpl. by destruct (truthy ident).
  - intros ws desc i fld Hh Hf. rewrite Hh. unfold grid, sheet_rows. simpl.
    rewrite decide_True by lia. replace (i + 2 - 1) with (S i) by lia. simpl.
    by rewrite list_lookup_fmap, Hf.
Qed.

(** A maximum length of 0 and one of 255, as they reach the worksheet. *)
Example field_size_cells :
  Field.to_row (DDSpider.make_field ex_spider "T"
                  (Column.mk "T" "c" (PyStr "YES") (PyStr "varchar") (PyInt 0) PyNone PyNone))
    !! 4 = Some (PyInt 0) ∧
  Field.to_row (DDSpider.make_field ex_spider "T"
                  (Column.mk "T" "c" (PyStr "YES") (PyStr "varchar") (PyInt 255) PyNone PyNone))
    !! 4 = Some (PyStr "255").
Proof. split; reflexivity. Qed.

(** ** The run as a whole *)

Section script.
Context `{SheetNaming}.
Variables (w : world) (server catalog directory : string).

Lemma discoverdb_run :
  script_run w server catalog directory
    (discoverdb server catalog directory w []).1
    (discoverdb server catalog directory w []).2.
Proof.
  unfold discoverdb, DBService.init, SchemaCache.bootstrap, DBService.get_tables,
    DBService.get_columns, DBService.get_constraints, DBService.close, DDSpider.run,
    XLService.save, perform, ask, lift, mbind, M_bind, mret, M_ret.
  simpl.
  destruct (raises w (Connect _)) eqn:?; simpl;
    [by eapply (fails_in_prelude _ _ _ _ 0)|].
  destruct (raises w GetInfo) eqn:?; simpl;
    [by eapply (fails_in_prelude _ _ _ _ 1)|].
  destruct (raises w (Execute Q_tables)) eqn:?; simpl;
    [by eapply (fails_in_prelude _ _ _ _ 2)|].
  destruct (raises w (Execute Q_columns)) eqn:?; simpl;
    [by eapply (fails_in_prelude _ _ _ _ 3)|].
  destruct (raises w (Execute Q_constraints)) eqn:?; simpl;
    [by eapply (fails_in_prelude _ _ _ _ 4)|].
  destruct (raises w CloseConnection) eqn:?; simpl;
    [by eapply (fails_in_prelude _ _ _ _ 5)|].
  change (DDSpider.run_tables _)
    with (DDSpider.run_tables (script_spider w server catalog directory)).
  destruct (DDSpider.run_tables _) as [xl|e] eqn:Hrun; simpl;
    [|by apply fails_in_memory].
  destruct (raises w (SaveFile _ _)) eqn:?; simpl;
    [by eapply fails_saving|].
  destruct (raises w (PrintLine _)) eqn:?; simpl;
    [by eapply fails_reporting|].
  by apply succeeds.
Qed.

Lemma prelude_cases n c :
  prelude server catalog !! n = Some c →
  (n = 0 ∧ c = Connect (connection_string server catalog)) ∨
  (n = 1 ∧ c = GetInfo) ∨
  (n = 2 ∧ c = Execute Q_tables) ∨
  (n = 3 ∧ c = Execute Q_columns) ∨
  (n = 4 ∧ c = Execute Q_constraints) ∨
  (n = 5 ∧ c = CloseConnection).
Proof.
  unfold prelude. intros Hn.
  do 6 (destruct n as [|n]; [simpl in Hn; simplify_eq; tauto|]). done.
Qed.



Variables (r : result unit) (tr : list event).
Hypothesis Hrun : script_run w server catalog directory r tr.

(** Splitting a run into its cases, the failing call of the prelude made
    explicit. *)
Ltac script_cases :=
  destruct Hrun;
  [ match goal with
    | Hp : prelude _ _ !! _ = Some _ |- _ =>
        destruct (prelude_cases _ _ Hp)
          as [[-> ->]|[[-> ->]|[[-> ->]|[[-> ->]|[[-> ->]|[-> ->]]]]]]
    end
  | .. ];
  unfold prelude, completed in *; simpl in *.

Ltac in_list :=
  repeat match goal with
         | Hin : _ ∈ _ :: _ |- _ => apply elem_of_cons in Hin as [Hin|Hin]
         | Hin : _ ∈ [] |- _ => by apply not_elem_of_nil in Hin
         | Hin : Event _ _ = Event _ _ |- _ => injection Hin as ??
         end;
  simplify_eq.






(** A saved workbook is the one the loop over the tables ended with. *)
Lemma saved_workbook path wb res :
  Event (SaveFile path wb) res ∈ tr →
  ∃ xl, DDSpider.run_tables (script_spider w server catalog directory) = Ok xl ∧
        path = XLService.fullpath xl ∧ wb = XLService.wkbk xl.
Proof. intros Hin. script_cases; in_list; eauto 10. Qed.

(** At most one attempt to save is made. *)
Lemma save_attempted_at_most_once : length (filter is_save tr) ≤ 1.
Proof. script_cases; vm_compute; lia. Qed.

(** A successful run: the prelude, the save, the report. *)
Lemma success_trace :
  r = Ok () →
  ∃ xl, DDSpider.run_tables (script_spider w server catalog directory) = Ok xl ∧
        tr = (completed <$> prelude server catalog) ++
             [ completed (SaveFile (XLService.fullpath xl) (XLService.wkbk xl));
               completed (PrintLine ("Data Dictionary Created: " +:+ XLService.fullpath xl)) ].
Proof. intros Hr. script_cases; try done. eauto. Qed.
End script.

Lemma append_cons a (s t : string) : String a s +:+ t = String a (s +:+ t).
Proof. reflexivity. Qed.

(** A number in decimal ends in a digit. *)
Lemma pretty_N_go_suffix (x : N) : ∀ s, ∃ p, pretty_N_go x s = p +:+ s.
Proof.
  induction (N.lt_wf_0 x) as [x _ IH]. intros s.
  destruct (decide (x = 0%N)) as [->|Hx].
  - exists "". by rewrite pretty_N_go_0.
  - rewrite pretty_N_go_step by lia.
    destruct (IH (x `div` 10)%N) with (s := String (pretty_N_char (x `mod` 10)) s)
      as [p Hp]; [apply N.div_lt; lia|].
    exists (p +:+ String (pretty_N_char (x `mod` 10)) ""). rewrite Hp.
    by rewrite append_assoc.
Qed.

Lemma chars_append (a b : string) :
  String.list_ascii_of_string (a +:+ b)
  = String.list_ascii_of_string a ++ String.list_ascii_of_string b.
Proof.
  induction a as [|x a IH]; [done|]. rewrite append_cons. simpl. by rewrite IH.
Qed.

Lemma plain_invents_no_diagram names t :
  @avoid_duplicate_name plain_naming names t = "sysdiagrams" → t = "sysdiagrams".
Proof.
  simpl. destruct (existsb _ names); [|done]. intros Heq. exfalso.
  set (k := N.succ _) in Heq.
  assert (∃ p, pretty k = p +:+ String (pretty_N_char (k `mod` 10)) "") as [p Hp].
  { unfold pretty, pretty_N. rewrite decide_False by (unfold k; lia).
    rewrite pretty_N_go_step by (unfold k; lia). apply pretty_N_go_suffix. }
  rewrite Hp in Heq. apply (f_equal String.list_ascii_of_string) in Heq.
  rewrite !chars_append in Heq.
  change (String.list_ascii_of_string (String ?c "")) with [c] in Heq.
  apply (f_equal last) in Heq.
  rewrite (assoc_L (++)), last_snoc in Heq. simpl in Heq.
  unfold pretty_N_char in Heq. repeat case_match; discriminate.
Qed.

(** The path of any attempt to save. *)
Lemma saved_path `{SheetNaming} w server catalog directory path wb res :
  Event (SaveFile path wb) res ∈ (discoverdb server catalog directory w []).2 →
  path = directory +:+ "\" +:+
         database_name (script_database w server catalog) +:+ "_DataDictionary.xlsx".
Proof.
  intros Hin.
  destruct (saved_workbook w server catalog directory _ _
              (discoverdb_run w server catalog directory) path wb res Hin)
    as (xl & Hrun & -> & _).
  unfold DDSpider.run_tables in Hrun.
  by apply (for_each_titles (script_spider w server catalog directory)) in Hrun as [-> _].
Qed.

(** A run that succeeds has saved at the path built from the directory
    and the name of the database. *)
Lemma success_saves `{SheetNaming} w server catalog directory :
  (discoverdb server catalog directory w []).1 = Ok () →
  ∃ wb, completed (SaveFile (directory +:+ "\" +:+
                             database_name (script_database w server catalog) +:+
                             "_DataDictionary.xlsx") wb)
          ∈ (discoverdb server catalog directory w []).2.
Proof.
  intros Hok.
  destruct (success_trace w server catalog directory _ _
              (discoverdb_run w server catalog directory) Hok) as (xl & Hrun & ->).
  exists (XLService.wkbk xl).
  unfold DDSpider.run_tables in Hrun.
  apply (for_each_titles (script_spider w server catalog directory)) in Hrun as [Hp _].
  simpl in Hp. rewrite <- Hp. set_solver.
Qed.

Lemma ex_world_succeeds :
  (@discoverdb plain_naming "srv" "Shop" "C:\out" ex_world []).1 = Ok ().
Proof. vm_compute. reflexivity. Qed.

(** The sample run saves its workbook. *)
Lemma ex_world_saved :
  ∃ wb, completed (SaveFile "C:\out\Shop_DataDictionary.xlsx" wb)
          ∈ (@discoverdb plain_naming "srv" "Shop" "C:\out" ex_world []).2.
Proof. exact (success_saves ex_world "srv" "Shop" "C:\out" ex_world_succeeds). Qed.

(** C6 as stated fails: the directory and the file name are joined by a
    backslash, so the path is not <directory>/<databaseName>_DataDictionary.xlsx. *)
Lemma save_path_not_slash :
  (discoverdb "srv" "Shop" "C:\out" ex_world []).1 = Ok () ∧
  (∃ wb, completed (SaveFile "C:\out\Shop_DataDictionary.xlsx" wb)
           ∈ (discoverdb "srv" "Shop" "C:\out" ex_world []).2) ∧
  (∀ wb res, Event (SaveFile "C:\out/Shop_DataDictionary.xlsx" wb) res
               ∉ (discoverdb "srv" "Shop" "C:\out" ex_world []).2).
Proof.
  split; [exact ex_world_succeeds|]. split.
  - exact ex_world_saved.
  - intros wb res Hin. apply saved_path in Hin. discriminate Hin.
Qed.

(** In every run, failed or not, the workbook is saved at most once. *)
Lemma workbook_saved_at_most_once `{SheetNaming} (w : world) (server catalog directory : string) :
  length (filter is_save (discoverdb server catalog directory w []).2) ≤ 1.
Proof.
  apply (save_attempted_at_most_once w server catalog directory _ _
           (discoverdb_run w server catalog directory)).
Qed.

(** C6, amended: a run that succeeds persists the workbook exactly once,
    after every table's worksheet has been written, to
    <directory>\<databaseName>_DataDictionary.xlsx; the save is the last
    operation on the workbook, followed only by the report, and no run
    saves more than once. *)
Theorem workbook_saved_once `{SheetNaming} (w : world) (server catalog directory : string) :
  (discoverdb server catalog directory w []).1 = Ok () →
  let spider := script_spider w server catalog directory in
  let tr := (discoverdb server catalog directory w []).2 in
  ∃ xl,
    DDSpider.run_tables spider = Ok xl ∧
    (∀ T, T ∈ SchemaCache.tables (DDSpider.cache spider) →
          described spider (XLService.wkbk xl) T) ∧
    XLService.fullpath xl =
      directory +:+ "\" +:+ database_name (script_database w server catalog)
                +:+ "_DataDictionary.xlsx" ∧
    tr = (completed <$> prelude server catalog) ++
         [ completed (SaveFile (XLService.fullpath xl) (XLService.wkbk xl));
           completed (PrintLine ("Data Dictionary Created: " +:+ XLService.fullpath xl)) ] ∧
    length (filter is_save tr) = 1 ∧
    ∀ w' server' catalog' directory',
      length (filter is_save (discoverdb server' catalog' directory' w' []).2) ≤ 1.
Proof.
  intros Hok spider tr.
  destruct (success_trace w server catalog directory _ _
              (discoverdb_run w server catalog directory) Hok) as (xl & Hrun & Htr).
  exists xl. split; [exact Hrun|]. split; [|split; [|split; [exact Htr|split]]].
  - intros T HT.
    destruct (for_each_described_inv spider _ _ _ Hrun) as [_ Hd].
    + intros ws Hin. by apply not_elem_of_nil in Hin.
    + apply Hd. by right.
  - unfold DDSpider.run_tables in Hrun.
    by apply (for_each_titles (script_spider w server catalog directory)) in Hrun as [-> _].
  - subst tr. rewrite Htr. reflexivity.
  - intros. apply workbook_saved_at_most_once.
Qed.

Lemma workbook_saved_once_witness :
  ∃ xl,
    @DDSpider.run_tables plain_naming (script_spider ex_world "srv" "Shop" "C:\out") = Ok xl ∧
    XLService.fullpath xl = "C:\out\Shop_DataDictionary.xlsx" ∧
    length (filter is_save (@discoverdb plain_naming "srv" "Shop" "C:\out" ex_world []).2) = 1.
Proof.
  destruct (@workbook_saved_once plain_naming ex_world "srv" "Shop" "C:\out")
    as (xl & Hrun & _ & Hpath & _ & Hlen & _).
  - exact ex_world_succeeds.
  - exists xl. split; [exact Hrun|]. split; [exact Hpath|exact Hlen].
Defined.


(** A query that is refused ends the run with its error, and a table name
    the library refuses ends it with the library's; neither saves. *)
Example failed_runs :
  @discoverdb plain_naming "srv" "Shop" "C:\out" ex_world_denied [] =
    (Raise (DatabaseError "permission denied"),
     [ completed (Connect (connection_string "srv" "Shop")); completed GetInfo;
       completed (Execute Q_tables);
       Event (Execute Q_columns) (Some (DatabaseError "permission denied")) ]) ∧
  @discoverdb plain_naming "srv" "Shop" "C:\out" ex_world_slash [] =
    (Raise (ValueError "Invalid character / found in sheet title"),
     completed <$> prelude "srv" "Shop").
Proof. split; vm_compute; reflexivity. Qed.

(** The sample catalog holds the diagram table; the cache and the
    workbook of the sample run do not. *)
Example sample_catalog_read :
  SchemaCache.tables (catalog_cache ex_db) = ["Users"; "Orgs"] ∧
  (λ c, (Column.TABLE_NAME c, Column.COLUMN_NAME c))
    <$> SchemaCache.columns (catalog_cache ex_db)
  = [ ("Orgs", "id"); ("Users", "id"); ("Users", "email"); ("Users", "org_id") ] ∧
  Constraint.CONSTRAINT_NAME <$> SchemaCache.constraints (catalog_cache ex_db)
  = [ "PK_Users"; "UQ_email"; "FK_org"; "PK_Orgs" ] ∧
  match @DDSpider.run_tables plain_naming (script_spider ex_world "srv" "Shop" "C:\out") with
  | Ok xl => Workbook.sheetnames (XLService.wkbk xl) = ["Users"; "Orgs"]
  | Raise _ => False
  end.
Proof. vm_compute. repeat split. Qed.

(** C8: the diagram table is in none of the three collections that
    [bootstrap] reads, whatever the catalog holds, and no worksheet of a
    saved workbook is titled after it.  The library is taken to rename a
    sheet to "sysdiagrams" only if that was the title asked for. *)
Theorem sysdiagrams_left_out `{SheetNaming} (w : world) (server catalog directory : string) :
  (∀ names t, avoid_duplicate_name names t = "sysdiagrams" → t = "sysdiagrams") →
  (∀ dbsvc tr cache tr',
     SchemaCache.bootstrap dbsvc w tr = (Ok cache, tr') →
     ("sysdiagrams" ∉ SchemaCache.tables cache) ∧
     (∀ c, c ∈ SchemaCache.columns cache → Column.TABLE_NAME c ≠ "sysdiagrams") ∧
     (∀ k, k ∈ SchemaCache.constraints cache →
           Constraint.CONSTRAINED_TABLE k ≠ "sysdiagrams")) ∧
  (∀ path wb res,
     Event (SaveFile path wb) res ∈ (discoverdb server catalog directory w []).2 →
     "sysdiagrams" ∉ Workbook.sheetnames wb).
Proof.
  intros Hname. split.
  - intros dbsvc tr cache tr' Hboot. apply bootstrap_cache in Hboot as ->.
    apply catalog_cache_excludes.
  - intros path wb res Hin Hsheet.
    destruct (saved_workbook w server catalog directory _ _
                (discoverdb_run w server catalog directory) path wb res Hin)
      as (xl & Hrun & _ & ->).
    unfold DDSpider.run_tables in Hrun.
    apply (for_each_titles (script_spider w server catalog directory)) in Hrun as [_ Hn].
    destruct (Hn _ Hsheet) as [Hnil | (names & t & Ht & Heq)].
    + by apply not_elem_of_nil in Hnil.
    + symmetry in Heq. apply Hname in Heq.
      unfold Workbook.title_or_default in Heq. case_decide; [discriminate Heq|]. subst t.
      by apply (catalog_cache_excludes (script_database w server catalog)) in Ht.
Qed.

Lemma sysdiagrams_left_out_witness :
  (TABLES.mk "Shop" "sysdiagrams" "BASE TABLE" ∈ tables_view ex_db) ∧
  ∃ wb,
    completed (SaveFile "C:\out\Shop_DataDictionary.xlsx" wb)
      ∈ (@discoverdb plain_naming "srv" "Shop" "C:\out" ex_world []).2 ∧
    "sysdiagrams" ∉ Workbook.sheetnames wb.
Proof.
  split; [set_solver|].
  destruct ex_world_saved as (wb & Hwb). exists wb. split; [exact Hwb|].
  destruct (@sysdiagrams_left_out plain_naming ex_world "srv" "Shop" "C:\out"
              plain_invents_no_diagram) as [_ Hsheets].
  exact (Hsheets _ wb None Hwb).
Defined.

(** * Further properties of the script *)

(** ** The schema index *)

(** X1: [is_column_unique] answers true exactly when a UNIQUE constraint
    has the pair as its constrained (table, column); a PRIMARY KEY or a
    FOREIGN KEY on the pair does not make it so. *)
Theorem is_column_unique_iff (self : SchemaCache.t) (table column : string) :
  (SchemaCache.is_column_unique self table column = true
   ↔ constrained_by self "UNIQUE" table column) ∧
  ((∀ c, c ∈ SchemaCache.constraints self → Constraint.CONSTRAINT_TYPE c ≠ "UNIQUE") →
   SchemaCache.is_column_unique self table column = false).
Proof.
  assert (SchemaCache.is_column_unique self table column = true
          ↔ constrained_by self "UNIQUE" table column) as Hiff.
  { unfold SchemaCache.is_column_unique. rewrite py_any_truth.
    unfold constrained_by. split; intros (c & Hin & Hc); exists c; tauto. }
  split; [exact Hiff|].
  intros Hnone. apply not_true_is_false. intros Htrue.
  apply Hiff in Htrue as (c & Hin & Hty & _). by apply (Hnone c).
Qed.

Lemma key_has_foreign (self : SchemaCache.t) (table column : string) :
  (SchemaCache.is_column_a_key self table column = Some "F" ∨
   SchemaCache.is_column_a_key self table column = Some "P/F")
  ↔ constrained_by self "FOREIGN KEY" table column.
Proof.
  unfold SchemaCache.is_column_a_key.
  pose proof (any_kind_of_column self "FOREIGN KEY" table column) as Hf.
  destruct (py_any _ (filter (λ c, _ = "PRIMARY KEY") _));
    destruct (py_any _ (filter (λ c, _ = "FOREIGN KEY") _)); simpl;
    intuition (discriminate || auto).
Qed.

Lemma reference_is_Some (self : SchemaCache.t) (table column : string) :
  is_Some (SchemaCache.get_column_reference self table column)
  ↔ constrained_by self "FOREIGN KEY" table column.
Proof.
  rewrite get_column_reference_unfold. unfold constrained_by.
  destruct (filter _ _) as [|fk fks] eqn:E; split.
  - by intros [? ?].
  - intros (c & Hin & Hty & Ht & Hc).
    assert (c ∈ filter (is_foreign_key_of table column) (SchemaCache.constraints self))
      as Hc' by (apply list_elem_of_filter; done).
    rewrite E in Hc'. by apply not_elem_of_nil in Hc'.
  - intros _.
    assert (fk ∈ filter (is_foreign_key_of table column) (SchemaCache.constraints self))
      as Hfk by (rewrite E; left).
    apply list_elem_of_filter in Hfk as [(? & ? & ?) ?]. eauto.
  - eauto.
Qed.

(** X2: a column has a reference exactly when its key role names a foreign
    key: [get_column_reference] answers a string if and only if
    [is_column_a_key] answers "F" or "P/F", and so the Reference cell of a
    field is filled exactly when its key cell reads "F" or "P/F". *)
Theorem key_and_reference_agree (self : DDSpider.t) (table : string) :
  (∀ column,
     is_Some (SchemaCache.get_column_reference (DDSpider.cache self) table column)
     ↔ (SchemaCache.is_column_a_key (DDSpider.cache self) table column = Some "F" ∨
        SchemaCache.is_column_a_key (DDSpider.cache self) table column = Some "P/F")) ∧
  (∀ col,
     Field.ref (DDSpider.make_field self table col) ≠ PyNone
     ↔ (Field.key (DDSpider.make_field self table col) = PyStr "F" ∨
        Field.key (DDSpider.make_field self table col) = PyStr "P/F")).
Proof.
  assert (∀ column,
     is_Some (SchemaCache.get_column_reference (DDSpider.cache self) table column)
     ↔ (SchemaCache.is_column_a_key (DDSpider.cache self) table column = Some "F" ∨
        SchemaCache.is_column_a_key (DDSpider.cache self) table column = Some "P/F"))
    as Hagree.
  { intros column. by rewrite reference_is_Some, key_has_foreign. }
  split; [exact Hagree|].
  intros col. specialize (Hagree (Column.COLUMN_NAME col)).
  assert (Field.ref (DDSpider.make_field self table col)
          = of_option (SchemaCache.get_column_reference (DDSpider.cache self) table
                         (Column.COLUMN_NAME col))) as ->.
  { unfold DDSpider.make_field. by destruct (truthy (Column.IS_IDENTITY col)). }
  assert (Field.key (DDSpider.make_field self table col)
          = of_option (SchemaCache.is_column_a_key (DDSpider.cache self) table
                         (Column.COLUMN_NAME col))) as ->.
  { unfold DDSpider.make_field. by destruct (truthy (Column.IS_IDENTITY col)). }
  assert (∀ o, of_option o ≠ PyNone ↔ is_Some o) as Hsome.
  { intros [s|]; simpl; split; try done; try (by eexists); by intros [? ?]. }
  assert (∀ o s, of_option o = PyStr s ↔ o = Some s) as Hstr.
  { intros [s'|] s; simpl; split; congruence. }
  by rewrite Hsome, !Hstr.
Qed.

(** ** The cells of a data row *)

(** X3: whatever the column, the row of its field is ten cells wide, its
    Notes cell is empty and its Unique cell holds a boolean, the answer of
    [is_column_unique]; so do the tenth and eighth cells of every data row
    of a worksheet that holds the rows of a table. *)
Theorem notes_empty_unique_boolean (self : DDSpider.t) (table : string) :
  (∀ col,
     let row := Field.to_row (DDSpider.make_field self table col) in
     length row = 10 ∧
     row !! 9 = Some PyNone ∧
     row !! 7 = Some (PyBool (SchemaCache.is_column_unique (DDSpider.cache self) table
                                (Column.COLUMN_NAME col)))) ∧
  (∀ ws i col,
     holds ws (sheet_rows (DDSpider.describe self table)) →
     SchemaCache.get_columns_for_table (DDSpider.cache self) table !! i = Some col →
     Worksheet.cells ws !! (i + 2, 10) = Some PyNone ∧
     Worksheet.cells ws !! (i + 2, 8) =
       Some (PyBool (SchemaCache.is_column_unique (DDSpider.cache self) table
                       (Column.COLUMN_NAME col)))).
Proof.
  assert (∀ col,
     let row := Field.to_row (DDSpider.make_field self table col) in
     length row = 10 ∧
     row !! 9 = Some PyNone ∧
     row !! 7 = Some (PyBool (SchemaCache.is_column_unique (DDSpider.cache self) table
                                (Column.COLUMN_NAME col)))) as Hrow.
  { intros col. unfold DDSpider.make_field.
    by destruct (truthy (Column.IS_IDENTITY col)). }
  split; [exact Hrow|].
  intros ws i col Hh Hcol. destruct (Hrow col) as (_ & Hnotes & Huniq).
  rewrite !Hh. unfold grid, sheet_rows. simpl.
  replace (i + 2 - 1) with (S i) by lia. simpl.
  rewrite describe_unfold. simpl. rewrite !list_lookup_fmap, Hcol. simpl.
  rewrite !decide_True by lia.
  split; [exact Hnotes|exact Huniq].
Qed.

(** ** The connection string *)

(** X4: the server and the catalog are pasted into the connection string
    as they are: a server name that carries ";Database=" reads as another
    server and catalog. *)
Theorem connection_string_not_escaped (a b c : string) :
  connection_string (a +:+ ";Database=" +:+ b) c
  = connection_string a (b +:+ ";Database=" +:+ c).
Proof. unfold connection_string. by rewrite !append_assoc. Qed.

(** ** What the catalog queries return *)

Lemma select_columns_listed (db : Database) r :
  r ∈ SQL.select_columns db →
  COLUMNS.TABLE_NAME r.1 ∈ TABLES.TABLE_NAME <$> SQL.select_tables db.
Proof.
  unfold SQL.select_columns. intros Hin.
  apply list_elem_of_fmap in Hin as (c & -> & Hin). simpl.
  rewrite merge_sort_Permutation in Hin.
  apply list_elem_of_bind in Hin as (c0 & Hin & Hc0).
  apply list_elem_of_bind in Hin as (t & Hin & Ht).
  apply list_elem_of_filter in Ht as [Heq Ht].
  case_decide as Hd; [|by apply not_elem_of_nil in Hin].
  apply list_elem_of_singleton in Hin as ->. destruct Hd as [Hne Hty].
  rewrite Heq. by apply select_tables_includes.
Qed.

(** X5: in the cache that [bootstrap] returns, every column belongs to a
    table of the table list: the loop over the tables leaves no column of
    the cache aside. *)
Theorem cache_columns_listed (dbsvc : DBService.t) (w : world) (tr tr' : list event)
    (cache : SchemaCache.t) :
  SchemaCache.bootstrap dbsvc w tr = (Ok cache, tr') →
  ∀ col, col ∈ SchemaCache.columns cache →
         Column.TABLE_NAME col ∈ SchemaCache.tables cache ∧
         col ∈ SchemaCache.get_columns_for_table cache (Column.TABLE_NAME col).
Proof.
  intros Hboot col Hin. apply bootstrap_cache in Hboot as ->.
  split.
  - simpl in *. apply list_elem_of_fmap in Hin as (r & -> & Hin).
    simpl. by apply select_columns_listed.
  - unfold SchemaCache.get_columns_for_table. by apply list_elem_of_filter.
Qed.

Lemma ex_bootstrap :
  SchemaCache.bootstrap (DBService.mk ex_db "Shop") ex_world []
  = (Ok (catalog_cache ex_db),
     [ completed (Execute Q_tables); completed (Execute Q_columns);
       completed (Execute Q_constraints); completed CloseConnection ]).
Proof. reflexivity. Qed.

Lemma cache_columns_listed_witness :
  Forall (λ col, Column.TABLE_NAME col ∈ SchemaCache.tables (catalog_cache ex_db))
         (SchemaCache.columns (catalog_cache ex_db)).
Proof.
  apply Forall_forall. intros col Hin.
  exact (proj1 (cache_columns_listed _ _ _ _ _ ex_bootstrap col Hin)).
Defined.

Lemma count_replicated {A} `{EqDecision A} (P : TABLES.row → Prop)
    `{∀ t, Decision (P t)} (c c0 : A) (ts : list TABLES.row) :
  length (filter (λ x, x = c) (t ← ts; if decide (P t) then [c0] else []))
  = if decide (c0 = c) then length (filter P ts) else 0.
Proof.
  induction ts as [|t ts IH].
  - simpl. by case_decide.
  - rewrite bind_cons, filter_app, length_app, IH, (filter_cons P).
    destruct (decide (P t)); simpl.
    + rewrite filter_cons. repeat case_decide; simpl; done.
    + done.
Qed.

(** X6: a catalog column is returned once for every row of TABLES that
    lists a base table of its name: not at all when only a view or the
    diagram table bears the name, and more than once when several base
    tables do. *)
Theorem column_multiplicity (db : Database) (c : COLUMNS.row) :
  length (filter (λ r : COLUMNS.row * pyval, r.1 = c) (SQL.select_columns db))
  = length (filter (λ c0, c0 = c) (columns_view db))
    * length (listed_as db (COLUMNS.TABLE_NAME c)).
Proof.
  unfold SQL.select_columns.
  rewrite (filter_fmap_comm
             (λ c0, (c0, is_identity db (COLUMNS.TABLE_NAME c0) (COLUMNS.COLUMN_NAME c0)))
             (λ r : COLUMNS.row * pyval, r.1 = c)).
  rewrite length_fmap. simpl.
  rewrite merge_sort_Permutation.
  induction (columns_view db) as [|c0 cs IH]; [done|].
  rewrite bind_cons, filter_app, length_app, IH, (filter_cons (λ c1, c1 = c)).
  assert (length (filter (λ x, x = c)
            (t ← filter (λ t, COLUMNS.TABLE_NAME c0 = TABLES.TABLE_NAME t) (tables_view db);
             if decide (TABLES.TABLE_NAME t ≠ "sysdiagrams" ∧
                        TABLES.TABLE_TYPE t = "BASE TABLE")
             then [c0] else []))
          = if decide (c0 = c) then length (listed_as db (COLUMNS.TABLE_NAME c)) else 0)
    as ->.
  { rewrite (count_replicated
               (λ t, TABLES.TABLE_NAME t ≠ "sysdiagrams" ∧ TABLES.TABLE_TYPE t = "BASE TABLE")).
    case_decide as Hc; [|done]. subst c0. unfold listed_as.
    rewrite list_filter_filter. f_equal. apply list_filter_iff. intros t. split.
    - intros ((? & ?) & ?). done.
    - intros (? & ? & ?). done. }
  case_decide; simpl; lia.
Qed.

Lemma elem_of_left_join {B} (P : B → Prop) `{∀ b, Decision (P b)} (bs : list B) o :
  o ∈ SQL.left_join P bs ↔
  (o = None ∧ ∀ b, b ∈ bs → ¬ P b) ∨ (∃ b, o = Some b ∧ b ∈ bs ∧ P b).
Proof.
  unfold SQL.left_join. destruct (filter P bs) as [|b0 l] eqn:E.
  - rewrite list_elem_of_singleton. split.
    + intros ->. left. split; [done|]. intros b Hb HP.
      assert (b ∈ filter P bs) as Hin by (by apply list_elem_of_filter).
      rewrite E in Hin. by apply not_elem_of_nil in Hin.
    + intros [[-> _] | (b & -> & Hb & HP)]; [done|].
      assert (b ∈ filter P bs) as Hin by (by apply list_elem_of_filter).
      rewrite E in Hin. by apply not_elem_of_nil in Hin.
  - rewrite list_elem_of_fmap. rewrite <- E. split.
    + intros (b & -> & Hb). apply list_elem_of_filter in Hb as [HP Hb]. right. eauto.
    + intros [[-> Hnone] | (b & -> & Hb & HP)].
      * assert (b0 ∈ filter P bs) as Hin by (rewrite E; left).
        apply list_elem_of_filter in Hin as [HP Hb]. by apply Hnone in Hb.
      * exists b. split; [done|]. by apply list_elem_of_filter.
Qed.

Lemma left_join_inhabited {B} (P : B → Prop) `{∀ b, Decision (P b)} (bs : list B) :
  ∃ o, o ∈ SQL.left_join P bs.
Proof.
  unfold SQL.left_join. destruct (filter P bs) as [|b0 l].
  - exists None. left.
  - exists (Some b0). left.
Qed.

(** The rows of the constraint query. *)
Lemma elem_of_select_constraints (db : Database) (row : SQL.constraint_row) :
  row ∈ SQL.select_constraints db ↔
  SQL.t_row row ∈ table_constraints_view db ∧
  SQL.k_row row ∈ key_column_usage_view db ∧
  TABLE_CONSTRAINTS.CONSTRAINT_NAME (SQL.t_row row)
    = KEY_COLUMN_USAGE.CONSTRAINT_NAME (SQL.k_row row) ∧
  kept_constraint (SQL.t_row row) ∧
  ∃ r, r ∈ SQL.left_join
             (λ r, TABLE_CONSTRAINTS.CONSTRAINT_NAME (SQL.t_row row)
                   = REFERENTIAL_CONSTRAINTS.CONSTRAINT_NAME r)
             (referential_constraints_view db) ∧
       SQL.f_row row ∈
         match r with
         | Some r =>
             SQL.left_join (λ f, REFERENTIAL_CONSTRAINTS.UNIQUE_CONSTRAINT_NAME r
                                 = KEY_COLUMN_USAGE.CONSTRAINT_NAME f)
                           (key_column_usage_view db)
         | None => [None]
         end.
Proof.
  unfold SQL.select_constraints, kept_constraint. split.
  - intros Hin.
    apply list_elem_of_bind in Hin as (t & Hin & Ht).
    apply list_elem_of_bind in Hin as (k & Hin & Hk).
    apply list_elem_of_bind in Hin as (r & Hin & Hr).
    apply list_elem_of_bind in Hin as (f & Hin & Hf).
    apply list_elem_of_filter in Hk as [Hname Hk].
    case_decide as Hd; [|by apply not_elem_of_nil in Hin].
    apply list_elem_of_singleton in Hin as ->. simpl. eauto 10.
  - destruct row as [t k f]. simpl. intros (Ht & Hk & Hname & Hkept & r & Hr & Hf).
    apply list_elem_of_bind. exists t. split; [|done].
    apply list_elem_of_bind. exists k. split; [|by apply list_elem_of_filter].
    apply list_elem_of_bind. exists r. split; [|done].
    apply list_elem_of_bind. exists f. split; [|done].
    rewrite decide_True by done. left.
Qed.

(** X7: whether a pair is constrained, in the cache read off a catalog,
    rests on TABLE_CONSTRAINTS and KEY_COLUMN_USAGE alone: the pair is
    constrained by a kind exactly when the kind is one of the three kept, the
    table is not the diagram table, and a constraint of that kind on the
    table shares its name with a key column usage of that column.  The
    referential views add or remove no constraint, and a key column usage
    is matched by constraint name only, whatever table it names. *)
Theorem constrained_in_catalog (db : Database) (kind table column : string) :
  constrained_by (catalog_cache db) kind table column ↔
  kind ∈ ["PRIMARY KEY"; "FOREIGN KEY"; "UNIQUE"] ∧
  table ≠ "sysdiagrams" ∧
  ∃ t k,
    t ∈ table_constraints_view db ∧ k ∈ key_column_usage_view db ∧
    TABLE_CONSTRAINTS.CONSTRAINT_NAME t = KEY_COLUMN_USAGE.CONSTRAINT_NAME k ∧
    TABLE_CONSTRAINTS.CONSTRAINT_TYPE t = kind ∧
    TABLE_CONSTRAINTS.TABLE_NAME t = table ∧
    KEY_COLUMN_USAGE.COLUMN_NAME k = column.
Proof.
  unfold constrained_by. simpl. split.
  - intros (c & Hin & Hkind & Htable & Hcolumn).
    apply list_elem_of_fmap in Hin as (row & -> & Hin). simpl in *.
    apply elem_of_select_constraints in Hin as (Ht & Hk & Hname & [Hty Hne] & _).
    subst. split; [done|]. split; [done|]. eauto 10.
  - intros (Hkind & Hne & t & k & Ht & Hk & Hname & Hty & Htable & Hcolumn).
    destruct (left_join_inhabited
                (λ r, TABLE_CONSTRAINTS.CONSTRAINT_NAME t
                      = REFERENTIAL_CONSTRAINTS.CONSTRAINT_NAME r)
                (referential_constraints_view db)) as [r Hr].
    assert (∃ f, f ∈ match r with
                     | Some r =>
                         SQL.left_join
                           (λ f, REFERENTIAL_CONSTRAINTS.UNIQUE_CONSTRAINT_NAME r
                                 = KEY_COLUMN_USAGE.CONSTRAINT_NAME f)
                           (key_column_usage_view db)
                     | None => [None]
                     end) as [f Hf].
    { destruct r; [apply left_join_inhabited|exists None; left]. }
    exists (DBService.to_constraint (SQL.mk_constraint_row t k f)).
    split; [|done].
    apply list_elem_of_fmap. eexists. split; [done|].
    apply elem_of_select_constraints. simpl.
    split; [done|]. split; [done|]. split; [done|].
    split; [split; congruence|]. eauto.
Qed.

(** X8: a constraint is paired with every column on record for the key it
    references: for each key column usage of the constraint, and each key
    column usage of the referenced constraint, the cache holds a constraint
    from the one column to the other, so that a foreign key of several
    columns refers each of them to all the referenced columns. *)
Theorem every_referenced_column_paired (db : Database)
    (t : TABLE_CONSTRAINTS.row) (k f : KEY_COLUMN_USAGE.row)
    (r : REFERENTIAL_CONSTRAINTS.row) :
  t ∈ table_constraints_view db →
  k ∈ key_column_usage_view db →
  r ∈ referential_constraints_view db →
  f ∈ key_column_usage_view db →
  kept_constraint t →
  TABLE_CONSTRAINTS.CONSTRAINT_NAME t = KEY_COLUMN_USAGE.CONSTRAINT_NAME k →
  TABLE_CONSTRAINTS.CONSTRAINT_NAME t = REFERENTIAL_CONSTRAINTS.CONSTRAINT_NAME r →
  REFERENTIAL_CONSTRAINTS.UNIQUE_CONSTRAINT_NAME r = KEY_COLUMN_USAGE.CONSTRAINT_NAME f →
  Constraint.mk (TABLE_CONSTRAINTS.CONSTRAINT_NAME t)
                (TABLE_CONSTRAINTS.CONSTRAINT_TYPE t)
                (TABLE_CONSTRAINTS.TABLE_NAME t)
                (KEY_COLUMN_USAGE.COLUMN_NAME k)
                (PyStr (KEY_COLUMN_USAGE.TABLE_NAME f))
                (PyStr (KEY_COLUMN_USAGE.COLUMN_NAME f))
    ∈ SchemaCache.constraints (catalog_cache db).
Proof.
  intros Ht Hk Hr Hf Hkept Hname Hrname Hfname. simpl.
  apply list_elem_of_fmap. exists (SQL.mk_constraint_row t k (Some f)).
  split; [done|]. apply elem_of_select_constraints. simpl.
  split; [done|]. split; [done|]. split; [done|]. split; [done|].
  exists (Some r). split; apply elem_of_left_join; right; eauto.
Qed.

Lemma every_referenced_column_paired_witness :
  Constraint.mk "FK_org" "FOREIGN KEY" "Users" "org_id" (PyStr "Orgs") (PyStr "id")
    ∈ SchemaCache.constraints (catalog_cache ex_db).
Proof.
  apply (every_referenced_column_paired ex_db
           (TABLE_CONSTRAINTS.mk "FK_org" "FOREIGN KEY" "Users")
           (KEY_COLUMN_USAGE.mk "FK_org" "Users" "org_id")
           (KEY_COLUMN_USAGE.mk "PK_Orgs" "Orgs" "id")
           (REFERENTIAL_CONSTRAINTS.mk "FK_org" "PK_Orgs")).
  - simpl. set_solver.
  - simpl. set_solver.
  - simpl. set_solver.
  - simpl. set_solver.
  - split; [set_solver|discriminate].
  - reflexivity.
  - reflexivity.
  - reflexivity.
Defined.

(** X9: a foreign key whose referenced key has no column on record keeps
    its place in the cache with no source, and the reference of its column
    then reads "None.None" for it. *)
Theorem unlinked_foreign_key_reads_None (db : Database)
    (t : TABLE_CONSTRAINTS.row) (k : KEY_COLUMN_USAGE.row)
    (r : REFERENTIAL_CONSTRAINTS.row) :
  t ∈ table_constraints_view db →
  k ∈ key_column_usage_view db →
  r ∈ referential_constraints_view db →
  TABLE_CONSTRAINTS.CONSTRAINT_TYPE t = "FOREIGN KEY" →
  TABLE_CONSTRAINTS.TABLE_NAME t ≠ "sysdiagrams" →
  TABLE_CONSTRAINTS.CONSTRAINT_NAME t = KEY_COLUMN_USAGE.CONSTRAINT_NAME k →
  TABLE_CONSTRAINTS.CONSTRAINT_NAME t = REFERENTIAL_CONSTRAINTS.CONSTRAINT_NAME r →
  (∀ f, f ∈ key_column_usage_view db →
        REFERENTIAL_CONSTRAINTS.UNIQUE_CONSTRAINT_NAME r
        ≠ KEY_COLUMN_USAGE.CONSTRAINT_NAME f) →
  Constraint.mk (TABLE_CONSTRAINTS.CONSTRAINT_NAME t) "FOREIGN KEY"
                (TABLE_CONSTRAINTS.TABLE_NAME t) (KEY_COLUMN_USAGE.COLUMN_NAME k)
                PyNone PyNone
    ∈ SchemaCache.constraints (catalog_cache db) ∧
  ∃ refs,
    SchemaCache.get_column_reference (catalog_cache db)
      (TABLE_CONSTRAINTS.TABLE_NAME t) (KEY_COLUMN_USAGE.COLUMN_NAME k)
    = Some (join "; " refs) ∧
    "None.None" ∈ refs.
Proof.
  intros Ht Hk Hr Hty Hne Hname Hrname Hnone.
  set (c := Constraint.mk (TABLE_CONSTRAINTS.CONSTRAINT_NAME t) "FOREIGN KEY"
              (TABLE_CONSTRAINTS.TABLE_NAME t) (KEY_COLUMN_USAGE.COLUMN_NAME k)
              PyNone PyNone).
  assert (c ∈ SchemaCache.constraints (catalog_cache db)) as Hc.
  { simpl. apply list_elem_of_fmap. exists (SQL.mk_constraint_row t k None).
    split; [unfold DBService.to_constraint; simpl; by rewrite Hty|].
    apply elem_of_select_constraints. simpl.
    split; [done|]. split; [done|]. split; [done|].
    split; [split; [rewrite Hty; set_solver|done]|].
    exists (Some r). split; apply elem_of_left_join; [right; eauto|left; eauto]. }
  split; [exact Hc|].
  rewrite get_column_reference_unfold.
  assert (c ∈ filter (is_foreign_key_of (TABLE_CONSTRAINTS.TABLE_NAME t)
                        (KEY_COLUMN_USAGE.COLUMN_NAME k))
                     (SchemaCache.constraints (catalog_cache db))) as Hfk.
  { apply list_elem_of_filter. split; [done|exact Hc]. }
  destruct (filter _ _) as [|fk fks] eqn:E; [by apply not_elem_of_nil in Hfk|].
  eexists. split; [reflexivity|].
  apply list_elem_of_fmap. exists c. split; [done|exact Hfk].
Qed.

Lemma unlinked_foreign_key_reads_None_witness :
  SchemaCache.get_column_reference (catalog_cache ex_db_unlinked) "Users" "org_id"
  = Some "None.None" ∧
  ∃ refs,
    SchemaCache.get_column_reference (catalog_cache ex_db_unlinked) "Users" "org_id"
    = Some (join "; " refs) ∧
    "None.None" ∈ refs.
Proof.
  split; [reflexivity|].
  apply (unlinked_foreign_key_reads_None ex_db_unlinked
           (TABLE_CONSTRAINTS.mk "FK_org" "FOREIGN KEY" "Users")
           (KEY_COLUMN_USAGE.mk "FK_org" "Users" "org_id")
           (REFERENTIAL_CONSTRAINTS.mk "FK_org" "IX_Orgs")).
  - simpl. set_solver.
  - simpl. set_solver.
  - simpl. set_solver.
  - reflexivity.
  - discriminate.
  - reflexivity.
  - reflexivity.
  - intros f Hf. simpl in Hf. set_unfold in Hf.
    destruct Hf as [->|[->|[->|[->|[->|[]]]]]]; discriminate.
Defined.

(** ** Reading the catalog and closing the connection *)

(** X10: [bootstrap] runs the three queries in the order tables, columns,
    constraints and closes the connection last.  It closes only after all
    three went through: when it raises, no completed close is on record,
    and when a query raises, closing is not even tried, so the connection
    stays open. *)
Theorem bootstrap_closes_last (dbsvc : DBService.t) (w : world) (tr : list event) :
  (∀ cache tr',
     SchemaCache.bootstrap dbsvc w tr = (Ok cache, tr') →
     tr' = tr ++ (completed <$> bootstrap_calls)) ∧
  (∀ e tr',
     SchemaCache.bootstrap dbsvc w tr = (Raise e, tr') →
     ∃ n c,
       bootstrap_calls !! n = Some c ∧ raises w c = Some e ∧
       tr' = tr ++ (completed <$> take n bootstrap_calls) ++ [Event c (Some e)] ∧
       completed CloseConnection
         ∉ (completed <$> take n bootstrap_calls) ++ [Event c (Some e)]) ∧
  (∀ q e,
     raises w (Execute q) = Some e →
     ∃ e' calls,
       SchemaCache.bootstrap dbsvc w tr = (Raise e', tr ++ calls) ∧
       ∀ res, Event CloseConnection res ∉ calls).
Proof.
  unfold SchemaCache.bootstrap, DBService.get_tables, DBService.get_columns,
    DBService.get_constraints, DBService.close, perform, mbind, M_bind, mret, M_ret,
    bootstrap_calls, completed.
  destruct (raises w (Execute Q_tables)) as [e1|] eqn:H1; simpl.
  { split; [intros ?? [=]|]. split.
    - intros e tr' [= <- <-]. exists 0, (Execute Q_tables). simpl.
      repeat split; try done. intros Hin. set_unfold in Hin. intuition discriminate.
    - intros q e Hq. exists e1, [Event (Execute Q_tables) (Some e1)].
      split; [done|]. intros res Hin. set_unfold in Hin. intuition discriminate. }
  destruct (raises w (Execute Q_columns)) as [e2|] eqn:H2; simpl.
  { split; [intros ?? [=]|]. split.
    - intros e tr' [= <- <-]. exists 1, (Execute Q_columns). simpl.
      rewrite <- !(assoc_L (++)). repeat split; try done. intros Hin. set_unfold in Hin. intuition discriminate.
    - intros q e Hq. exists e2, [Event (Execute Q_tables) None; Event (Execute Q_columns) (Some e2)].
      rewrite <- !(assoc_L (++)). split; [done|]. intros res Hin. set_unfold in Hin. intuition discriminate. }
  destruct (raises w (Execute Q_constraints)) as [e3|] eqn:H3; simpl.
  { split; [intros ?? [=]|]. split.
    - intros e tr' [= <- <-]. exists 2, (Execute Q_constraints). simpl.
      rewrite <- !(assoc_L (++)). repeat split; try done. intros Hin. set_unfold in Hin. intuition discriminate.
    - intros q e Hq.
      exists e3, [Event (Execute Q_tables) None; Event (Execute Q_columns) None;
                  Event (Execute Q_constraints) (Some e3)].
      rewrite <- !(assoc_L (++)). split; [done|]. intros res Hin. set_unfold in Hin. intuition discriminate. }
  destruct (raises w CloseConnection) as [e4|] eqn:H4; simpl.
  - split; [intros ?? [=]|]. split.
    + intros e tr' [= <- <-]. exists 3, CloseConnection. simpl.
      rewrite <- !(assoc_L (++)). repeat split; try done. intros Hin. set_unfold in Hin. intuition discriminate.
    + intros q e Hq. destruct q; congruence.
  - split.
    + intros cache tr' [= <- <-]. by rewrite <- !(assoc_L (++)).
    + split; [intros ?? [=]|]. intros q e Hq. destruct q; congruence.
Qed.

(** ** The order of the calls of a run *)

Section script_order.
Context `{SheetNaming}.
Variables (w : world) (server catalog directory : string).
Variables (r : result unit) (tr : list event).
Hypothesis Hrun : script_run w server catalog directory r tr.

Ltac run_cases :=
  destruct Hrun;
  [ match goal with
    | Hp : prelude _ _ !! _ = Some _ |- _ =>
        destruct (prelude_cases _ _ _ _ Hp)
          as [[-> ->]|[[-> ->]|[[-> ->]|[[-> ->]|[[-> ->]|[-> ->]]]]]]
    end
  | .. ];
  unfold prelude, completed in *; simpl in *.

Ltac events :=
  repeat match goal with
         | Hin : _ ∈ _ :: _ |- _ => apply elem_of_cons in Hin as [Hin|Hin]
         | Hin : _ ∈ [] |- _ => by apply not_elem_of_nil in Hin
         | Hin : Event _ _ = Event _ _ |- _ => injection Hin as ??
         end;
  simplify_eq.

(** The first call connects, with the connection string of the server and
    the catalog. *)
Lemma connects_first :
  ∃ res rest, tr = Event (Connect (connection_string server catalog)) res :: rest.
Proof. run_cases; eauto. Qed.

(** Saving is tried only once the whole prelude went through. *)
Lemma save_after_prelude path wb res :
  Event (SaveFile path wb) res ∈ tr →
  ∃ rest, tr = (completed <$> prelude server catalog) ++ Event (SaveFile path wb) res :: rest.
Proof. intros Hin. run_cases; events; eauto. Qed.

(** The report follows a completed save and names the path saved to. *)
Lemma report_after_save line res :
  Event (PrintLine line) res ∈ tr →
  ∃ path wb,
    line = "Data Dictionary Created: " +:+ path ∧
    tr = (completed <$> prelude server catalog) ++
         [ completed (SaveFile path wb); Event (PrintLine line) res ].
Proof. intros Hin. run_cases; events; eauto. Qed.

(** Closing is tried only once the three queries went through. *)
Lemma close_after_queries res q :
  Event CloseConnection res ∈ tr → completed (Execute q) ∈ tr.
Proof.
  intros Hin. run_cases; events; destruct q; repeat constructor.
Qed.

(** A run that raises where no call does has raised in the loop over the
    tables, after the prelude and before the save. *)
Lemma raise_without_call e :
  r = Raise e → (∀ ev, ev ∈ tr → ev_raised ev = None) →
  DDSpider.run_tables (script_spider w server catalog directory) = Raise e ∧
  tr = completed <$> prelude server catalog.
Proof.
  intros Hr Hall. run_cases; simplify_eq; try done.
  all: match goal with
       | _ : raises w ?c = Some ?e' |- _ =>
           assert (ev_raised (Event c (Some e')) = None) as Habs
             by (apply Hall; rewrite ?elem_of_app, ?elem_of_cons; tauto);
           discriminate Habs
       end.
Qed.

(** When the loop over the tables raises, the run raises and does not try
    to save. *)
Lemma loop_raises_no_save e :
  DDSpider.run_tables (script_spider w server catalog directory) = Raise e →
  (∃ e', r = Raise e') ∧ ∀ path wb res, Event (SaveFile path wb) res ∉ tr.
Proof.
  intros Hloop. run_cases; try congruence; (split; [eauto|]); intros path wb res Hin; events.
Qed.
End script_order.

(** X11: the calls of a run come in one order.  The first call connects
    with the connection string built from the server and the catalog;
    closing the connection is tried only after the three queries went
    through; saving is tried only after the connection was closed, all six
    calls before it completed; and the report is printed only after a
    completed save, and names the path the workbook was saved to. *)
Theorem calls_in_script_order `{SheetNaming} (w : world) (server catalog directory : string) :
  let tr := (discoverdb server catalog directory w []).2 in
  (∃ res rest, tr = Event (Connect (connection_string server catalog)) res :: rest) ∧
  (∀ res q, Event CloseConnection res ∈ tr → completed (Execute q) ∈ tr) ∧
  (∀ path wb res,
     Event (SaveFile path wb) res ∈ tr →
     ∃ rest, tr = (completed <$> prelude server catalog)
                  ++ Event (SaveFile path wb) res :: rest) ∧
  (∀ line res,
     Event (PrintLine line) res ∈ tr →
     ∃ path wb,
       line = "Data Dictionary Created: " +:+ path ∧
       tr = (completed <$> prelude server catalog) ++
            [ completed (SaveFile path wb); Event (PrintLine line) res ]).
Proof.
  pose proof (discoverdb_run w server catalog directory) as Hrun.
  split; [exact (connects_first _ _ _ _ _ _ Hrun)|].
  split; [intros res q; exact (close_after_queries _ _ _ _ _ _ Hrun res q)|].
  split; [intros path wb res; exact (save_after_prelude _ _ _ _ _ _ Hrun path wb res)|].
  intros line res. exact (report_after_save _ _ _ _ _ _ Hrun line res).
Qed.

(** ** Table names the workbook refuses *)

Lemma describe_table_refused `{SheetNaming} (xl : XLService.t) (desc : TableDescription.t)
    (c : Ascii.ascii) :
  Workbook.invalid_title_character
    (Workbook.title_or_default (TableDescription.table_name desc)) = Some c →
  XLService.describe_table xl desc
  = Raise (ValueError ("Invalid character " +:+ String c "" +:+ " found in sheet title")).
Proof. intros Hc. rewrite describe_table_unfold. by rewrite Hc. Qed.

(** X12: one table name with a character that the workbook refuses in a
    sheet title spoils the whole run: the run raises and never tries to
    save, however many tables were described before.  When the tables
    before it were described, the exception is the library's [ValueError],
    whose message names the first such character of the name. *)
Theorem refused_title_aborts `{SheetNaming} (w : world)
    (server catalog directory T : string) (c : Ascii.ascii) :
  T ∈ SchemaCache.tables (catalog_cache (script_database w server catalog)) →
  Workbook.invalid_title_character (Workbook.title_or_default T) = Some c →
  (∃ e, (discoverdb server catalog directory w []).1 = Raise e) ∧
  (∀ path wb res,
     Event (SaveFile path wb) res ∉ (discoverdb server catalog directory w []).2) ∧
  (∀ pre post xl,
     SchemaCache.tables (catalog_cache (script_database w server catalog))
       = pre ++ T :: post →
     for_each (λ xl table,
                 XLService.describe_table xl
                   (DDSpider.describe (script_spider w server catalog directory) table))
              (DDSpider.xlservice (script_spider w server catalog directory)) pre = Ok xl →
     DDSpider.run_tables (script_spider w server catalog directory)
       = Raise (ValueError ("Invalid character " +:+ String c "" +:+
                            " found in sheet title"))).
Proof.
  intros Hin Hno.
  assert (∃ e, DDSpider.run_tables (script_spider w server catalog directory) = Raise e)
    as [e Hloop].
  { unfold DDSpider.run_tables. apply (for_each_raises _ T); [exact Hin|].
    intros xl. eexists. apply (describe_table_refused _ _ c).
    by rewrite describe_table_name. }
  pose proof (discoverdb_run w server catalog directory) as Hrun.
  destruct (loop_raises_no_save _ _ _ _ _ _ Hrun e Hloop) as [Hr Hsave].
  split; [exact Hr|]. split; [exact Hsave|].
  intros pre post xl Htables Hpre.
  unfold DDSpider.run_tables.
  change (SchemaCache.tables (DDSpider.cache (script_spider w server catalog directory)))
    with (SchemaCache.tables (catalog_cache (script_database w server catalog))).
  rewrite Htables.
  eapply for_each_first_raise; [exact Hpre|].
  apply describe_table_refused. by rewrite describe_table_name.
Qed.

Lemma ex_slash_tables :
  SchemaCache.tables (catalog_cache (script_database ex_world_slash "srv" "Shop")) = ["In/Out"].
Proof. reflexivity. Qed.

Lemma refused_title_aborts_witness :
  (∃ e, (@discoverdb plain_naming "srv" "Shop" "C:\out" ex_world_slash []).1 = Raise e) ∧
  (∀ path wb res,
     Event (SaveFile path wb) res
       ∉ (@discoverdb plain_naming "srv" "Shop" "C:\out" ex_world_slash []).2) ∧
  (∀ pre post xl,
     SchemaCache.tables (catalog_cache (script_database ex_world_slash "srv" "Shop"))
       = pre ++ "In/Out" :: post →
     for_each (λ xl table,
                 @XLService.describe_table plain_naming xl
                   (DDSpider.describe (script_spider ex_world_slash "srv" "Shop" "C:\out")
                      table))
              (DDSpider.xlservice (script_spider ex_world_slash "srv" "Shop" "C:\out")) pre
       = Ok xl →
     @DDSpider.run_tables plain_naming (script_spider ex_world_slash "srv" "Shop" "C:\out")
       = Raise (ValueError ("Invalid character " +:+ String "/"%char "" +:+
                            " found in sheet title"))).
Proof.
  apply (@refused_title_aborts plain_naming ex_world_slash "srv" "Shop" "C:\out" "In/Out"
           "/"%char).
  - rewrite ex_slash_tables. constructor.
  - reflexivity.
Defined.

(** ** Table names that are already taken *)

(** X13: when a sheet of the workbook already bears the name of the table,
    [describe_table] still puts a new sheet last, under the title the
    library picks instead, and then writes to the sheet it gets back by
    name, which is the first one so titled: the headers and the fields go
    to the older sheet, and the new sheet stays empty.  It raises exactly
    when writing the headers or the fields to the older sheet raises; when
    it returns, the new sheet is last and without a cell, and the older
    sheet, at its place, holds the headers in row 1 and the values of the
    k-th field in row k+2, as the cells keep them. *)
Theorem duplicate_name_overwrites `{SheetNaming}
    (xl : XLService.t) (desc : TableDescription.t) :
  Workbook.invalid_title_character
    (Workbook.title_or_default (TableDescription.table_name desc)) = None →
  TableDescription.table_name desc ∈ Workbook.sheetnames (XLService.wkbk xl) →
  ∃ i ws,
    list_find (λ ws, Worksheet.title ws = TableDescription.table_name desc)
              (XLService.wkbk xl) = Some (i, ws) ∧
    XLService.describe_table xl desc =
      (ws1 ← XLService._write_headers ws (TableDescription.headers desc);
       ws2 ← XLService._write_fields ws1 desc;
       mret (XLService.mk (XLService.fullpath xl)
               (<[i := ws2]> (XLService.wkbk xl) ++
                [ Worksheet.mk
                    (Workbook.new_title (TableDescription.table_name desc)
                       (XLService.wkbk xl)) ∅ ]))) ∧
    ∀ xl',
      XLService.describe_table xl desc = Ok xl' →
      last (XLService.wkbk xl') =
        Some (Worksheet.mk
                (Workbook.new_title (TableDescription.table_name desc) (XLService.wkbk xl))
                ∅) ∧
      ∃ ws2,
        XLService.wkbk xl' !! i = Some ws2 ∧
        Worksheet.title ws2 = TableDescription.table_name desc ∧
        (∀ j h, TableDescription.headers desc !! j = Some h →
                Worksheet.cells ws2 !! (1, j + 1) = Some (Worksheet.stored (PyStr h))) ∧
        (∀ k f j v,
           TableDescription.fields desc !! k = Some f →
           Field.to_row f !! j = Some v →
           j < length (TableDescription.headers desc) →
           Worksheet.cells ws2 !! (k + 2, j + 1) = Some (Worksheet.stored v)).
Proof.
  intros Hok Hin. unfold Workbook.sheetnames in Hin.
  apply list_elem_of_fmap in Hin as (ws & Hname & Hin).
  destruct (list_find_elem_of
              (λ ws, Worksheet.title ws = TableDescription.table_name desc)
              (XLService.wkbk xl) ws Hin) as [[i ws0] Hfind]; [done|].
  exists i, ws0. split; [done|].
  pose proof Hfind as Hi. apply list_find_Some in Hi as (Hi & Htitle & _).
  rewrite describe_table_unfold, Hok.
  rewrite (list_find_app_l _ _ _ _ _ Hfind).
  pose proof (write_headers_cases ws0 (TableDescription.headers desc)) as Hhead.
  destruct (XLService._write_headers ws0 _) as [ws1|]; simpl; [|done].
  pose proof (write_fields_cases ws1 desc) as Hfields.
  destruct (XLService._write_fields ws1 _) as [ws2|]; simpl; [|done].
  rewrite insert_app_l by (by eapply lookup_lt_Some).
  split; [done|].
  intros xl' [= <-]. simpl. split; [by rewrite last_snoc|].
  destruct Hhead as [Ht1 Hc1], Hfields as [Ht2 Hc2].
  exists ws2. split.
  { rewrite lookup_app_l by (rewrite length_insert; by eapply lookup_lt_Some).
    apply list_lookup_insert_eq. by eapply lookup_lt_Some. }
  split; [by rewrite Ht2, Ht1|]. split.
  - intros j h Hj. pose proof (lookup_lt_Some _ _ _ Hj) as Hlt.
    rewrite Hc2, decide_False by lia.
    rewrite Hc1, decide_True by lia.
    replace (j + 1 - 1) with j by lia. by rewrite Hj.
  - intros k f j v Hk Hj Hlt.
    pose proof (lookup_lt_Some _ _ _ Hk) as Hklt.
    pose proof (lookup_lt_Some _ _ _ Hj) as Hjlt. rewrite to_row_length in Hjlt.
    rewrite Hc2. unfold written_width.
    rewrite (decide_False (P := length (TableDescription.headers desc) = 0)) by lia.
    rewrite decide_True by lia. rewrite decide_True by lia.
    replace (k + 2 - 2) with k by lia. replace (j + 1 - 1) with j by lia.
    rewrite Hk. simpl. by rewrite Hj.
Qed.

Lemma duplicate_name_overwrites_witness :
  ∃ i ws,
    list_find (λ ws, Worksheet.title ws = "Users") [ Worksheet.mk "Users" ∅ ]
      = Some (i, ws) ∧
    @XLService.describe_table plain_naming
      (XLService.mk "out.xlsx" [ Worksheet.mk "Users" ∅ ]) (TableDescription.init "Users") =
      (ws1 ← XLService._write_headers ws
               (TableDescription.headers (TableDescription.init "Users"));
       ws2 ← XLService._write_fields ws1 (TableDescription.init "Users");
       mret (XLService.mk "out.xlsx"
               (<[i := ws2]> [ Worksheet.mk "Users" ∅ ] ++
                [ Worksheet.mk
                    (@Workbook.new_title plain_naming "Users" [ Worksheet.mk "Users" ∅ ])
                    ∅ ]))).
Proof.
  destruct (@duplicate_name_overwrites plain_naming
              (XLService.mk "out.xlsx" [ Worksheet.mk "Users" ∅ ])
              (TableDescription.init "Users"))
    as (i & ws & Hfind & Heq & _).
  - reflexivity.
  - constructor.
  - exists i, ws. split; [exact Hfind|exact Heq].
Defined.

(** A table listed twice in the catalog: its sheet is written twice, each
    column on it twice, and a second sheet is left empty. *)
Example table_listed_twice :
  (λ xl, (λ ws, (Worksheet.title ws, length (Worksheet.values ws), Worksheet.max_row ws))
           <$> XLService.wkbk xl) <$>
    (match @DDSpider.run_tables plain_naming (script_spider ex_world_twice "srv" "Shop" "C:\out") with
     | Ok xl => Some xl
     | Raise _ => None
     end) =
  Some [ ("Users", 3, 3); ("Users1", 0, 1) ].
Proof. vm_compute. reflexivity. Qed.

(** ** The sheets of the workbook *)

Lemma for_each_sheet_count `{SheetNaming} (self : DDSpider.t) (tables : list string) :
  ∀ xl xl',
    for_each (λ xl table, XLService.describe_table xl (DDSpider.describe self table))
             xl tables = Ok xl' →
    length (XLService.wkbk xl') = length (XLService.wkbk xl) + length tables.
Proof.
  induction tables as [|t ts IH]; intros xl xl'; simpl.
  - intros [= ->]. lia.
  - destruct (XLService.describe_table xl _) as [xl1|e] eqn:Hd; simpl; [|done].
    intros Hrest. apply IH in Hrest. rewrite Hrest.
    apply describe_table_titles in Hd as [_ Hd].
    apply (f_equal length) in Hd. unfold Workbook.sheetnames in Hd.
    rewrite length_app, !length_fmap in Hd. simpl in Hd. lia.
Qed.

Lemma for_each_sheetnames `{SheetNaming} (self : DDSpider.t) (tables : list string) :
  ∀ xl xl',
    (∀ pre T post,
       tables = pre ++ T :: post →
       avoid_duplicate_name (Workbook.sheetnames (XLService.wkbk xl) ++ pre)
                            (Workbook.title_or_default T) = T) →
    for_each (λ xl table, XLService.describe_table xl (DDSpider.describe self table))
             xl tables = Ok xl' →
    Workbook.sheetnames (XLService.wkbk xl')
    = Workbook.sheetnames (XLService.wkbk xl) ++ tables.
Proof.
  induction tables as [|t ts IH]; intros xl xl' Hkept; simpl.
  - intros [= ->]. by rewrite app_nil_r.
  - destruct (XLService.describe_table xl _) as [xl1|e] eqn:Hd; simpl; [|done].
    intros Hrest. apply describe_table_titles in Hd as [_ Hd].
    rewrite describe_table_name in Hd. unfold Workbook.new_title in Hd.
    pose proof (Hkept [] t ts eq_refl) as Ht. rewrite app_nil_r in Ht.
    rewrite Ht in Hd.
    apply IH in Hrest.
    + rewrite Hrest, Hd. by rewrite <- (assoc_L (++)).
    + intros pre T post ->. rewrite Hd, <- (assoc_L (++)).
      by apply (Hkept (t :: pre) T post).
Qed.

(** X14: the loop over the tables adds one sheet per entry of the table
    list, whatever the names.  When the library gives each new sheet the
    very name of its table as its title, the sheets come after those
    already there, titled by the tables, in the order of the table list. *)
Theorem sheets_in_table_order `{SheetNaming} (self : DDSpider.t) (xl' : XLService.t) :
  DDSpider.run_tables self = Ok xl' →
  length (XLService.wkbk xl')
  = length (XLService.wkbk (DDSpider.xlservice self))
    + length (SchemaCache.tables (DDSpider.cache self)) ∧
  ((∀ pre T post,
      SchemaCache.tables (DDSpider.cache self) = pre ++ T :: post →
      avoid_duplicate_name
        (Workbook.sheetnames (XLService.wkbk (DDSpider.xlservice self)) ++ pre)
        (Workbook.title_or_default T) = T) →
   Workbook.sheetnames (XLService.wkbk xl')
   = Workbook.sheetnames (XLService.wkbk (DDSpider.xlservice self))
     ++ SchemaCache.tables (DDSpider.cache self)).
Proof.
  unfold DDSpider.run_tables. intros Hrun. split.
  - by apply (for_each_sheet_count self).
  - intros Hkept. by apply (for_each_sheetnames self).
Qed.

Lemma ex_run_tables :
  ∃ xl, @DDSpider.run_tables plain_naming (script_spider ex_world "srv" "Shop" "C:\out") = Ok xl.
Proof. vm_compute. eexists. reflexivity. Qed.

Lemma ex_tables :
  SchemaCache.tables (DDSpider.cache (script_spider ex_world "srv" "Shop" "C:\out"))
  = ["Users"; "Orgs"].
Proof. vm_compute. reflexivity. Qed.

Lemma ex_sheet_order :
  Workbook.sheetnames
    (XLService.wkbk (DDSpider.xlservice (script_spider ex_world "srv" "Shop" "C:\out")))
  ++ SchemaCache.tables (DDSpider.cache (script_spider ex_world "srv" "Shop" "C:\out"))
  = ["Users"; "Orgs"].
Proof. vm_compute. reflexivity. Qed.

Lemma sheets_in_table_order_witness :
  ∃ xl,
    @DDSpider.run_tables plain_naming (script_spider ex_world "srv" "Shop" "C:\out") = Ok xl ∧
    Workbook.sheetnames (XLService.wkbk xl) = ["Users"; "Orgs"].
Proof.
  destruct ex_run_tables as [xl Hrun]. exists xl. split; [exact Hrun|].
  destruct (@sheets_in_table_order plain_naming
              (script_spider ex_world "srv" "Shop" "C:\out") xl Hrun) as [_ Hnames].
  rewrite Hnames; [exact ex_sheet_order|].
  intros pre T post Htables. rewrite ex_tables in Htables.
  destruct pre as [|p1 [|p2 pre]]; simpl in Htables.
  - injection Htables as <- <-. vm_compute. reflexivity.
  - injection Htables as <- <- <-. vm_compute. reflexivity.
  - injection Htables as _ _ Hnil. by destruct pre.
Defined.

(** ** Every column of a base table is written *)

Lemma select_columns_includes (db : Database) (c : COLUMNS.row) (t : TABLES.row) :
  c ∈ columns_view db → t ∈ tables_view db →
  COLUMNS.TABLE_NAME c = TABLES.TABLE_NAME t →
  TABLES.TABLE_NAME t ≠ "sysdiagrams" → TABLES.TABLE_TYPE t = "BASE TABLE" →
  (c, is_identity db (COLUMNS.TABLE_NAME c) (COLUMNS.COLUMN_NAME c)) ∈ SQL.select_columns db.
Proof.
  intros Hc Ht Hname Hne Hty. unfold SQL.select_columns.
  apply list_elem_of_fmap. exists c. split; [done|].
  rewrite merge_sort_Permutation.
  apply list_elem_of_bind. exists c. split; [|done].
  apply list_elem_of_bind. exists t. split; [|by apply list_elem_of_filter].
  rewrite decide_True by done. constructor.
Qed.

(** X15: in a run that succeeds, every row of COLUMNS whose table is listed
    as a base table other than the diagram table is on the saved workbook:
    the sheet handed out for the name of its table has a data row that is
    the row of the field made of that column, as the cells keep it. *)
Theorem every_base_column_documented `{SheetNaming} (w : world)
    (server catalog directory : string) (c : COLUMNS.row) (t : TABLES.row) :
  (discoverdb server catalog directory w []).1 = Ok () →
  c ∈ columns_view (script_database w server catalog) →
  t ∈ tables_view (script_database w server catalog) →
  COLUMNS.TABLE_NAME c = TABLES.TABLE_NAME t →
  TABLES.TABLE_NAME t ≠ "sysdiagrams" →
  TABLES.TABLE_TYPE t = "BASE TABLE" →
  ∃ path wb ws i,
    completed (SaveFile path wb) ∈ (discoverdb server catalog directory w []).2 ∧
    sheet_named wb (COLUMNS.TABLE_NAME c) ws ∧
    Worksheet.title ws = COLUMNS.TABLE_NAME c ∧
    Worksheet.values ws !! (i + 1) =
      Some (Worksheet.stored <$>
            Field.to_row
              (DDSpider.make_field (script_spider w server catalog directory)
                 (COLUMNS.TABLE_NAME c)
                 (DBService.to_column
                    (c, is_identity (script_database w server catalog)
                          (COLUMNS.TABLE_NAME c) (COLUMNS.COLUMN_NAME c))))).
Proof.
  intros Hok Hc Ht Hname Hne Hty.
  pose proof (discoverdb_run w server catalog directory) as Hrun.
  destruct (success_trace _ _ _ _ _ _ Hrun Hok) as (xl & Hloop & Htr).
  set (spider := script_spider w server catalog directory) in *.
  set (db := script_database w server catalog) in *.
  assert (COLUMNS.TABLE_NAME c ∈ SchemaCache.tables (DDSpider.cache spider)) as HT.
  { rewrite Hname. by apply select_tables_includes. }
  unfold DDSpider.run_tables in Hloop.
  apply (for_each_described_inv spider) in Hloop as [_ Hdesc];
    [|intros ws Hws; by apply not_elem_of_nil in Hws].
  destruct (described_values spider _ _ (Hdesc _ (or_intror HT)))
    as (ws & Hnamed & Htitle & Hvalues & _).
  assert (DBService.to_column
            (c, is_identity db (COLUMNS.TABLE_NAME c) (COLUMNS.COLUMN_NAME c))
          ∈ SchemaCache.get_columns_for_table (DDSpider.cache spider) (COLUMNS.TABLE_NAME c))
    as Hcol.
  { unfold SchemaCache.get_columns_for_table. apply list_elem_of_filter. split; [done|].
    apply list_elem_of_fmap. eexists. split; [done|].
    by apply (select_columns_includes db c t). }
  apply list_elem_of_lookup in Hcol as [i Hi].
  exists (XLService.fullpath xl), (XLService.wkbk xl), ws, i.
  split; [rewrite Htr; apply elem_of_app; right; constructor|].
  split; [done|]. split; [done|].
  rewrite Hvalues. unfold stored_rows, sheet_rows.
  rewrite describe_unfold, Nat.add_1_r, fmap_cons.
  cbn [TableDescription.fields].
  change ((?x :: ?l) !! S i) with (l !! i).
  by rewrite !list_lookup_fmap, Hi.
Qed.

Lemma every_base_column_documented_witness :
  ∃ path wb ws i,
    completed (SaveFile path wb)
      ∈ (@discoverdb plain_naming "srv" "Shop" "C:\out" ex_world []).2 ∧
    sheet_named wb "Users" ws ∧
    Worksheet.title ws = "Users" ∧
    Worksheet.values ws !! (i + 1) =
      Some (Worksheet.stored <$>
            Field.to_row
              (DDSpider.make_field (script_spider ex_world "srv" "Shop" "C:\out") "Users"
                 (DBService.to_column
                    (COLUMNS.mk "Users" "email" 2 (PyStr "NO") (PyStr "varchar")
                                (PyInt 255) PyNone,
                     is_identity (script_database ex_world "srv" "Shop") "Users" "email")))).
Proof.
  apply (@every_base_column_documented plain_naming ex_world "srv" "Shop" "C:\out"
           (COLUMNS.mk "Users" "email" 2 (PyStr "NO") (PyStr "varchar") (PyInt 255) PyNone)
           (TABLES.mk "Shop" "Users" "BASE TABLE")).
  - exact ex_world_succeeds.
  - repeat constructor.
  - repeat constructor.
  - reflexivity.
  - discriminate.
  - reflexivity.
Defined.

(** ** What writing a description touches *)

(** X16: [_write_fields] goes over the rows 2 to n+1 and, in each, over the
    columns 1 to the number of headers, or to the last column in use on
    the sheet when there is no header at all.  When it returns, row i+2
    keeps the values of the i-th field as far as that width goes: with
    fewer than ten columns the attributes past the width are dropped, with
    more the cells past the tenth have come into being without a value, or
    keep the one they had; no other cell is changed, so the rows an
    earlier, longer description left on the sheet stay there, and the
    title is kept.  It raises only what one of the values it writes
    raises when it is bound to a cell, and returns when none does. *)
Theorem write_fields_cells (ws : Worksheet.t) (desc : TableDescription.t) :
  let width :=
    if decide (length (TableDescription.headers desc) = 0)
    then Worksheet.max_column ws
    else length (TableDescription.headers desc) in
  (∀ ws',
     XLService._write_fields ws desc = Ok ws' →
     Worksheet.title ws' = Worksheet.title ws ∧
     ∀ r c,
       Worksheet.cells ws' !! (r, c) =
       if decide (2 ≤ r ∧ r ≤ length (TableDescription.fields desc) + 1 ∧
                  1 ≤ c ∧ c ≤ width)
       then if decide (c ≤ 10)
            then TableDescription.fields desc !! (r - 2) ≫=
                   λ f, Worksheet.stored <$> Field.to_row f !! (c - 1)
            else Some (default PyNone (Worksheet.cells ws !! (r, c)))
       else Worksheet.cells ws !! (r, c)) ∧
  (∀ e,
     XLService._write_fields ws desc = Raise e →
     ∃ f j v, f ∈ TableDescription.fields desc ∧ j < width ∧
              Field.to_row f !! j = Some v ∧
              Worksheet.bind_value v = Raise e) ∧
  ((∀ f j v, f ∈ TableDescription.fields desc → j < width →
             Field.to_row f !! j = Some v →
             Worksheet.bind_value v = Ok (Worksheet.stored v)) →
   ∃ ws', XLService._write_fields ws desc = Ok ws').
Proof.
  intros width.
  pose proof (write_fields_cases ws desc) as Hc.
  change (written_width ws (length (TableDescription.headers desc))) with width in Hc.
  split; [|split].
  - intros ws' Hw. by rewrite Hw in Hc.
  - intros e Hw. by rewrite Hw in Hc.
  - intros Hlegal. destruct (XLService._write_fields ws desc) as [ws'|e]; [eauto|].
    destruct Hc as (f & j & v & Hf & Hj & Hv & Hb).
    rewrite (Hlegal f j v Hf Hj Hv) in Hb. done.
Qed.

(** X17: a successful [describe_table] puts one empty sheet last and then
    changes one sheet only, the one the workbook hands out for the name of
    the table; every other sheet is as it was, and the path is kept. *)
Theorem describe_table_touches_one_sheet `{SheetNaming}
    (xl xl' : XLService.t) (desc : TableDescription.t) :
  XLService.describe_table xl desc = Ok xl' →
  XLService.fullpath xl' = XLService.fullpath xl ∧
  ∃ i,
    Workbook.get_sheet_by_name (TableDescription.table_name desc)
      (XLService.wkbk xl ++
       [ Worksheet.mk (Workbook.new_title (TableDescription.table_name desc)
                         (XLService.wkbk xl)) ∅ ]) = Ok i ∧
    ∀ j, j ≠ i →
      XLService.wkbk xl' !! j =
      (XLService.wkbk xl ++
       [ Worksheet.mk (Workbook.new_title (TableDescription.table_name desc)
                         (XLService.wkbk xl)) ∅ ]) !! j.
Proof.
  rewrite describe_table_unfold. unfold Workbook.get_sheet_by_name.
  destruct (Workbook.invalid_title_character _); [done|].
  destruct (list_find _ _) as [[i ws]|]; [|done].
  destruct (XLService._write_headers ws _) as [ws1|e]; simpl; [|done].
  destruct (XLService._write_fields ws1 _) as [ws2|e]; simpl; [|done].
  intros [= <-]. simpl. split; [done|]. exists i. split; [done|].
  intros j Hj. by rewrite list_lookup_insert_ne.
Qed.

Lemma describe_table_touches_one_sheet_witness :
  ∃ xl',
    @XLService.describe_table plain_naming
      (XLService.mk "out.xlsx" [ Worksheet.mk "Orgs" ∅ ]) (TableDescription.init "Users")
    = Ok xl' ∧
    XLService.fullpath xl' = "out.xlsx" ∧
    XLService.wkbk xl' !! 0 = Some (Worksheet.mk "Orgs" ∅).
Proof.
  assert (∃ xl', @XLService.describe_table plain_naming
                   (XLService.mk "out.xlsx" [ Worksheet.mk "Orgs" ∅ ])
                   (TableDescription.init "Users") = Ok xl') as [xl' Hd].
  { vm_compute. eexists. reflexivity. }
  exists xl'. split; [exact Hd|].
  destruct (@describe_table_touches_one_sheet plain_naming _ _ _ Hd) as (Hpath & i & Hi & Hframe).
  split; [exact Hpath|].
  assert (i = 1) as -> by (vm_compute in Hi; congruence).
  by rewrite Hframe.
Defined.

(** ** A catalog without a base table *)

(** X18: when the catalog lists no base table other than the diagram
    table, the loop over the tables describes nothing and the workbook
    handed to [save] has no sheet at all: the sheet a new workbook starts
    with was removed when the workbook service was set up. *)
Theorem no_base_table_no_sheet `{SheetNaming} (w : world) (server catalog directory : string) :
  (∀ t, t ∈ tables_view (script_database w server catalog) →
        TABLES.TABLE_NAME t = "sysdiagrams" ∨ TABLES.TABLE_TYPE t ≠ "BASE TABLE") →
  DDSpider.run_tables (script_spider w server catalog directory)
    = Ok (DDSpider.xlservice (script_spider w server catalog directory)) ∧
  ∀ path wb res,
    Event (SaveFile path wb) res ∈ (discoverdb server catalog directory w []).2 →
    wb = [].
Proof.
  intros Hnone.
  assert (SchemaCache.tables (DDSpider.cache (script_spider w server catalog directory)) = [])
    as Hempty.
  { simpl. destruct (SQL.select_tables _) as [|t ts] eqn:E; [done|].
    assert (t ∈ SQL.select_tables (script_database w server catalog)) as Hin
      by (rewrite E; constructor).
    apply list_elem_of_filter in Hin as [[Hne Hty] Hin].
    destruct (Hnone t Hin); done. }
  assert (DDSpider.run_tables (script_spider w server catalog directory)
          = Ok (DDSpider.xlservice (script_spider w server catalog directory))) as Hloop.
  { unfold DDSpider.run_tables. by rewrite Hempty. }
  split; [exact Hloop|]. intros path wb res Hin.
  pose proof (discoverdb_run w server catalog directory) as Hrun.
  destruct (saved_workbook _ _ _ _ _ _ Hrun path wb res Hin) as (xl & Hxl & _ & ->).
  rewrite Hloop in Hxl. by injection Hxl as <-.
Qed.

Lemma ex_views_run :
  @discoverdb plain_naming "srv" "Shop" "C:\out" ex_world_views [] =
    (Ok (),
     (completed <$> prelude "srv" "Shop") ++
     [ completed (SaveFile "C:\out\Shop_DataDictionary.xlsx" []);
       completed (PrintLine "Data Dictionary Created: C:\out\Shop_DataDictionary.xlsx") ]).
Proof. vm_compute. reflexivity. Qed.

Lemma no_base_table_no_sheet_witness :
  completed (SaveFile "C:\out\Shop_DataDictionary.xlsx" [])
    ∈ (@discoverdb plain_naming "srv" "Shop" "C:\out" ex_world_views []).2 ∧
  ∀ path wb res,
    Event (SaveFile path wb) res
      ∈ (@discoverdb plain_naming "srv" "Shop" "C:\out" ex_world_views []).2 →
    wb = [].
Proof.
  split.
  - rewrite ex_views_run. apply elem_of_app. right. constructor.
  - apply (@no_base_table_no_sheet plain_naming ex_world_views "srv" "Shop" "C:\out").
    intros t Ht.
    change (tables_view (script_database ex_world_views "srv" "Shop"))
      with [ TABLES.mk "Shop" "UserView" "VIEW"; TABLES.mk "Shop" "sysdiagrams" "BASE TABLE" ]
      in Ht.
    apply elem_of_cons in Ht as [->|Ht]; [right; discriminate|].
    apply elem_of_cons in Ht as [->|Ht]; [left; reflexivity|].
    by apply not_elem_of_nil in Ht.
Defined.

(** ** The cells under each header *)

(** X19: on the sheet of a table, the cells of a column's row stand under
    the header that names them: the key role under "Primary/Foreign Key",
    the column name under "Field Name", "Identity" or nothing under
    "Caption", the data type under "Data Type", the default under "Default",
    the catalog's own nullable value under "Nullable", not a boolean made
    of it, and the reference under "Reference". *)
Theorem catalog_values_under_headers (self : DDSpider.t) (table : string)
    (ws : Worksheet.t) (i : nat) (col : Column.t) :
  holds ws (sheet_rows (DDSpider.describe self table)) →
  SchemaCache.get_columns_for_table (DDSpider.cache self) table !! i = Some col →
  let cell r c := Worksheet.cells ws !! (r, c) in
  (cell 1 1 = Some (PyStr "Primary/Foreign Key") ∧
   cell (i + 2) 1 =
     Some (of_option (SchemaCache.is_column_a_key (DDSpider.cache self) table
                        (Column.COLUMN_NAME col)))) ∧
  (cell 1 2 = Some (PyStr "Field Name") ∧
   cell (i + 2) 2 = Some (PyStr (Column.COLUMN_NAME col))) ∧
  (cell 1 3 = Some (PyStr "Caption") ∧
   cell (i + 2) 3 =
     Some (if truthy (Column.IS_IDENTITY col) then PyStr "Identity" else PyNone)) ∧
  (cell 1 4 = Some (PyStr "Data Type") ∧
   cell (i + 2) 4 = Some (Column.DATA_TYPE col)) ∧
  (cell 1 6 = Some (PyStr "Default") ∧
   cell (i + 2) 6 = Some (Column.COLUMN_DEFAULT col)) ∧
  (cell 1 7 = Some (PyStr "Nullable") ∧
   cell (i + 2) 7 = Some (Column.IS_NULLABLE col)) ∧
  (cell 1 9 = Some (PyStr "Reference") ∧
   cell (i + 2) 9 =
     Some (of_option (SchemaCache.get_column_reference (DDSpider.cache self) table
                        (Column.COLUMN_NAME col)))).
Proof.
  intros Hh Hcol. cbv zeta. rewrite !Hh. unfold grid, sheet_rows. simpl.
  replace (i + 2 - 1) with (S i) by lia. simpl.
  rewrite describe_unfold. simpl. rewrite !list_lookup_fmap, Hcol. simpl.
  rewrite !decide_True by lia.
  unfold DDSpider.make_field.
  destruct (truthy (Column.IS_IDENTITY col)); repeat split; reflexivity.
Qed.

Lemma ex_spider_run :
  ∃ xl, @DDSpider.run_tables plain_naming ex_spider = Ok xl.
Proof. vm_compute. eexists. reflexivity. Qed.

Lemma ex_spider_rows :
  stored_rows (DDSpider.describe ex_spider "Users")
  = sheet_rows (DDSpider.describe ex_spider "Users").
Proof. vm_compute. reflexivity. Qed.

Lemma catalog_values_under_headers_witness :
  ∃ ws,
    holds ws (sheet_rows (DDSpider.describe ex_spider "Users")) ∧
    Worksheet.cells ws !! (1, 7) = Some (PyStr "Nullable") ∧
    Worksheet.cells ws !! (1 + 2, 7) = Some (PyStr "NO") ∧
    Worksheet.cells ws !! (1 + 2, 2) = Some (PyStr "email").
Proof.
  destruct ex_spider_run as [xl Hrun]. unfold DDSpider.run_tables in Hrun.
  apply (@for_each_described_inv plain_naming ex_spider) in Hrun as [_ Hdesc];
    [|intros ws Hws; by apply not_elem_of_nil in Hws].
  destruct (Hdesc "Users") as (ws & _ & _ & Hh); [right; constructor|].
  rewrite ex_spider_rows in Hh.
  exists ws. split; [exact Hh|].
  destruct (catalog_values_under_headers ex_spider "Users" ws 1 ex_email Hh eq_refl)
    as (_ & (_ & Hname) & _ & _ & _ & (Hn1 & Hn2) & _).
  split; [exact Hn1|]. split; [exact Hn2|exact Hname].
Defined.

(** ** The header row *)

(** X20: [_write_headers] never raises an index error: the index it reads
    stays in range.  It raises only when a header is refused as a cell
    value, which a header with an illegal character among its first 32767
    is, and returns when none is.  When it returns, the j-th header stands
    in row 1, column j, as the cell keeps it, and nothing else has changed:
    every other cell and the title are as before. *)
Theorem write_headers_row_one (ws : Worksheet.t) (headers : list string) :
  (∀ e,
     XLService._write_headers ws headers = Raise e →
     ∃ h, h ∈ headers ∧
          Worksheet.bind_value (PyStr h) = Raise e ∧
          e = IllegalCharacterError
                (String.substring 0 Worksheet.MAX_STRING h +:+
                 " cannot be used in worksheets.")) ∧
  ((∀ h, h ∈ headers →
         Worksheet.bind_value (PyStr h) = Ok (Worksheet.stored (PyStr h))) →
   ∃ ws', XLService._write_headers ws headers = Ok ws') ∧
  (∀ ws',
     XLService._write_headers ws headers = Ok ws' →
     Worksheet.title ws' = Worksheet.title ws ∧
     (∀ j h, headers !! j = Some h →
             Worksheet.cells ws' !! (1, j + 1) = Some (Worksheet.stored (PyStr h))) ∧
     (∀ r c, r ≠ 1 ∨ c = 0 ∨ length headers < c →
             Worksheet.cells ws' !! (r, c) = Worksheet.cells ws !! (r, c))).
Proof.
  pose proof (write_headers_cases ws headers) as Hc.
  split; [|split].
  - intros e Hw. rewrite Hw in Hc. destruct Hc as (h & Hin & Hb).
    exists h. split; [done|]. split; [done|].
    pose proof (bind_value_cases (PyStr h)) as Hcases. rewrite Hb in Hcases.
    destruct Hcases as (s & [= <-] & _ & ->). done.
  - apply write_headers_legal.
  - intros ws' Hw. rewrite Hw in Hc. destruct Hc as [Ht Hcells].
    split; [exact Ht|]. split.
    + intros j h Hj. rewrite Hcells.
      pose proof (lookup_lt_Some _ _ _ Hj).
      rewrite decide_True by lia.
      replace (j + 1 - 1) with j by lia. by rewrite Hj.
    + intros r c Hout. rewrite Hcells. by rewrite decide_False by lia.
Qed.

(** Without a header the fields are still written, as wide as the sheet
    is: on a sheet without a cell the key of each field goes to column 1
    and the other attributes are dropped. *)
Example write_fields_without_headers :
  (λ ws, map_to_list (Worksheet.cells ws)) <$>
    (match XLService._write_fields (Worksheet.mk "T" ∅)
             (TableDescription.mk [] "T"
                [ Field.init (PyStr "P") (PyStr "id") PyNone (PyStr "int") PyNone PyNone
                             (PyStr "NO") (PyBool false) PyNone PyNone ]) with
     | Ok ws => Some ws
     | Raise _ => None
     end)
  = Some [ ((2, 1), PyStr "P") ].
Proof. vm_compute. reflexivity. Qed.

(** A header, or a column name, with a control character is refused as a
    cell value, and the exception ends the description of the table. *)
Example control_character_refused :
  let bell := String (Ascii.ascii_of_nat 7) "" in
  XLService._write_headers (Worksheet.mk "T" ∅) [ "Field Name"; "a" +:+ bell ]
  = Raise (IllegalCharacterError ("a" +:+ bell +:+ " cannot be used in worksheets.")) ∧
  @DDSpider.run_tables plain_naming
    (DDSpider.mk (DBService.mk ex_db "Shop")
       (SchemaCache.mk ["T"]
          [ Column.mk "T" ("a" +:+ bell) (PyStr "NO") (PyStr "int") PyNone PyNone PyNone ] [])
       (XLService.mk "out.xlsx" []))
  = Raise (IllegalCharacterError ("a" +:+ bell +:+ " cannot be used in worksheets.")).
Proof. vm_compute. split; reflexivity. Qed.
